(** * A shallow embedding of the primes load generator

    The development follows the Python sources of the repository:

    - [Py]            the run-time values the code manipulates (JSON-like
                      configuration values, truthiness, [float(...)],
                      [min]/[max], [%], [round]);
    - [Distributions] [primes/distributions/*.py]: the seven rate-shape
                      evaluators, their [initialize], [validate] and
                      [get_rate], and the validation helper;
    - [Client]        [primes/async_api_client.py]: the retry loop; and
                      [primes/api_client_base.py]: the URL of a request;
    - [Executor]      [primes/api/test_executor.py]: run configuration, run
                      state, mode selection, token bucket, metrics payload,
                      [execute_test] and [stop_test], the interleavings
                      of one run, the accounting of a request, the paced
                      mode, the scheduling loop and one iteration of the
                      shape mode with its checks, and the command line,
                      environment and output of the locust mode;
    - [Examples]      concrete inputs and the vocabulary of the statements.

    The properties follow the definitions, grouped by component.

    Numbers.  Python [int] is [Z].  Python [float] is idealised as an exact
    rational [Q]: rounding, infinities and NaN are outside the model, every
    comparison and arithmetic operation is the exact one.  Where that
    decides a statement, the statement says so: a sum the caller rounds is
    the binary64 sum of the Standard Library's [SpecFloat] ([float_add]);
    a statement that needs [math.sin] to return is confined to angles a
    float can hold ([sines_within]); and a statement about configurations
    that [validate] has not checked is confined to the classes on which a
    value that is not finite makes no difference ([clamping_leaf]). *)

From Stdlib Require Import QArith Qminmax Qround Lqa Lia ZArith Sorted.
From Stdlib Require SpecFloat.
From stdpp Require Import gmap strings list pretty.

Set Warnings "-register-all,-clear-no-such-hyp".

Local Open Scope string_scope.

(* ===================================================================== *)
(** * Python values *)
(* ===================================================================== *)

Module Py.

(** A value that can occur inside a distribution configuration
    ([dict[str, Any]] decoded from JSON). A [dict] keeps its items in
    insertion order; a lookup returns the first binding of the key. *)
Inductive PyVal : Type :=
| PNone
| PBool (b : bool)
| PInt (z : Z)
| PFloat (q : Q)
| PStr (s : string)
| PList (l : list PyVal)
| PDict (d : list (string * PyVal)).

Abbreviation Dict := (list (string * PyVal)).

(** [d.get(key)] as an option, and [key in d]. *)
Fixpoint dict_lookup (key : string) (d : Dict) : option PyVal :=
  match d with
  | [] => None
  | (k, v) :: d' => if String.eqb k key then Some v else dict_lookup key d'
  end.

(** [d.get(key)]: [None] when the key is absent. *)
Definition dict_get (key : string) (d : Dict) : PyVal :=
  match dict_lookup key d with Some v => v | None => PNone end.

Definition dict_contains (key : string) (d : Dict) : bool :=
  match dict_lookup key d with Some _ => true | None => false end.

(** Comparisons of floats, as booleans. *)
Definition fle (x y : Q) : bool := Qle_bool x y.
Definition flt (x y : Q) : bool := negb (Qle_bool y x).
Definition feq (x y : Q) : bool := Qeq_bool x y.

(** Truthiness ([if v:], [not v]). *)
Definition truthy (v : PyVal) : bool :=
  match v with
  | PNone => false
  | PBool b => b
  | PInt z => negb (Z.eqb z 0)
  | PFloat q => negb (feq q 0)
  | PStr s => negb (String.eqb s EmptyString)
  | PList l => match l with [] => false | _ => true end
  | PDict d => match d with [] => false | _ => true end
  end.

(** Truthiness of an [Optional[int]] and of an [Optional[float]]. *)
Definition truthy_opt_int (o : option Z) : bool :=
  match o with Some z => negb (Z.eqb z 0) | None => false end.

Definition truthy_opt_float (o : option Q) : bool :=
  match o with Some q => negb (feq q 0) | None => false end.

(** [max(a, b)] returns [a] unless [b > a]; [min(a, b)] returns [a] unless
    [b < a].  These are the Standard Library's [Qmax] and [Qmin], which
    make the same choice on ties. *)
Definition py_max (a b : Q) : Q := Qmax a b.
Definition py_min (a b : Q) : Q := Qmin a b.

(** [x % y] on floats: the result has the sign of [y]. A float has one
    representation per value, so the result is kept in lowest terms. *)
Definition py_fmod (x y : Q) : Q :=
  Qred (x - y * inject_Z (Qfloor (x / y))).

(** [round(x, 2)]: nearest multiple of 1/100, ties to the even one. *)
Definition py_round2 (x : Q) : Q :=
  let y := (x * 100)%Q in
  let f := Qfloor y in
  let r := (y - inject_Z f)%Q in
  let n := if flt r (1 # 2) then f
           else if flt (1 # 2) r then (f + 1)%Z
           else if Z.even f then f else (f + 1)%Z in
  (inject_Z n / 100)%Q.

(** The parts of the Python run time the sources call and that are not
    code of the repository. *)
Class Runtime := {
  (** the state of the [random] module's generator *)
  RngState : Type;
  (** [random.gauss(mu, sigma)] *)
  random_gauss : Q -> Q -> RngState -> Q * RngState;
  (** [math.sin] *)
  math_sin : Q -> Q;
  (** [float(s)] on a string: [None] stands for [ValueError] *)
  float_of_str : string -> option Q;
  (** [json.loads(s)]: [None] stands for [JSONDecodeError] *)
  json_loads : string -> option PyVal
}.

(** [math.pi] is the double nearest to pi. *)
Definition math_pi : Q := 884279719003555 # 281474976710656.

(** [isinstance(v, (int, float))]; [bool] is a subclass of [int]. *)
Definition as_number (v : PyVal) : option Q :=
  match v with
  | PBool b => Some (if b then 1 else 0)%Q
  | PInt z => Some (inject_Z z)
  | PFloat q => Some q
  | _ => None
  end.

(** [float(v)]: [None] stands for [TypeError] or [ValueError]. *)
Definition py_float `{Runtime} (v : PyVal) : option Q :=
  match v with
  | PStr s => float_of_str s
  | _ => as_number v
  end.

Definition is_none (v : PyVal) : bool :=
  match v with PNone => true | _ => false end.

Definition is_some {A} (o : option A) : bool :=
  match o with Some _ => true | None => false end.

Definition is_list (v : PyVal) : bool :=
  match v with PList _ => true | _ => false end.

Definition is_empty {A} (l : list A) : bool :=
  match l with [] => true | _ => false end.

Definition float_or (o : option Q) (default : Q) : Q :=
  match o with Some q => q | None => default end.

(** [sum(l)] *)
Definition py_sum (l : list Q) : Q := fold_left Qplus l 0%Q.

(** The float Python computes for [x + y]: the binary64 number nearest
    to the exact sum, ties to the even mantissa, as [SpecFloat] of the
    Standard Library defines it on floats given by sign, mantissa and
    exponent. *)
Definition float_add (x y : SpecFloat.spec_float) : SpecFloat.spec_float :=
  SpecFloat.SFadd 53 1024 x y.

(** The rational a finite float stands for ([None] for an infinity or
    NaN). *)
Definition float_value (x : SpecFloat.spec_float) : option Q :=
  match x with
  | SpecFloat.S754_zero _ => Some 0%Q
  | SpecFloat.S754_finite s m e =>
      Some ((if s then -1 else 1) * inject_Z (Zpos m) * Qpower 2 e)%Q
  | _ => None
  end.

End Py.

Import Py.

(* ===================================================================== *)
(** * Rate-shape evaluators ([primes/distributions]) *)
(* ===================================================================== *)

Module Distributions.

Section WithRuntime.
Context `{Runtime}.

(** ** [utils.py] *)

Definition to_float (value : PyVal) (default : option Q) : option Q :=
  match value with
  | PBool _ => default
  | PInt _ | PFloat _ | PStr _ =>
      match py_float value with Some q => Some q | None => default end
  | _ => default
  end.

Definition parse_float (value : PyVal) (default : option Q)
  : option Q * bool :=
  match value with
  | PNone => (default, true)
  | PBool _ => (default, false)
  | PInt _ | PFloat _ | PStr _ =>
      match py_float value with
      | Some q => (Some q, true)
      | None => (default, false)
      end
  | _ => (default, false)
  end.

(** [validate_numeric(value, allow_none=, positive=, non_negative=,
    finite=True)] on an attribute holding [None] or a float. The
    [isinstance] and [math.isfinite] tests always pass on a rational. *)
Definition validate_numeric (value : option Q)
    (allow_none positive non_negative : bool) : bool :=
  match value with
  | None => allow_none
  | Some v =>
      if positive && fle v 0 then false
      else if non_negative && flt v 0 then false
      else true
  end.

Definition validate_config_structure (config : PyVal) : bool :=
  match config with
  | PNone | PDict _ => true
  | _ => false
  end.

Definition parse_json_or_list (value : PyVal) : bool * PyVal :=
  match value with
  | PNone => (true, PNone)
  | PStr s =>
      match json_loads s with
      | Some v => (true, v)
      | None => (false, PNone)
      end
  | PList _ | PDict _ => (true, value)
  | _ => (false, PNone)
  end.

(** ** [registry.py], [loader.py]

    The registry after [register_builtin_distributions]. Plugins discovered
    through entry points of the host environment are not part of the
    model. *)
Inductive PluginClass : Type :=
| ConstantClass | LinearClass | PoissonClass | StepClass | SineClass
| MixClass | SequenceClass.

Definition registry : gmap string PluginClass :=
  <["sequence" := SequenceClass]>
  (<["mix" := MixClass]>
  (<["sine" := SineClass]>
  (<["step" := StepClass]>
  (<["poisson" := PoissonClass]>
  (<["linear" := LinearClass]>
  (<["constant" := ConstantClass]> ∅)))))).

Definition get_plugin_class (name : string) : option PluginClass :=
  registry !! name.

(** ** Instances

    One constructor per class, carrying the attributes [initialize] sets.
    The composites own their children. The raw [components] and [stages]
    lists, which no method reads, are left out. *)
Inductive Plugin : Type :=
| ConstantDistribution (config : Dict) (_parse_error : bool)
    (rps : option Q)
| LinearDistribution (config : Dict) (_parse_error : bool)
    (ramp_duration : Q)
| PoissonDistribution (config : Dict) (_parse_error : bool)
    (lambda_param : option Q) (variance_scale : Q)
| StepDistribution (config : Dict) (_parse_error : bool)
    (steps : list (Q * Q)) (default_rps : Q)
| SineDistribution (config : Dict) (_parse_error : bool)
    (period amplitude phase_shift : Q) (base_rps : option Q)
| MixDistribution (config : Dict) (_parse_error : bool)
    (mix_target_rps : option Q)
    (_component_plugins : list Plugin)
    (_component_weights : list Q)
    (_component_targets : list (option Q))
    (_normalized_weights : list Q)
| SequenceDistribution (config : Dict) (_parse_error : bool)
    (post_behavior : string)
    (_stage_plugins : list Plugin)
    (_stage_durations _stage_starts : list Q)
    (_total_duration : Q).

(** [self._validate_config()] of the base class. *)
Definition _validate_config (config : Dict) : bool :=
  validate_config_structure (PDict config).

(** ** Evaluation monad

    [get_rate] may draw from the random generator (poisson) and may raise
    [IndexError] (a list subscript out of range): a computation takes the
    generator's state and either raises ([None]) or returns a value and the
    new state. *)
Definition Eval (A : Type) : Type := RngState -> option (A * RngState).

Definition ret {A} (a : A) : Eval A := fun g => Some (a, g).

Definition bind {A B} (m : Eval A) (k : A -> Eval B) : Eval B :=
  fun g => match m g with
           | Some (a, g') => k a g'
           | None => None
           end.

Definition raise_IndexError {A} : Eval A := fun _ => None.

Definition gauss (mu sigma : Q) : Eval Q :=
  fun g => Some (random_gauss mu sigma g).

Local Notation "'let*' x ':=' m 'in' k" := (bind m (fun x => k))
  (at level 10, x name, m at level 100, k at level 200).

(** ** Leaf evaluators *)

(** *** [constant.py] *)

Definition constant_initialize (config : Dict) : Plugin :=
  if truthy (PDict config) && dict_contains "rps" config then
    let '(rps, parsed) := parse_float (dict_get "rps" config) None in
    ConstantDistribution config (negb parsed) rps
  else
    ConstantDistribution config false None.

Definition constant_get_rate (rps : option Q) (time_elapsed target_rps : Q)
  : Q :=
  match rps with
  | Some v => if flt 0 v then v else py_max 0 target_rps
  | None => py_max 0 target_rps
  end.

Definition constant_validate (config : Dict) (_parse_error : bool)
    (rps : option Q) : bool :=
  if _parse_error then false
  else if negb (validate_numeric rps true true false) then false
  else _validate_config config.

(** *** [linear.py] *)

Definition linear_initialize (config : Dict) : Plugin :=
  if dict_contains "ramp_duration" config then
    let '(ramp_duration, parsed) :=
      parse_float (dict_get "ramp_duration" config) (Some 60%Q) in
    LinearDistribution config (negb parsed) (float_or ramp_duration 60)
  else
    LinearDistribution config false 60.

Definition linear_get_rate (ramp_duration : Q) (time_elapsed target_rps : Q)
  : Q :=
  if fle ramp_duration 0 then target_rps
  else if fle ramp_duration time_elapsed then target_rps
  else ((time_elapsed / ramp_duration) * target_rps)%Q.

Definition linear_validate (config : Dict) (_parse_error : bool)
    (ramp_duration : Q) : bool :=
  if _parse_error then false
  else if negb (validate_numeric (Some ramp_duration) true true false)
  then false
  else _validate_config config.

(** *** [poisson.py] *)

Definition poisson_initialize (config : Dict) : Plugin :=
  let '(lambda_param, err1) :=
    if truthy (PDict config) && dict_contains "lambda_param" config then
      let '(v, parsed) := parse_float (dict_get "lambda_param" config) None in
      (v, negb parsed)
    else (None, false) in
  let '(variance_scale, err2) :=
    if dict_contains "variance_scale" config then
      let '(v, parsed) :=
        parse_float (dict_get "variance_scale" config) (Some 1%Q) in
      (float_or v 1, negb parsed)
    else (1%Q, false) in
  PoissonDistribution config (err1 || err2) lambda_param variance_scale.

Definition poisson_get_rate (lambda_param : option Q) (variance_scale : Q)
    (time_elapsed target_rps : Q) : Eval Q :=
  let effective :=
    if truthy_opt_float lambda_param then float_or lambda_param 0
    else target_rps in
  if fle effective 0 then ret 0%Q
  else
    let* noise := gauss 0 ((1 # 10) * variance_scale) in
    ret (py_max 0 (effective * (1 + noise))).

Definition poisson_validate (config : Dict) (_parse_error : bool)
    (lambda_param : option Q) (variance_scale : Q) : bool :=
  if _parse_error then false
  else if negb (validate_numeric lambda_param true true false) then false
  else if negb (validate_numeric (Some variance_scale) false true false)
  then false
  else _validate_config config.

(** *** [step.py] *)

(** [for t, r in steps_data]: unpacking an item into exactly two values.
    A list of two items, a string of two characters and a dict of two keys
    unpack; anything else raises ([None]). *)
Definition unpack_pair (v : PyVal) : option (PyVal * PyVal) :=
  match v with
  | PList [a; b] => Some (a, b)
  | PStr (String c1 (String c2 EmptyString)) =>
      Some (PStr (String c1 EmptyString), PStr (String c2 EmptyString))
  | PDict [(k1, _); (k2, _)] => Some (PStr k1, PStr k2)
  | _ => None
  end.

(** [(float(t), float(r)) for t, r in steps_data]: [None] when an item
    raises [TypeError] or [ValueError]. *)
Fixpoint float_pairs (steps_data : list PyVal) : option (list (Q * Q)) :=
  match steps_data with
  | [] => Some []
  | item :: rest =>
      match unpack_pair item with
      | None => None
      | Some (t, r) =>
          match py_float t, py_float r with
          | Some ft, Some fr =>
              match float_pairs rest with
              | Some l => Some ((ft, fr) :: l)
              | None => None
              end
          | _, _ => None
          end
      end
  end.

(** [sorted] on tuples of floats: lexicographic order, stable. *)
Definition tuple_lt (a b : Q * Q) : bool :=
  flt (fst a) (fst b) || (feq (fst a) (fst b) && flt (snd a) (snd b)).

Fixpoint sorted_insert (x : Q * Q) (l : list (Q * Q)) : list (Q * Q) :=
  match l with
  | [] => [x]
  | y :: l' => if tuple_lt x y then x :: y :: l' else y :: sorted_insert x l'
  end.

Definition py_sorted (l : list (Q * Q)) : list (Q * Q) :=
  fold_left (fun acc x => sorted_insert x acc) l [].

(** [_parse_steps]: the parsed steps, and whether [_parse_error] is set. *)
Definition _parse_steps (steps_json : PyVal) : list (Q * Q) * bool :=
  if negb (truthy steps_json) then ([], false)
  else
    let '(success, steps_data) := parse_json_or_list steps_json in
    match steps_data with
    | PList items =>
        if negb success then ([], true)
        else match float_pairs items with
             | Some l => (py_sorted l, false)
             | None => ([], true)
             end
    | _ => ([], true)
    end.

Definition step_initialize (config : Dict) : Plugin :=
  let '(default_rps, err1) :=
    if dict_contains "default_rps" config then
      let '(v, parsed) :=
        parse_float (dict_get "default_rps" config) (Some 0%Q) in
      (float_or v 0, negb parsed)
    else (0%Q, false) in
  let '(steps, err2) := _parse_steps (dict_get "steps" config) in
  StepDistribution config (err1 || err2) steps default_rps.

(** The loop of [get_rate]: [rate] is overwritten by every step whose time
    has passed, and the loop breaks at the first step that lies ahead. *)
Fixpoint step_loop (steps : list (Q * Q)) (time_elapsed rate : Q) : Q :=
  match steps with
  | [] => rate
  | (step_time, step_rate) :: rest =>
      if fle step_time time_elapsed then step_loop rest time_elapsed step_rate
      else rate
  end.

Definition step_get_rate (_parse_error : bool) (steps : list (Q * Q))
    (default_rps : Q) (time_elapsed target_rps : Q) : Q :=
  if _parse_error then py_max 0 target_rps
  else match steps with
       | [] => py_max 0 target_rps
       | _ => py_max 0 (step_loop steps time_elapsed default_rps)
       end.

(** [_is_valid_step] on a stored step (always a pair of floats). *)
Definition _is_valid_step (step : Q * Q) (prev_time : Q) : bool * Q :=
  let '(step_time, step_rate) := step in
  if negb (validate_numeric (Some step_time) false false true)
  then (false, prev_time)
  else if negb (validate_numeric (Some step_rate) false false true)
  then (false, prev_time)
  else if fle step_time prev_time then (false, prev_time)
  else (true, step_time).

Fixpoint steps_valid (steps : list (Q * Q)) (prev_time : Q) : bool :=
  match steps with
  | [] => true
  | step :: rest =>
      let '(valid, prev_time') := _is_valid_step step prev_time in
      if valid then steps_valid rest prev_time' else false
  end.

Definition step_validate (config : Dict) (_parse_error : bool)
    (steps : list (Q * Q)) (default_rps : Q) : bool :=
  if _parse_error then false
  else if negb (validate_numeric (Some default_rps) false false true)
  then false
  else if negb (steps_valid steps (-1)) then false
  else _validate_config config.

(** *** [sine.py] *)

Definition _parse_required_float (config : Dict) (key : string)
    (default : Q) : Q * bool :=
  if negb (dict_contains key config) then (default, false)
  else
    let '(value, parsed) := parse_float (dict_get key config) (Some default) in
    (float_or value default, negb parsed).

Definition _parse_optional_float (config : Dict) (key : string)
  : option Q * bool :=
  if negb (dict_contains key config) then (None, false)
  else
    let '(value, parsed) := parse_float (dict_get key config) None in
    (value, negb parsed).

Definition sine_initialize (config : Dict) : Plugin :=
  let '(period, e1) := _parse_required_float config "period" 3600 in
  let '(amplitude, e2) := _parse_required_float config "amplitude" (1 # 2) in
  let '(phase_shift, e3) := _parse_required_float config "phase_shift" 0 in
  let '(base_rps, e4) := _parse_optional_float config "base_rps" in
  SineDistribution config (e1 || e2 || e3 || e4)
    period amplitude phase_shift base_rps.

Definition sine_get_rate (period amplitude phase_shift : Q)
    (base_rps : option Q) (time_elapsed target_rps : Q) : Q :=
  if fle period 0 then target_rps
  else
    let base :=
      if truthy_opt_float base_rps then float_or base_rps 0
      else target_rps in
    let angle := (2 * math_pi * (time_elapsed + phase_shift) / period)%Q in
    (base * (1 + amplitude * math_sin angle))%Q.

Definition sine_validate (config : Dict) (_parse_error : bool)
    (period amplitude phase_shift : Q) (base_rps : option Q) : bool :=
  if _parse_error then false
  else if negb (validate_numeric (Some period) false true false) then false
  else if negb (validate_numeric (Some amplitude) false true false)
          || negb (flt 0 amplitude && fle amplitude 1) then false
  else if negb (validate_numeric (Some phase_shift) false false true)
  then false
  else if negb (validate_numeric base_rps true true false) then false
  else _validate_config config.

(** ** Composite evaluators

    A composite calls [get_rate] and [validate] of its children, whatever
    their class: the functions below take the children's methods as lists
    of closures, in the order of [_component_plugins] or [_stage_plugins]. *)

(** *** [mix.py] *)

Definition _effective_target (mix_target_rps override : option Q)
    (target_rps : Q) : Q :=
  match override with
  | Some o => o
  | None =>
      match mix_target_rps with
      | Some m => m
      | None => target_rps
      end
  end.

(** The loop over [zip(_component_plugins, _normalized_weights,
    _component_targets)]. *)
Fixpoint mix_loop (children : list (Q -> Q -> Eval Q)) (weights : list Q)
    (targets : list (option Q)) (mix_target_rps : option Q)
    (time_elapsed target_rps mixed_rate : Q) : Eval Q :=
  match children, weights, targets with
  | child :: cs, weight :: ws, override :: os =>
      let effective_target :=
        _effective_target mix_target_rps override target_rps in
      let* component_rate := child time_elapsed effective_target in
      mix_loop cs ws os mix_target_rps time_elapsed target_rps
        (mixed_rate + weight * component_rate)%Q
  | _, _, _ => ret mixed_rate
  end.

Definition mix_get_rate (children : list (Q -> Q -> Eval Q))
    (_parse_error : bool) (mix_target_rps : option Q)
    (_normalized_weights : list Q) (_component_targets : list (option Q))
    (time_elapsed target_rps : Q) : Eval Q :=
  if _parse_error || is_empty children || is_empty _normalized_weights
  then ret (py_max 0 target_rps)
  else if fle (py_sum _normalized_weights) 0 then ret (py_max 0 target_rps)
  else
    let* mixed_rate :=
      mix_loop children _normalized_weights _component_targets
        mix_target_rps time_elapsed target_rps 0 in
    ret (py_max 0 mixed_rate).

(** The loop of [validate] over [zip(_component_weights,
    _component_targets, _component_plugins)]; [valids] holds the children's
    [validate()]. *)
Fixpoint mix_components_valid (weights : list Q)
    (targets : list (option Q)) (valids : list bool) : bool :=
  match weights, targets, valids with
  | weight :: ws, target_override :: os, valid :: vs =>
      if negb (validate_numeric (Some weight) false true false) then false
      else if negb (validate_numeric target_override true true false)
      then false
      else if negb valid then false
      else mix_components_valid ws os vs
  | _, _, _ => true
  end.

Definition mix_validate (config : Dict) (_parse_error : bool)
    (mix_target_rps : option Q) (valids : list bool)
    (_component_weights : list Q) (_component_targets : list (option Q))
    (_normalized_weights : list Q) : bool :=
  if _parse_error then false
  else if is_empty valids then false
  else if negb (validate_numeric mix_target_rps true true false) then false
  else if negb (mix_components_valid _component_weights _component_targets
                  valids) then false
  else if is_empty _normalized_weights then false
  else if negb (validate_numeric (Some (py_sum _normalized_weights))
                  false true false) then false
  else _validate_config config.

(** *** [sequence.py] *)

Definition _last_stage_index {A} (_stage_plugins : list A) : Z :=
  (Z.of_nat (length _stage_plugins) - 1)%Z.

(** [_rate_for_stage]; the two subscripts raise [IndexError] out of
    range (the index is never negative when they are reached). *)
Definition _rate_for_stage (children : list (Q -> Q -> Eval Q))
    (_stage_starts : list Q) (index : Z) (elapsed target_rps : Q) : Eval Q :=
  if (index <? 0)%Z then ret (py_max 0 target_rps)
  else
    match _stage_starts !! Z.to_nat index with
    | None => raise_IndexError
    | Some stage_start =>
        match children !! Z.to_nat index with
        | None => raise_IndexError
        | Some child => child (elapsed - stage_start)%Q target_rps
        end
    end.

(** [_elapsed_for_behavior]: [None] is the Python [None] (hold the last
    stage). *)
Definition _elapsed_for_behavior (post_behavior : string)
    (_total_duration elapsed target_rps : Q) : option (Q * Q) :=
  if String.eqb post_behavior "repeat"
  then Some (py_fmod elapsed _total_duration, target_rps)
  else if flt elapsed _total_duration then Some (elapsed, target_rps)
  else if String.eqb post_behavior "zero" then Some (elapsed, 0%Q)
  else if String.eqb post_behavior "hold_last" then None
  else Some (elapsed, target_rps).

(** The loop of [_find_active_stage] over
    [enumerate(zip(_stage_starts, _stage_durations))], from [index] on. *)
Fixpoint find_stage_from (index : Z) (starts durations : list Q)
    (elapsed : Q) : option Z :=
  match starts, durations with
  | stage_start :: ss, duration :: ds =>
      if flt elapsed (stage_start + duration) then Some index
      else find_stage_from (index + 1) ss ds elapsed
  | _, _ => None
  end.

Definition _find_active_stage {A} (_stage_plugins : list A)
    (_stage_starts _stage_durations : list Q) (elapsed : Q) : Z :=
  match find_stage_from 0 _stage_starts _stage_durations elapsed with
  | Some index => index
  | None => _last_stage_index _stage_plugins
  end.

Definition sequence_get_rate (children : list (Q -> Q -> Eval Q))
    (_parse_error : bool) (post_behavior : string)
    (_stage_durations _stage_starts : list Q) (_total_duration : Q)
    (time_elapsed target_rps : Q) : Eval Q :=
  if _parse_error || is_empty children then ret (py_max 0 target_rps)
  else if fle _total_duration 0 then ret (py_max 0 target_rps)
  else
    match _elapsed_for_behavior post_behavior _total_duration
            time_elapsed target_rps with
    | None =>
        _rate_for_stage children _stage_starts (_last_stage_index children)
          time_elapsed target_rps
    | Some (elapsed, fallback_rate) =>
        if feq fallback_rate 0 then ret 0%Q
        else
          let stage_index :=
            _find_active_stage children _stage_starts _stage_durations
              elapsed in
          _rate_for_stage children _stage_starts stage_index elapsed
            target_rps
    end.

(** The loop of [validate] over
    [enumerate(zip(_stage_durations, _stage_plugins))], from index [i]. *)
Fixpoint sequence_stages_valid (i : nat) (durations : list Q)
    (valids : list bool) (_stage_starts : list Q) : bool :=
  match durations, valids with
  | duration :: ds, valid :: vs =>
      if negb (validate_numeric (Some duration) false true false) then false
      else if match _stage_starts !! i with
              | Some start_time =>
                  negb (validate_numeric (Some start_time) false false true)
              | None => false
              end then false
      else if negb valid then false
      else sequence_stages_valid (S i) ds vs _stage_starts
  | _, _ => true
  end.

Definition sequence_validate (config : Dict) (_parse_error : bool)
    (post_behavior : string) (valids : list bool)
    (_stage_durations _stage_starts : list Q) (_total_duration : Q) : bool :=
  if _parse_error then false
  else if is_empty valids then false
  else if negb (String.eqb post_behavior "hold_last"
                || String.eqb post_behavior "zero"
                || String.eqb post_behavior "repeat") then false
  else if negb (sequence_stages_valid 0 _stage_durations valids
                  _stage_starts) then false
  else if negb (validate_numeric (Some _total_duration) false true false)
  then false
  else _validate_config config.

(** ** The methods, by class *)

Fixpoint get_rate (p : Plugin) : Q -> Q -> Eval Q :=
  match p with
  | ConstantDistribution _ _ rps =>
      fun t r => ret (constant_get_rate rps t r)
  | LinearDistribution _ _ ramp_duration =>
      fun t r => ret (linear_get_rate ramp_duration t r)
  | PoissonDistribution _ _ lambda_param variance_scale =>
      poisson_get_rate lambda_param variance_scale
  | StepDistribution _ e steps default_rps =>
      fun t r => ret (step_get_rate e steps default_rps t r)
  | SineDistribution _ _ period amplitude phase_shift base_rps =>
      fun t r =>
        ret (sine_get_rate period amplitude phase_shift base_rps t r)
  | MixDistribution _ e mix_target_rps plugins _ targets normalized =>
      mix_get_rate (List.map get_rate plugins) e mix_target_rps normalized
        targets
  | SequenceDistribution _ e post_behavior plugins durations starts total =>
      sequence_get_rate (List.map get_rate plugins) e post_behavior
        durations starts total
  end.

Fixpoint validate (p : Plugin) : bool :=
  match p with
  | ConstantDistribution config e rps => constant_validate config e rps
  | LinearDistribution config e ramp_duration =>
      linear_validate config e ramp_duration
  | PoissonDistribution config e lambda_param variance_scale =>
      poisson_validate config e lambda_param variance_scale
  | StepDistribution config e steps default_rps =>
      step_validate config e steps default_rps
  | SineDistribution config e period amplitude phase_shift base_rps =>
      sine_validate config e period amplitude phase_shift base_rps
  | MixDistribution config e mix_target_rps plugins weights targets
      normalized =>
      mix_validate config e mix_target_rps (List.map validate plugins)
        weights targets normalized
  | SequenceDistribution config e post_behavior plugins durations starts
      total =>
      sequence_validate config e post_behavior (List.map validate plugins)
        durations starts total
  end.

(** ** [initialize] of the composites

    [init_child cls config] stands for [plugin_class(); initialize(config)]
    on a child; it returns [None] when the recursion budget of the model is
    exhausted. *)

(** The outcome of parsing one component or stage: skipped (with
    [_parse_error] set) or parsed. *)
Inductive Parsed (A : Type) : Type :=
| Skipped
| ParsedOk (a : A).
Arguments Skipped {A}.
Arguments ParsedOk {A} a.

(** [distribution_value.get("name")], [get_plugin_class] and
    [distribution_value.get("config")], shared by both composites. *)
Definition parse_distribution_ref (distribution_value : PyVal)
  : Parsed (PluginClass * Dict) :=
  match distribution_value with
  | PDict dv =>
      match dict_get "name" dv with
      | PStr name_value =>
          match get_plugin_class name_value with
          | None => Skipped
          | Some plugin_class =>
              match dict_get "config" dv with
              | PNone => ParsedOk (plugin_class, [])
              | PDict config_value => ParsedOk (plugin_class, config_value)
              | _ => Skipped
              end
          end
      | _ => Skipped
      end
  | _ => Skipped
  end.

Definition _set_mix_target_rps (config : Dict) : option Q * bool :=
  let target_value :=
    if truthy (PDict config) then dict_get "target_rps" config else PNone in
  let mix_target_rps := to_float target_value None in
  (mix_target_rps,
   negb (is_none target_value) && negb (is_some mix_target_rps)).

(** [_parse_components]: [None] is the Python [None]. *)
Definition _parse_components (config : Dict) : option (list PyVal) * bool :=
  match dict_get "components" config with
  | PNone => (Some [], false)
  | components_value =>
      match parse_json_or_list components_value with
      | (true, PList components_data) => (Some components_data, false)
      | _ => (None, true)
      end
  end.

Definition _parse_single_component
    (init_child : PluginClass -> Dict -> option Plugin) (component : PyVal)
  : option (Parsed (Plugin * Q * option Q)) :=
  match component with
  | PDict c =>
      match to_float (dict_get "weight" c) None with
      | None => Some Skipped
      | Some weight =>
          match parse_distribution_ref (dict_get "distribution" c) with
          | Skipped => Some Skipped
          | ParsedOk (plugin_class, component_config) =>
              let target_override :=
                to_float (dict_get "target_rps" component_config) None in
              if negb (is_none (dict_get "target_rps" component_config))
                 && negb (is_some target_override)
              then Some Skipped
              else
                match init_child plugin_class component_config with
                | None => None
                | Some plugin_instance =>
                    Some (ParsedOk (plugin_instance, weight, target_override))
                end
          end
      end
  | _ => Some Skipped
  end.

(** The attributes built by a loop of [initialize], and whether an item
    was skipped. *)
Fixpoint parse_items {A} (parse : PyVal -> option (Parsed A))
    (items : list PyVal) : option (list A * bool) :=
  match items with
  | [] => Some ([], false)
  | item :: rest =>
      match parse item with
      | None => None
      | Some parsed =>
          match parse_items parse rest with
          | None => None
          | Some (l, err) =>
              match parsed with
              | Skipped => Some (l, true)
              | ParsedOk a => Some (a :: l, err)
              end
          end
      end
  end.

Definition _set_normalized_weights (_component_weights : list Q) : list Q :=
  let total_weight := py_sum _component_weights in
  if fle total_weight 0 then []
  else List.map (fun weight => (weight / total_weight)%Q) _component_weights.

Definition mix_initialize
    (init_child : PluginClass -> Dict -> option Plugin) (config : Dict)
  : option Plugin :=
  let '(mix_target_rps, err1) := _set_mix_target_rps config in
  match _parse_components config with
  | (None, err2) =>
      Some (MixDistribution config (err1 || err2) mix_target_rps [] [] [] [])
  | (Some components_data, err2) =>
      match parse_items (_parse_single_component init_child)
              components_data with
      | None => None
      | Some (parsed, err3) =>
          let plugins := List.map (fun x => fst (fst x)) parsed in
          let weights := List.map (fun x => snd (fst x)) parsed in
          let targets := List.map (fun x => snd x) parsed in
          Some (MixDistribution config (err1 || err2 || err3) mix_target_rps
                  plugins weights targets (_set_normalized_weights weights))
      end
  end.

(** [self.config.get("post_behavior", "hold_last")] and the test that it
    is a string. *)
Definition _set_post_behavior (config : Dict) : string * bool :=
  match dict_lookup "post_behavior" config with
  | None => ("hold_last", false)
  | Some (PStr post_behavior_value) => (post_behavior_value, false)
  | Some _ => ("hold_last", true)
  end.

Definition _parse_stages_data (config : Dict) : option (list PyVal) * bool :=
  match dict_get "stages" config with
  | PNone => (Some [], false)
  | stages_value =>
      match parse_json_or_list stages_value with
      | (true, PList stages_data) => (Some stages_data, false)
      | _ => (None, true)
      end
  end.

Definition _parse_stage
    (init_child : PluginClass -> Dict -> option Plugin) (stage : PyVal)
  : option (Parsed (Plugin * Q)) :=
  match stage with
  | PDict s =>
      match as_number (dict_get "duration_seconds" s) with
      | None => Some Skipped
      | Some duration =>
          match parse_distribution_ref (dict_get "distribution" s) with
          | Skipped => Some Skipped
          | ParsedOk (plugin_class, stage_config) =>
              match init_child plugin_class stage_config with
              | None => None
              | Some plugin_instance =>
                  Some (ParsedOk (plugin_instance, duration))
              end
          end
      end
  | _ => Some Skipped
  end.

(** [_finalize_stage_timeline]: the start of every stage, from [elapsed]
    on, and the total. *)
Fixpoint stage_timeline (elapsed : Q) (durations : list Q) : list Q * Q :=
  match durations with
  | [] => ([], elapsed)
  | duration :: ds =>
      let '(starts, total) := stage_timeline (elapsed + duration) ds in
      (elapsed :: starts, total)
  end.

Definition sequence_initialize
    (init_child : PluginClass -> Dict -> option Plugin) (config : Dict)
  : option Plugin :=
  let '(post_behavior, err1) := _set_post_behavior config in
  match _parse_stages_data config with
  | (None, err2) =>
      Some (SequenceDistribution config (err1 || err2) post_behavior
              [] [] [] 0)
  | (Some stages_data, err2) =>
      match parse_items (_parse_stage init_child) stages_data with
      | None => None
      | Some (parsed, err3) =>
          let plugins := List.map fst parsed in
          let durations := List.map snd parsed in
          let '(starts, total) := stage_timeline 0 durations in
          Some (SequenceDistribution config (err1 || err2 || err3)
                  post_behavior plugins durations starts total)
      end
  end.

(** [plugin_class(); instance.initialize(config)]. The composites
    initialize their children, to a depth the configuration decides:
    [fuel] bounds that depth, and [None] means it was too small. *)
Fixpoint initialize (fuel : nat) (plugin_class : PluginClass)
    (config : Dict) : option Plugin :=
  match plugin_class with
  | ConstantClass => Some (constant_initialize config)
  | LinearClass => Some (linear_initialize config)
  | PoissonClass => Some (poisson_initialize config)
  | StepClass => Some (step_initialize config)
  | SineClass => Some (sine_initialize config)
  | MixClass =>
      match fuel with
      | O => None
      | S fuel' => mix_initialize (initialize fuel') config
      end
  | SequenceClass =>
      match fuel with
      | O => None
      | S fuel' => sequence_initialize (initialize fuel') config
      end
  end.

(** [instantiate_plugin(name, config)]: [Some None] stands for the
    [ValueError] raised on an unknown name. *)
Definition instantiate_plugin (fuel : nat) (name : string) (config : Dict)
  : option (option Plugin) :=
  match get_plugin_class name with
  | None => Some None
  | Some plugin_class =>
      match initialize fuel plugin_class config with
      | None => None
      | Some instance => Some (Some instance)
      end
  end.

(** ** [validation.py] *)

(** The outcome of a helper that may raise: [Raised exc msg] is an
    exception of class [exc]; [OutOfFuel] is the model's recursion budget
    running out. *)
Inductive Res (A : Type) : Type :=
| Ok (a : A)
| Raised (exc msg : string)
| OutOfFuel.
Arguments Ok {A} a.
Arguments Raised {A} exc msg.
Arguments OutOfFuel {A}.

Definition res_bind {A B} (m : Res A) (k : A -> Res B) : Res B :=
  match m with
  | Ok a => k a
  | Raised exc msg => Raised exc msg
  | OutOfFuel => OutOfFuel
  end.

(** [config[key] = value] on a key the dict contains. *)
Fixpoint dict_set (key : string) (value : PyVal) (d : Dict) : Dict :=
  match d with
  | [] => [(key, value)]
  | (k, v) :: d' =>
      if String.eqb k key then (k, value) :: d'
      else (k, v) :: dict_set key value d'
  end.

Definition _normalize_list_field (config : Dict) (field_name : string)
  : Res Dict :=
  match dict_lookup field_name config with
  | None => Ok config
  | Some value0 =>
      res_bind
        (match value0 with
         | PStr s =>
             match json_loads s with
             | Some v => Ok v
             | None =>
                 Raised "ValueError"
                   (field_name ++ " must be a JSON array or list")
             end
         | _ => Ok value0
         end)
        (fun value =>
           if negb (is_list value)
           then Raised "ValueError" (field_name ++ " must be a list")
           else Ok (dict_set field_name value config))
  end.

Definition normalize_distribution_config (name : string) (config : Dict)
  : Res Dict :=
  if String.eqb name "mix" then _normalize_list_field config "components"
  else if String.eqb name "sequence"
  then _normalize_list_field config "stages"
  else Ok config.

(** The prefix [f"{parent_field}[{index}]"] of a message. *)
Definition item_path (parent_field : string) (index : nat) : string :=
  parent_field ++ "[" ++ pretty index ++ "]".

(** [_distribution_errors]; [validate_nested] is the recursive call of
    [validate_distribution_config]. *)
Definition _distribution_errors
    (validate_nested : string -> Dict -> string -> Res (list string))
    (container : Dict) (index : nat) (parent_field : string)
  : Res (list string) :=
  match dict_get "distribution" container with
  | PDict distribution =>
      match dict_get "name" distribution with
      | PStr name =>
          if String.eqb name EmptyString
          then Ok [item_path parent_field index
                     ++ ".distribution.name is required"]
          else
            let config_value :=
              match dict_lookup "config" distribution with
              | None | Some PNone => PDict []
              | Some v => v
              end in
            match config_value with
            | PDict cv =>
                res_bind (normalize_distribution_config name cv)
                  (fun nested_config =>
                     validate_nested name nested_config
                       (item_path parent_field index ++ ".distribution"))
            | _ =>
                Ok [item_path parent_field index
                      ++ ".distribution.config must be an object"]
            end
      | _ =>
          Ok [item_path parent_field index
                ++ ".distribution.name is required"]
      end
  | _ =>
      Ok [item_path parent_field index ++ ".distribution must be an object"]
  end.

Definition _is_positive_number (value : PyVal) : bool :=
  match as_number value with
  | Some q => flt 0 q
  | None => false
  end.

(** The loop of [_validate_mix_config] and of [_validate_sequence_config]
    over [enumerate(items)], from [index] on; [number_field] is the key
    that must hold a positive number. *)
Fixpoint items_errors
    (validate_nested : string -> Dict -> string -> Res (list string))
    (parent_field number_field : string) (index : nat) (items : list PyVal)
  : Res (list string) :=
  match items with
  | [] => Ok []
  | PDict item :: rest =>
      let number_errors :=
        if negb (_is_positive_number (dict_get number_field item))
        then [item_path parent_field index ++ "." ++ number_field
                ++ " must be > 0"]
        else [] in
      res_bind (_distribution_errors validate_nested item index parent_field)
        (fun nested_errors =>
           res_bind (items_errors validate_nested parent_field number_field
                       (S index) rest)
             (fun rest_errors =>
                Ok (number_errors ++ nested_errors ++ rest_errors)%list))
  | _ :: rest =>
      res_bind (items_errors validate_nested parent_field number_field
                  (S index) rest)
        (fun rest_errors =>
           Ok ((item_path parent_field index ++ " must be an object")
                 :: rest_errors))
  end.

Definition _validate_mix_config
    (validate_nested : string -> Dict -> string -> Res (list string))
    (config : Dict) : Res (list string) :=
  match dict_get "components" config with
  | PList (c :: cs) =>
      items_errors validate_nested "components" "weight" 0 (c :: cs)
  | _ => Ok ["components must be a non-empty list"]
  end.

(** [value not in {...}] hashes [value]: a list or a dict raises
    [TypeError]. *)
Definition hashable (value : PyVal) : bool :=
  match value with
  | PList _ | PDict _ => false
  | _ => true
  end.

Definition known_post_behavior (post_behavior : PyVal) : bool :=
  match post_behavior with
  | PStr s =>
      String.eqb s "hold_last" || String.eqb s "zero" || String.eqb s "repeat"
  | _ => false
  end.

Definition _validate_sequence_config
    (validate_nested : string -> Dict -> string -> Res (list string))
    (config : Dict) : Res (list string) :=
  match dict_get "stages" config with
  | PList (s :: ss) =>
      res_bind
        (items_errors validate_nested "stages" "duration_seconds" 0 (s :: ss))
        (fun errors =>
           let post_behavior := dict_get "post_behavior" config in
           if is_none post_behavior then Ok errors
           else if negb (hashable post_behavior)
           then Raised "TypeError" "unhashable type"
           else if negb (known_post_behavior post_behavior)
           then Ok (errors
                      ++ ["post_behavior must be one of: hold_last, zero, repeat"])%list
           else Ok errors)
  | _ => Ok ["stages must be a non-empty list"]
  end.

(** [validate_distribution_config(name, config, path)]. A composite
    validates the configurations nested in it: [fuel] bounds the nesting
    depth. *)
Fixpoint validate_distribution_config (fuel : nat) (name : string)
    (config : Dict) (path : string) : Res (list string) :=
  match get_plugin_class name with
  | None => Ok [path ++ ".name '" ++ name ++ "' not found"]
  | Some plugin_class =>
      res_bind
        (if String.eqb name "mix" then
           match fuel with
           | O => OutOfFuel
           | S fuel' =>
               _validate_mix_config (validate_distribution_config fuel')
                 config
           end
         else if String.eqb name "sequence" then
           match fuel with
           | O => OutOfFuel
           | S fuel' =>
               _validate_sequence_config (validate_distribution_config fuel')
                 config
           end
         else Ok [])
        (fun errors =>
           if negb (is_empty errors) then Ok errors
           else
             match initialize fuel plugin_class config with
             | None => OutOfFuel
             | Some instance =>
                 if negb (validate instance)
                 then Ok [path ++ " validation failed"]
                 else Ok []
             end)
  end.

End WithRuntime.

Arguments Skipped {A}.
Arguments ParsedOk {A} a.
Arguments Ok {A} a.
Arguments Raised {A} exc msg.
Arguments OutOfFuel {A}.

End Distributions.

(* ===================================================================== *)
(** * The HTTP client ([primes/async_api_client.py]) *)
(* ===================================================================== *)

Module Client.

(** What one call of [_dispatch_request] does: the server answers with a
    status code, or the call raises. [UnsupportedMethod] is the
    [ValueError] of [_dispatch_request]; [OtherException] is any exception
    that is none of the classes [_attempt_request] names. *)
Inductive Dispatch : Type :=
| Response (status_code : Z)
| TimeoutException
| NetworkError
| HTTPStatusError (status_code : Z)
| UnsupportedMethod
| OtherException.

(** [ApiError(message, status_code)]; the message is log text. *)
Record ApiError : Type := { status_code : option Z }.

(** [response.is_error] of the HTTP library: it holds of the client-error
    and server-error classes, the codes 400 to 599. *)
Definition is_error (code : Z) : bool :=
  (400 <=? code)%Z && (code <=? 599)%Z.

(** [_sleep_for_retry]: the seconds slept. *)
Definition backoff (attempt : Z) : Z := Z.min (2 ^ attempt) 10.

(** [_handle_error_response]: returns [None], returns an error, or
    raises one. *)
Inductive Handled : Type :=
| NoError
| ReturnsError (e : ApiError)
| RaisesError (e : ApiError).

Definition _handle_error_response (max_retries : Z) (code : Z)
    (attempt : Z) : Handled :=
  if negb (is_error code) then NoError
  else if (attempt <? max_retries)%Z
  then ReturnsError {| status_code := Some code |}
  else RaisesError {| status_code := Some code |}.

(** [_attempt_request]: the pair it returns, or the [ValueError] it lets
    through. An [AsyncApiError] raised by [_handle_error_response] is an
    [Exception]: the last handler catches it and returns a new error
    without a status code. *)
Inductive Attempt : Type :=
| Attempted (response : option Z) (error : option ApiError)
| AttemptRaisesValueError.

Definition _attempt_request (max_retries : Z) (d : Dispatch) (attempt : Z)
  : Attempt :=
  match d with
  | Response code =>
      match _handle_error_response max_retries code attempt with
      | NoError => Attempted (Some code) None
      | ReturnsError e => Attempted None (Some e)
      | RaisesError _ => Attempted None (Some {| status_code := None |})
      end
  | TimeoutException => Attempted None (Some {| status_code := None |})
  | NetworkError => Attempted None (Some {| status_code := None |})
  | HTTPStatusError code => Attempted None (Some {| status_code := Some code |})
  | UnsupportedMethod => AttemptRaisesValueError
  | OtherException => Attempted None (Some {| status_code := None |})
  end.

(** How [make_api_call] ends. *)
Inductive Outcome : Type :=
| Returns (status : Z)
| RaisesApiError (status : option Z)
| RaisesValueError.

(** What a call did: how many times it dispatched the request, the
    back-offs it slept (in order), and how it ended. *)
Record Call : Type := {
  dispatches : nat;
  sleeps : list Z;
  outcome : Outcome
}.

(** The loop [for attempt in range(self.max_retries + 1)], with
    [remaining] iterations to go. [transport n] is what dispatch number
    [n] of this call does. *)
Fixpoint attempts (max_retries : Z) (transport : nat -> Dispatch)
    (remaining : nat) (attempt : nat) (last_error : option ApiError)
  : Call :=
  match remaining with
  | O =>
      {| dispatches := 0; sleeps := [];
         outcome :=
           RaisesApiError
             (match last_error with
              | Some e => status_code e
              | None => None
              end) |}
  | S remaining' =>
      match _attempt_request max_retries (transport attempt)
              (Z.of_nat attempt) with
      | AttemptRaisesValueError =>
          {| dispatches := 1; sleeps := []; outcome := RaisesValueError |}
      | Attempted (Some response) _ =>
          {| dispatches := 1; sleeps := []; outcome := Returns response |}
      | Attempted None error =>
          let rest :=
            attempts max_retries transport remaining' (S attempt) error in
          {| dispatches := S (dispatches rest);
             sleeps :=
               (if (Z.of_nat attempt <? max_retries)%Z
                then [backoff (Z.of_nat attempt)] else [])
               ++ sleeps rest;
             outcome := outcome rest |}
      end
  end.

(** [AsyncAPIClient.make_api_call] on an entered client. *)
Definition make_api_call (max_retries : Z) (transport : nat -> Dispatch)
  : Call :=
  attempts max_retries transport (Z.to_nat (max_retries + 1)) 0 None.

(** ** [api_client_base.py] *)

(** [s.lstrip(c)] and [s.rstrip(c)] for a single character [c]. *)
Fixpoint lstrip (c : Ascii.ascii) (s : string) : string :=
  match s with
  | EmptyString => EmptyString
  | String a s' => if Ascii.eqb a c then lstrip c s' else s
  end.

Fixpoint rstrip (c : Ascii.ascii) (s : string) : string :=
  match s with
  | EmptyString => EmptyString
  | String a s' =>
      match rstrip c s' with
      | EmptyString =>
          if Ascii.eqb a c then EmptyString else String a EmptyString
      | String b r => String a (String b r)
      end
  end.

(** The character [/]. *)
Definition slash : Ascii.ascii := Ascii.ascii_of_nat 47.

(** [BaseAPIClient._build_url]; [BASE_URL] is the attribute of the
    client. *)
Definition _build_url (BASE_URL path : string) : string :=
  let clean_path := lstrip slash path in
  let clean_base := rstrip slash BASE_URL in
  if negb (String.eqb clean_base EmptyString)
  then clean_base ++ "/" ++ clean_path
  else clean_path.

End Client.

(* ===================================================================== *)
(** * The dispatcher and the test-state store
      ([primes/api/test_executor.py]) *)
(* ===================================================================== *)

Module Executor.

Record RunMetrics : Type := {
  request_count : Z;
  success_count : Z;
  failure_count : Z;
  rps : Q;
  avg_response_time : Q;
  active_users_estimate : Z
}.

Record PluginConfig : Type := {
  plugin_name : string;
  plugin_config : Dict
}.

Record RunConfig : Type := {
  test_type : string;
  duration_seconds : option Z;
  spawn_rate : Q;
  user_count : Z;
  num_requests : option Z;
  target_rps : option Q;
  distribution : option PluginConfig
}.

(** A wall-clock reading ([datetime.now()]), in seconds, and the handle of
    a subprocess. *)
Abbreviation datetime := Q.
Abbreviation Process := nat.

Record RunState : Type := {
  test_id : string;
  status : string;
  start_time : option datetime;
  end_time : option datetime;
  config : option RunConfig;
  metrics : RunMetrics;
  process : option Process;
  output_lines : list string;
  _in_flight_requests : Z
}.

Definition TERMINAL_STATUSES : gset string :=
  {[ "completed"; "failed"; "stopped" ]}.

(** ** Mode selection *)

Definition _should_use_distribution_mode (c : RunConfig) : bool :=
  is_some (distribution c) || is_some (target_rps c).

(** The executor [_run_test_mode] awaits. *)
Inductive TestMode : Type :=
| execute_distribution_test
| execute_duration_test
| execute_locust_test.

Definition _run_test_mode (c : RunConfig) : TestMode :=
  if truthy_opt_int (num_requests c) then
    if _should_use_distribution_mode c then execute_distribution_test
    else execute_duration_test
  else execute_locust_test.

(** ** Token bucket *)

Definition _update_tokens (token_count current_rps tick_delta : Q) : Q :=
  if fle current_rps 0 || fle tick_delta 0 then token_count
  else
    let max_tokens := py_max 1 (current_rps * 2) in
    py_min max_tokens (token_count + current_rps * tick_delta).

(** ** Metrics payload *)

Definition _stop_requested (state : RunState) : bool :=
  String.eqb (status state) "stopping" || String.eqb (status state) "stopped".

Definition _configured_users (state : RunState) : Z :=
  match config state with
  | None => 0
  | Some c => Z.max 0 (user_count c)
  end.

(** [format_metrics]; [timestamp] is the clock reading, already formatted.
    The payload is the dict the function builds. *)
Definition format_metrics (test_id : string) (state : RunState)
    (timestamp : string) : PyVal :=
  let configured_users := _configured_users state in
  let active_users_estimate0 :=
    Z.max 0 (active_users_estimate (metrics state)) in
  let active_users_estimate1 :=
    if is_some (process state) && String.eqb (status state) "running"
       && Z.eqb active_users_estimate0 0
    then configured_users else active_users_estimate0 in
  let active_users_estimate2 :=
    if bool_decide (status state ∈ TERMINAL_STATUSES) then 0%Z
    else active_users_estimate1 in
  PDict [
    ("type", PStr "metrics");
    ("test_id", PStr test_id);
    ("timestamp", PStr timestamp);
    ("status", PStr (status state));
    ("data", PDict [
       ("requests_sent", PInt (request_count (metrics state)));
       ("responses_received", PInt (success_count (metrics state)));
       ("errors", PInt (failure_count (metrics state)));
       ("rps", PFloat (py_round2 (rps (metrics state))));
       ("avg_latency_ms",
          PFloat (py_round2 (avg_response_time (metrics state))));
       ("active_users_estimate", PInt active_users_estimate2);
       ("configured_users", PInt configured_users)
     ])
  ].

(** ** The store and the effects of the lifecycle operations *)

(** Who assigned a status. *)
Inductive Writer : Type :=
| execute_test_entry
| execute_test_exit
| stop_test_call.

(** One assignment to [state.status]: the value it replaced and the value
    it wrote. *)
Record StatusWrite : Type := {
  write_test_id : string;
  written_by : Writer;
  old_status : string;
  new_status : string
}.

(** The module-level store [active_tests], what the connection manager was
    asked to broadcast, the subprocesses [_terminate_process] was called
    on, and a ghost log of the assignments to [status] (all three in
    order of occurrence). *)
Record World : Type := {
  active_tests : gmap string RunState;
  broadcasts : list (string * PyVal);
  terminated : list Process;
  status_writes : list StatusWrite
}.

Definition with_state (test_id : string) (f : RunState -> RunState)
    (w : World) : World :=
  {| active_tests := alter f test_id (active_tests w);
     broadcasts := broadcasts w;
     terminated := terminated w;
     status_writes := status_writes w |}.

Definition set_status (s : string) (st : RunState) : RunState :=
  {| test_id := test_id st; status := s; start_time := start_time st;
     end_time := end_time st; config := config st; metrics := metrics st;
     process := process st; output_lines := output_lines st;
     _in_flight_requests := _in_flight_requests st |}.

(** [state.status = s], with its entry in the ghost log. *)
Definition write_status (writer : Writer) (test_id : string) (s : string)
    (w : World) : World :=
  match active_tests w !! test_id with
  | None => w
  | Some st =>
      {| active_tests := <[test_id := set_status s st]> (active_tests w);
         broadcasts := broadcasts w;
         terminated := terminated w;
         status_writes :=
           status_writes w
           ++ [{| write_test_id := test_id; written_by := writer;
                  old_status := status st; new_status := s |}] |}
  end.

(** [await manager.broadcast(test_id, format_metrics(test_id, state))] *)
Definition broadcast_metrics (test_id : string) (timestamp : string)
    (w : World) : World :=
  match active_tests w !! test_id with
  | None => w
  | Some st =>
      {| active_tests := active_tests w;
         broadcasts :=
           broadcasts w ++ [(test_id, format_metrics test_id st timestamp)];
         terminated := terminated w;
         status_writes := status_writes w |}
  end.

(** [await _terminate_process(process)] *)
Definition _terminate_process (p : Process) (w : World) : World :=
  {| active_tests := active_tests w;
     broadcasts := broadcasts w;
     terminated := terminated w ++ [p];
     status_writes := status_writes w |}.

(** ** [create_test], [execute_test], [stop_test] *)

Definition default_metrics : RunMetrics :=
  {| request_count := 0; success_count := 0; failure_count := 0;
     rps := 0; avg_response_time := 0; active_users_estimate := 0 |}.

(** [create_test]; [test_id] is the identifier [uuid.uuid4()] drew. *)
Definition create_test (c : RunConfig) (test_id : string) (w : World)
  : World :=
  {| active_tests :=
       <[test_id :=
           {| test_id := test_id; status := "pending"; start_time := None;
              end_time := None; config := Some c;
              metrics := default_metrics; process := None;
              output_lines := []; _in_flight_requests := 0 |}]>
       (active_tests w);
     broadcasts := broadcasts w;
     terminated := terminated w;
     status_writes := status_writes w |}.

Definition set_metrics (m : RunMetrics) (st : RunState) : RunState :=
  {| test_id := test_id st; status := status st;
     start_time := start_time st; end_time := end_time st;
     config := config st; metrics := m; process := process st;
     output_lines := output_lines st;
     _in_flight_requests := _in_flight_requests st |}.

Definition set_rps (r : Q) (m : RunMetrics) : RunMetrics :=
  {| request_count := request_count m; success_count := success_count m;
     failure_count := failure_count m; rps := r;
     avg_response_time := avg_response_time m;
     active_users_estimate := active_users_estimate m |}.

Definition set_active_users_estimate (n : Z) (m : RunMetrics) : RunMetrics :=
  {| request_count := request_count m; success_count := success_count m;
     failure_count := failure_count m; rps := rps m;
     avg_response_time := avg_response_time m;
     active_users_estimate := n |}.

Definition set_in_flight (n : Z) (st : RunState) : RunState :=
  {| test_id := test_id st; status := status st;
     start_time := start_time st; end_time := end_time st;
     config := config st; metrics := metrics st; process := process st;
     output_lines := output_lines st; _in_flight_requests := n |}.

Definition set_end_time (t : option datetime) (st : RunState) : RunState :=
  {| test_id := test_id st; status := status st;
     start_time := start_time st; end_time := t;
     config := config st; metrics := metrics st; process := process st;
     output_lines := output_lines st;
     _in_flight_requests := _in_flight_requests st |}.

Definition set_process (p : option Process) (st : RunState) : RunState :=
  {| test_id := test_id st; status := status st;
     start_time := start_time st; end_time := end_time st;
     config := config st; metrics := metrics st; process := p;
     output_lines := output_lines st;
     _in_flight_requests := _in_flight_requests st |}.

Definition set_start (t : datetime) (c : RunConfig) (st : RunState)
  : RunState :=
  {| test_id := test_id st; status := status st;
     start_time := Some t; end_time := end_time st;
     config := Some c; metrics := metrics st; process := process st;
     output_lines := output_lines st;
     _in_flight_requests := _in_flight_requests st |}.

Definition _finalize_test_run (now : datetime) (st : RunState) : RunState :=
  let st1 := set_end_time (Some now) st in
  let st2 :=
    match start_time st1 with
    | Some started =>
        let duration := (now - started)%Q in
        if flt 0 duration
        then set_metrics
               (set_rps (inject_Z (request_count (metrics st1)) / duration)
                  (metrics st1)) st1
        else st1
    | None => st1
    end in
  if bool_decide (status st2 ∈ TERMINAL_STATUSES)
  then set_metrics (set_active_users_estimate 0 (metrics st2))
         (set_in_flight 0 st2)
  else st2.

(** [execute_test] up to [await _run_test_mode(...)]: [None] when the test
    is not in the store (the function logs and returns). *)
Definition execute_test_begin (test_id : string) (c : RunConfig)
    (now : datetime) (w : World) : option World :=
  match active_tests w !! test_id with
  | None => None
  | Some _ =>
      Some (with_state test_id (set_start now c)
              (write_status execute_test_entry test_id "running" w))
  end.

(** How [await _run_test_mode(...)] ends: it returns, it raises an
    [Exception], or the task is cancelled ([CancelledError] is not an
    [Exception]: only the [finally] block runs). *)
Inductive RunOutcome : Type :=
| RunReturns
| RunRaises
| RunCancelled.

(** [execute_test] from the end of [_run_test_mode] on. *)
Definition execute_test_end (test_id : string) (o : RunOutcome)
    (now : datetime) (timestamp : string) (w : World) : World :=
  match active_tests w !! test_id with
  | None => w
  | Some st =>
      let w1 :=
        match o with
        | RunCancelled => w
        | RunReturns =>
            if _stop_requested st
            then write_status execute_test_exit test_id "stopped" w
            else write_status execute_test_exit test_id "completed" w
        | RunRaises =>
            if _stop_requested st
            then write_status execute_test_exit test_id "stopped" w
            else write_status execute_test_exit test_id "failed" w
        end in
      broadcast_metrics test_id timestamp
        (with_state test_id (_finalize_test_run now) w1)
  end.

(** [stop_test] from [state.status = "stopped"] on. *)
Definition stop_test_finish (test_id : string) (now : datetime)
    (timestamp : string) (w : World) : World :=
  let w1 := write_status stop_test_call test_id "stopped" w in
  let w2 :=
    with_state test_id
      (fun st =>
         set_end_time (Some now)
           (set_in_flight 0
              (set_metrics (set_active_users_estimate 0 (metrics st)) st)))
      w1 in
  broadcast_metrics test_id timestamp w2.

(** [stop_test] up to its first suspension: it returns, or it awaits
    [_terminate_process(state.process)]. Without a subprocess nothing is
    awaited between the two assignments to [status]. *)
Inductive StopStep : Type :=
| StopReturns (result : bool) (w : World)
| StopAwaitsTerminate (p : Process) (w : World).

Definition stop_test_begin (test_id : string) (now : datetime)
    (timestamp : string) (w : World) : StopStep :=
  match active_tests w !! test_id with
  | None => StopReturns false w
  | Some st =>
      if bool_decide (status st ∈ TERMINAL_STATUSES)
         || String.eqb (status st) "stopping"
      then StopReturns true w
      else
        let w1 := write_status stop_test_call test_id "stopping" w in
        match process st with
        | Some p => StopAwaitsTerminate p w1
        | None => StopReturns true (stop_test_finish test_id now timestamp w1)
        end
  end.

(** [stop_test] after [await _terminate_process(...)]. *)
Definition stop_test_resume (test_id : string) (p : Process)
    (now : datetime) (timestamp : string) (w : World) : World :=
  stop_test_finish test_id now timestamp
    (with_state test_id (set_process None) (_terminate_process p w)).

(** [stop_test] run to its end without another task in between. *)
Definition stop_test (test_id : string) (now : datetime)
    (timestamp : string) (w : World) : bool * World :=
  match stop_test_begin test_id now timestamp w with
  | StopReturns result w' => (result, w')
  | StopAwaitsTerminate p w' =>
      (true, stop_test_resume test_id p now timestamp w')
  end.

(** ** The interleavings of one run

    The event loop runs one task at a time and switches at an [await].
    For one test, the tasks are [execute_test] (scheduled once by the start
    route) and any number of [stop_test] calls. [execute_test] is split at
    [await _run_test_mode(...)], during which the selected executor runs:
    it mutates the metrics and the in-flight counter, and the locust
    executor stores its subprocess, but none of them assigns [status].
    [stop_test] is split at [await _terminate_process(...)]. *)

Inductive ExecPc : Type :=
| NotStarted
| InRun
| Finished.

Record Sys : Type := {
  world : World;
  exec_pc : ExecPc;
  (** the [stop_test] calls suspended in [_terminate_process], oldest
      first, each with the subprocess it is terminating *)
  suspended_stops : list Process
}.

Inductive Event : Type :=
| ExecuteBegins (c : RunConfig) (now : datetime)
| ProcessSpawned (p : Process)
| ExecutorUpdates (m : RunMetrics) (in_flight : Z)
| ExecuteEnds (o : RunOutcome) (now : datetime) (timestamp : string)
| StopCalled (now : datetime) (timestamp : string)
| StopResumes (now : datetime) (timestamp : string).

(** One atomic segment; [None] when the event cannot happen in [s]. *)
Definition step (test_id : string) (s : Sys) (e : Event) : option Sys :=
  match e with
  | ExecuteBegins c now =>
      match exec_pc s with
      | NotStarted =>
          match execute_test_begin test_id c now (world s) with
          | Some w =>
              Some {| world := w; exec_pc := InRun;
                      suspended_stops := suspended_stops s |}
          | None =>
              Some {| world := world s; exec_pc := Finished;
                      suspended_stops := suspended_stops s |}
          end
      | _ => None
      end
  | ProcessSpawned p =>
      match exec_pc s with
      | InRun =>
          Some {| world := with_state test_id (set_process (Some p)) (world s);
                  exec_pc := InRun;
                  suspended_stops := suspended_stops s |}
      | _ => None
      end
  | ExecutorUpdates m in_flight =>
      match exec_pc s with
      | InRun =>
          Some {| world :=
                    with_state test_id
                      (fun st => set_in_flight in_flight (set_metrics m st))
                      (world s);
                  exec_pc := InRun;
                  suspended_stops := suspended_stops s |}
      | _ => None
      end
  | ExecuteEnds o now timestamp =>
      match exec_pc s with
      | InRun =>
          Some {| world := execute_test_end test_id o now timestamp (world s);
                  exec_pc := Finished;
                  suspended_stops := suspended_stops s |}
      | _ => None
      end
  | StopCalled now timestamp =>
      match stop_test_begin test_id now timestamp (world s) with
      | StopReturns _ w =>
          Some {| world := w; exec_pc := exec_pc s;
                  suspended_stops := suspended_stops s |}
      | StopAwaitsTerminate p w =>
          Some {| world := w; exec_pc := exec_pc s;
                  suspended_stops := suspended_stops s ++ [p] |}
      end
  | StopResumes now timestamp =>
      match suspended_stops s with
      | [] => None
      | p :: rest =>
          Some {| world := stop_test_resume test_id p now timestamp (world s);
                  exec_pc := exec_pc s;
                  suspended_stops := rest |}
      end
  end.

Fixpoint run (test_id : string) (s : Sys) (events : list Event)
  : option Sys :=
  match events with
  | [] => Some s
  | e :: rest =>
      match step test_id s e with
      | Some s' => run test_id s' rest
      | None => None
      end
  end.

Definition empty_world : World :=
  {| active_tests := ∅; broadcasts := []; terminated := [];
     status_writes := [] |}.

(** The start route: [create_test], then [execute_test] is scheduled. *)
Definition created (c : RunConfig) (test_id : string) : Sys :=
  {| world := create_test c test_id empty_world;
     exec_pc := NotStarted;
     suspended_stops := [] |}.

(** The edges of the specification's status graph, and the edges
    [stop_test] and the end of [execute_test] follow. *)
Definition spec_edge (old new : string) : bool :=
  (String.eqb old "pending" && String.eqb new "running")
  || (String.eqb old "running" && String.eqb new "completed")
  || (String.eqb old "running" && String.eqb new "failed")
  || (String.eqb old "running" && String.eqb new "stopping")
  || (String.eqb old "stopping" && String.eqb new "stopped").

Definition lifecycle_edge (old new : string) : bool :=
  spec_edge old new
  || (String.eqb old "pending" && String.eqb new "stopping")
  || (String.eqb old "stopped" && String.eqb new "stopped").

(** ** Per-request accounting *)

Definition _clamp_active_users_for_internal_modes (st : RunState)
  : RunState :=
  let configured := _configured_users st in
  if (configured <=? 0)%Z
  then set_metrics
         (set_active_users_estimate
            (Z.max 0 (active_users_estimate (metrics st))) (metrics st)) st
  else set_metrics
         (set_active_users_estimate
            (Z.max 0 (Z.min (active_users_estimate (metrics st)) configured))
            (metrics st)) st.

Definition _increment_active_users (st : RunState) : RunState :=
  let st1 := set_in_flight (_in_flight_requests st + 1) st in
  _clamp_active_users_for_internal_modes
    (set_metrics
       (set_active_users_estimate (_in_flight_requests st1) (metrics st1))
       st1).

Definition _decrement_active_users (st : RunState) : RunState :=
  let st1 := set_in_flight (Z.max 0 (_in_flight_requests st - 1)) st in
  _clamp_active_users_for_internal_modes
    (set_metrics
       (set_active_users_estimate (_in_flight_requests st1) (metrics st1))
       st1).

Definition set_counts (requests successes failures : Z) (m : RunMetrics)
  : RunMetrics :=
  {| request_count := requests; success_count := successes;
     failure_count := failures; rps := rps m;
     avg_response_time := avg_response_time m;
     active_users_estimate := active_users_estimate m |}.

Definition set_avg_response_time (avg : Q) (m : RunMetrics) : RunMetrics :=
  {| request_count := request_count m; success_count := success_count m;
     failure_count := failure_count m; rps := rps m;
     avg_response_time := avg;
     active_users_estimate := active_users_estimate m |}.

(** [_execute_prime_request] up to [await client.make_api_call(...)]. *)
Definition _execute_prime_request_begin (st : RunState) : RunState :=
  let st1 := _increment_active_users st in
  set_metrics
    (set_counts (request_count (metrics st1) + 1)
       (success_count (metrics st1)) (failure_count (metrics st1))
       (metrics st1)) st1.

(** How the awaited call ends: as [make_api_call] ends, or by the
    cancellation of the task ([CancelledError] is not an [Exception]). *)
Inductive RequestEnd : Type :=
| RequestDone (o : Client.Outcome)
| RequestCancelled.

(** The state a request leaves: the function returned, or it raised
    (the [ZeroDivisionError] of the rolling average when [request_count]
    is zero, or the [CancelledError] of a cancelled task). *)
Inductive RequestResult : Type :=
| RequestReturns (st : RunState)
| RequestRaises (st : RunState).

(** [_execute_prime_request] from the end of the call on; [latency_ms] is
    the time the request took. A cancelled request only runs the
    [finally] block. *)
Definition _execute_prime_request_end (e : RequestEnd) (latency_ms : Q)
    (st : RunState) : RequestResult :=
  match e with
  | RequestCancelled => RequestRaises (_decrement_active_users st)
  | RequestDone o =>
      let m := metrics st in
      let st1 :=
        match o with
        | Client.Returns 200 =>
            set_metrics
              (set_counts (request_count m) (success_count m + 1)
                 (failure_count m) m) st
        | _ =>
            set_metrics
              (set_counts (request_count m) (success_count m)
                 (failure_count m + 1) m) st
        end in
      let st2 := _decrement_active_users st1 in
      let count := request_count (metrics st2) in
      let prev_avg := avg_response_time (metrics st2) in
      if (count =? 0)%Z then RequestRaises st2
      else
        RequestReturns
          (set_metrics
             (set_avg_response_time
                ((prev_avg * inject_Z (count - 1) + latency_ms)
                 / inject_Z count)%Q
                (metrics st2)) st2)
  end.

(** The segments of the requests of one run, in the order the event loop
    runs them. *)
Inductive RequestEvent : Type :=
| RequestBegins
| RequestEnds (e : RequestEnd) (latency_ms : Q).

(** The state after the segments; a request that raises leaves its
    state behind and the other requests go on. *)
Fixpoint run_requests (events : list RequestEvent) (st : RunState)
  : RunState :=
  match events with
  | [] => st
  | RequestBegins :: rest =>
      run_requests rest (_execute_prime_request_begin st)
  | RequestEnds e latency_ms :: rest =>
      match _execute_prime_request_end e latency_ms st with
      | RequestReturns st' => run_requests rest st'
      | RequestRaises st' => run_requests rest st'
      end
  end.

(** ** Paced mode ([execute_duration_test]) *)

(** [int(x)] on a float: truncation toward zero. *)
Definition py_int (x : Q) : Z := Z.quot (Qnum x) (Zpos (Qden x)).

(** What a paced run needs from outside: the retry budget of the client
    ([MAX_RETRIES]), what dispatch [n] of request [i] does, the time
    request [i] takes, and the formatted clock reading at broadcast
    number [k]. *)
Record RequestEnv : Type := {
  max_retries : Z;
  transport : nat -> nat -> Client.Dispatch;
  latency_ms : nat -> Q;
  timestamp_at : nat -> string
}.

(** What a paced run did: the world it left, the pauses it slept (in
    order), and whether it raised. *)
Record PacedRun : Type := {
  paced_world : World;
  paced_sleeps : list Q;
  paced_raised : bool
}.

Definition broadcast_now (env : RequestEnv) (test_id : string) (w : World)
  : World :=
  broadcast_metrics test_id (timestamp_at env (length (broadcasts w))) w.

(** The loop [for _ in range(requests_to_send)], with [remaining]
    iterations to go, at request number [i], run without another task in
    between. *)
Fixpoint duration_loop (env : RequestEnv) (test_id : string)
    (interval : Q) (broadcast_every : Z) (remaining : nat) (i : nat)
    (w : World) : PacedRun :=
  match remaining with
  | O => {| paced_world := w; paced_sleeps := []; paced_raised := false |}
  | S remaining' =>
      match active_tests w !! test_id with
      | None => {| paced_world := w; paced_sleeps := []; paced_raised := true |}
      | Some st =>
          if negb (String.eqb (status st) "running")
          then {| paced_world := w; paced_sleeps := [];
                  paced_raised := false |}
          else
            let call :=
              Client.make_api_call (max_retries env) (transport env i) in
            match _execute_prime_request_end
                    (RequestDone (Client.outcome call)) (latency_ms env i)
                    (_execute_prime_request_begin st) with
            | RequestRaises st' =>
                {| paced_world := with_state test_id (fun _ => st') w;
                   paced_sleeps := []; paced_raised := true |}
            | RequestReturns st' =>
                let w1 := with_state test_id (fun _ => st') w in
                let w2 :=
                  if (request_count (metrics st') mod broadcast_every =? 0)%Z
                  then broadcast_now env test_id w1 else w1 in
                let rest :=
                  duration_loop env test_id interval broadcast_every
                    remaining' (S i) w2 in
                {| paced_world := paced_world rest;
                   paced_sleeps := interval :: paced_sleeps rest;
                   paced_raised := paced_raised rest |}
            end
      end
  end.

(** [execute_duration_test], run without another task in between. *)
Definition run_duration_test (env : RequestEnv) (test_id : string)
    (c : RunConfig) (w : World) : PacedRun :=
  let requests_to_send :=
    if truthy_opt_int (num_requests c)
    then match num_requests c with Some n => n | None => 100%Z end
    else 100%Z in
  let interval := if flt 0 (spawn_rate c) then (1 / spawn_rate c)%Q else 1%Q in
  let broadcast_every :=
    if fle 1 (spawn_rate c) then Z.max 1 (py_int (spawn_rate c)) else 1%Z in
  match active_tests w !! test_id with
  | None => {| paced_world := w; paced_sleeps := []; paced_raised := true |}
  | Some _ =>
      let run :=
        duration_loop env test_id interval broadcast_every
          (Z.to_nat requests_to_send) 0 w in
      if paced_raised run then run
      else {| paced_world := broadcast_now env test_id (paced_world run);
              paced_sleeps := paced_sleeps run;
              paced_raised := false |}
  end.

(** ** Shape mode: the request cap and the scheduling loop *)

(** [_request_cap_reached]; [pending] is [len(pending)]. *)
Definition _request_cap_reached (st : RunState) (pending : nat)
    (max_requests : option Z) : bool :=
  match max_requests with
  | None => false
  | Some m => (m <=? request_count (metrics st) + Z.of_nat pending)%Z
  end.

Definition _distribution_should_stop (st : RunState) (elapsed : Q)
    (duration_seconds : option Z) (pending : nat) (max_requests : option Z)
  : bool :=
  if negb (String.eqb (status st) "running") then true
  else if match duration_seconds with
          | Some d => fle (inject_Z d) elapsed
          | None => false
          end then true
  else _request_cap_reached st pending max_requests.

(** [_schedule_distribution_tasks] as [execute_distribution_test] calls
    it: [reached_cap] is [_request_cap_reached] on the state and the set
    of pending tasks, and [create_task] adds one task to that set. The
    function awaits nothing, so no task runs before it returns:
    [locked] ([semaphore.locked()]) and the state keep their values
    during the loop. It returns the tokens left and the number of
    pending tasks; [None] when [fuel] iterations were not enough. *)
Fixpoint _schedule_distribution_tasks (fuel : nat) (tokens : Q)
    (locked : bool) (st : RunState) (pending : nat)
    (max_requests : option Z) : option (Q * nat) :=
  match fuel with
  | O => None
  | S fuel' =>
      if fle 1 tokens && negb locked then
        if _request_cap_reached st pending max_requests
        then Some (0%Q, pending)
        else _schedule_distribution_tasks fuel' (tokens - 1)%Q locked st
               (S pending) max_requests
      else Some (tokens, pending)
  end.

(** [_get_target_rps] *)
Definition _get_target_rps (c : RunConfig) : Q :=
  match target_rps c with
  | Some t => t
  | None => spawn_rate c
  end.

(** ** Locust mode: command line, environment and output *)

Definition set_output_lines (lines : list string) (st : RunState)
  : RunState :=
  {| test_id := test_id st; status := status st;
     start_time := start_time st; end_time := end_time st;
     config := config st; metrics := metrics st; process := process st;
     output_lines := lines;
     _in_flight_requests := _in_flight_requests st |}.

(** The class attribute of [RunState]; no instance overrides it. *)
Definition MAX_OUTPUT_LINES : nat := Z.to_nat 10000.

(** [xs[-n:]]: the last [n] items, and all of them when [n] is zero. *)
Definition last_items {A} (n : nat) (xs : list A) : list A :=
  if (n =? 0)%nat then xs else drop (length xs - n) xs.

Definition _append_output_line (st : RunState) (decoded : string)
  : RunState :=
  let lines := (output_lines st ++ [decoded])%list in
  if (MAX_OUTPUT_LINES <? length lines)%nat
  then set_output_lines (last_items MAX_OUTPUT_LINES lines) st
  else set_output_lines lines st.

(** [needle in s] on strings. *)
Fixpoint str_contains (needle s : string) : bool :=
  String.prefix needle s
  || match s with
     | EmptyString => false
     | String _ s' => str_contains needle s'
     end.

(** [parts.index(x)]: [None] stands for [ValueError]. *)
Fixpoint list_index (x : string) (parts : list string) : option nat :=
  match parts with
  | [] => None
  | p :: rest =>
      if String.eqb p x then Some 0%nat
      else option_map S (list_index x rest)
  end.

(** [s.split(c, maxsplit=1)[0]]: what comes before the first [c]. *)
Fixpoint before_char (c : Ascii.ascii) (s : string) : string :=
  match s with
  | EmptyString => EmptyString
  | String a s' =>
      if Ascii.eqb a c then EmptyString else String a (before_char c s')
  end.

Section Locust.
Context `{Runtime}.

(** Library code the locust mode calls: [str(x)] on a float,
    [json.dumps], [os.environ], [s.strip()], [s.split()], [int(s)] on a
    string ([None] stands for [ValueError]), and the searches of the
    regular expressions, each returning [match.group(1)]:
    [rps_search] is [re.search(r"\bRPS:\s*([0-9]+(?:\.[0-9]+)?)", line)]
    and [_LOCUST_USER_PATTERNS] holds the two compiled patterns of that
    name. *)
Variable float_str : Q -> string.
Variable json_dumps : PyVal -> string.
Variable environ : gmap string string.
Variable str_strip : string -> string.
Variable str_split : string -> list string.
Variable int_of_str : string -> option Z.
Variable rps_search : string -> option string.
Variable _LOCUST_USER_PATTERNS : list (string -> option string).

Definition _build_locust_command (c : RunConfig) : list string :=
  (["locust"; "-f"; "src/primes/tasks.py"; "--headless";
    "--users"; pretty (user_count c);
    "--spawn-rate"; float_str (spawn_rate c)]
   ++ (match duration_seconds c with
       | Some d =>
           if truthy_opt_int (duration_seconds c)
           then ["--run-time"; (pretty d ++ "s")%string] else []
       | None => []
       end)
   ++ (match num_requests c with
       | Some n =>
           if truthy_opt_int (num_requests c)
           then ["--num-requests"; pretty n] else []
       | None => []
       end))%list.

Definition _distribution_payload (c : RunConfig) : option PyVal :=
  match distribution c with
  | Some d =>
      Some (PDict [("name", PStr (plugin_name d));
                   ("config", PDict (plugin_config d))])
  | None =>
      match target_rps c with
      | Some _ => Some (PDict [("name", PStr "constant"); ("config", PDict [])])
      | None => None
      end
  end.

Definition _build_locust_env (c : RunConfig) : gmap string string :=
  let env := environ in
  let distribution_payload := _distribution_payload c in
  let env :=
    match distribution_payload with
    | Some payload => <["PRIMES_DISTRIBUTION" := json_dumps payload]> env
    | None => env
    end in
  let target_rps :=
    match target_rps c with
    | None =>
        if is_some distribution_payload then Some (spawn_rate c) else None
    | Some t => Some t
    end in
  match target_rps with
  | Some t => <["PRIMES_TARGET_RPS" := float_str t]> env
  | None => env
  end.

Definition _parse_rps_from_line (line : string) : option Q :=
  match rps_search line with
  | None => None
  | Some group1 => float_of_str group1
  end.

Definition _parse_aggregated_rps (aggregated_tail : list string)
  : option Q :=
  if (length aggregated_tail <? 2)%nat then None
  else
    match aggregated_tail !! (length aggregated_tail - 2)%nat with
    | None => None
    | Some item =>
        match float_of_str item with
        | None => None
        | Some reqs_per_sec =>
            if flt reqs_per_sec 0 then None else Some reqs_per_sec
        end
    end.

(** [_parse_aggregated_metrics]; a subscript out of range
    ([IndexError]) and a token that is no integer ([ValueError]) both
    give [None]. The character of code 40 is the opening parenthesis. *)
Definition _parse_aggregated_metrics (line : string)
  : option (Z * Z * Z * option Q) :=
  let normalized := str_strip line in
  if negb (str_contains "Aggregated" normalized) then None
  else
    let parts := str_split normalized in
    match list_index "Aggregated" parts with
    | None => None
    | Some aggregated_index =>
        match parts !! (aggregated_index + 1)%nat with
        | None => None
        | Some requests_raw =>
            match int_of_str requests_raw with
            | None => None
            | Some total_requests =>
                match parts !! (aggregated_index + 2)%nat with
                | None => None
                | Some failures_item =>
                    match int_of_str (before_char (Ascii.ascii_of_nat 40) failures_item) with
                    | None => None
                    | Some total_failures =>
                        Some (total_requests, total_failures,
                              Z.max 0 (total_requests - total_failures),
                              _parse_aggregated_rps
                                (drop (aggregated_index + 1) parts))
                    end
                end
            end
        end
    end.

Definition _parse_metrics_from_output (st : RunState) (line : string)
  : RunState :=
  let st1 :=
    match _parse_rps_from_line line with
    | Some parsed_rps => set_metrics (set_rps parsed_rps (metrics st)) st
    | None => st
    end in
  match _parse_aggregated_metrics line with
  | None => st1
  | Some (total_requests, total_failures, total_successes, reqs_per_sec) =>
      let m := metrics st1 in
      let m1 :=
        set_counts
          (if (request_count m <=? total_requests)%Z
           then total_requests else request_count m)
          (if (success_count m <=? total_successes)%Z
           then total_successes else success_count m)
          (if (failure_count m <=? total_failures)%Z
           then total_failures else failure_count m)
          m in
      let m2 :=
        match reqs_per_sec with
        | Some r => set_rps r m1
        | None => m1
        end in
      set_metrics m2 st1
  end.

(** The loop of [_set_locust_active_users_from_line] over the patterns:
    the first pattern that matches a number decides. *)
Fixpoint parsed_users (patterns : list (string -> option string))
    (line : string) : option Z :=
  match patterns with
  | [] => None
  | search :: rest =>
      match search line with
      | None => parsed_users rest line
      | Some group1 =>
          match int_of_str group1 with
          | None => parsed_users rest line
          | Some users => Some users
          end
      end
  end.

Definition _set_locust_active_users_from_line (st : RunState)
    (line : string) : RunState :=
  match parsed_users _LOCUST_USER_PATTERNS line with
  | Some users =>
      set_metrics (set_active_users_estimate (Z.max 0 users) (metrics st)) st
  | None => st
  end.

(** What the loop of [_stream_locust_output] does with one decoded
    line, up to the broadcast. *)
Definition stream_line (st : RunState) (decoded : string) : RunState :=
  _set_locust_active_users_from_line
    (_parse_metrics_from_output (_append_output_line st decoded) decoded)
    decoded.

End Locust.

(** ** Shape mode: the checks before the first request *)

Section Preflight.
Context `{Runtime}.

(** [_create_distribution_instance]: as [instantiate_plugin], [Some None]
    stands for the [ValueError] raised on an unknown name. *)
Definition _create_distribution_instance (fuel : nat)
    (config : option PluginConfig) : option (option Distributions.Plugin) :=
  let config :=
    match config with
    | None => {| plugin_name := "constant"; plugin_config := [] |}
    | Some config => config
    end in
  Distributions.instantiate_plugin fuel (plugin_name config)
    (plugin_config config).

(** How the part of [execute_distribution_test] before its loop ends. *)
Inductive Preflight : Type :=
| PreflightPasses (plugin : Distributions.Plugin) (target_rps : Q)
    (max_concurrency : Z)
| PreflightRaises (exc : string)
| PreflightOutOfFuel.

Definition execute_distribution_test_preflight (fuel : nat)
    (test_id : string) (c : RunConfig) (w : World) : Preflight :=
  match active_tests w !! test_id with
  | None => PreflightRaises "KeyError"
  | Some _ =>
      let target_rps := _get_target_rps c in
      match _create_distribution_instance fuel (distribution c) with
      | None => PreflightOutOfFuel
      | Some None => PreflightRaises "ValueError"
      | Some (Some plugin) =>
          if negb (Distributions.validate plugin)
          then PreflightRaises "ValueError"
          else if negb (is_some (num_requests c))
                  && negb (is_some (duration_seconds c))
          then PreflightRaises "ValueError"
          else PreflightPasses plugin target_rps (Z.max 1 (user_count c))
      end
  end.

End Preflight.

(** ** Shape mode: one iteration of the loop *)

Section Tick.
Context `{Runtime}.

(** The local variables of [execute_distribution_test] that change from
    one iteration to the next, with the state of the random generator
    the plugin draws from. *)
Record LoopState : Type := {
  tokens : Q;
  last_tick : Q;
  last_broadcast : Q;
  pending : nat;
  rng : RngState
}.

(** How an iteration ends: the loop breaks, [plugin.get_rate] raises,
    or the iteration reaches its [asyncio.sleep]. *)
Inductive Tick : Type :=
| TickBreaks
| TickRaises
| TickOutOfFuel
| TickSleeps (pause : Q) (l : LoopState) (w : World).

(** [_maybe_broadcast_metrics]; it returns the world and the new value
    of [last_broadcast]. *)
Definition _maybe_broadcast_metrics (test_id : string) (timestamp : string)
    (now last_broadcast : Q) (w : World) : World * Q :=
  if flt (now - last_broadcast) 1 then (w, last_broadcast)
  else (broadcast_metrics test_id timestamp w, now).

(** One iteration of [while True], from [now = time.time()] to its
    sleep. [locked] is what [semaphore.locked()] answers during the
    iteration, and [timestamp] the formatted clock reading of a
    broadcast. *)
Definition distribution_tick (fuel : nat) (test_id : string)
    (plugin : Distributions.Plugin) (target_rps start_time : Q)
    (duration_seconds max_requests : option Z) (locked : bool)
    (now : Q) (timestamp : string) (l : LoopState) (w : World) : Tick :=
  match active_tests w !! test_id with
  | None => TickRaises
  | Some st =>
      let elapsed := (now - start_time)%Q in
      if _distribution_should_stop st elapsed duration_seconds (pending l)
           max_requests
      then TickBreaks
      else
        match Distributions.get_rate plugin elapsed target_rps (rng l) with
        | None => TickRaises
        | Some (current_rps, g) =>
            let st1 := set_metrics (set_rps current_rps (metrics st)) st in
            let w1 := with_state test_id (fun _ => st1) w in
            let tick_delta := (now - last_tick l)%Q in
            let tokens1 := _update_tokens (tokens l) current_rps tick_delta in
            if fle current_rps 0
            then TickSleeps (1 # 4)
                   {| tokens := tokens1; last_tick := now;
                      last_broadcast := last_broadcast l;
                      pending := pending l; rng := g |}
                   w1
            else
              match _schedule_distribution_tasks fuel tokens1 locked st1
                      (pending l) max_requests with
              | None => TickOutOfFuel
              | Some (tokens2, pending2) =>
                  let '(w2, last_broadcast2) :=
                    _maybe_broadcast_metrics test_id timestamp now
                      (last_broadcast l) w1 in
                  TickSleeps (1 # 100)
                    {| tokens := tokens2; last_tick := now;
                       last_broadcast := last_broadcast2;
                       pending := pending2; rng := g |}
                    w2
              end
        end
  end.

End Tick.

End Executor.

(* ===================================================================== *)
(** * Inputs and observations used in the statements *)
(* ===================================================================== *)

Module Examples.
Import Executor.

(** A run with a shape, a target rate and a duration, and no request
    count. *)
Definition shape_with_duration : RunConfig :=
  {| test_type := "linear"; duration_seconds := Some 60%Z;
     spawn_rate := 10; user_count := 1; num_requests := None;
     target_rps := Some 10%Q;
     distribution :=
       Some {| plugin_name := "constant"; plugin_config := [] |} |}.

(** [payload["data"][key]] of a broadcast payload. *)
Definition payload_data (key : string) (payload : PyVal) : PyVal :=
  match payload with
  | PDict d =>
      match dict_get "data" d with
      | PDict data => dict_get key data
      | _ => PNone
      end
  | _ => PNone
  end.

(** A run of five users. *)
Definition five_users : RunConfig :=
  {| test_type := "linear"; duration_seconds := None; spawn_rate := 10;
     user_count := 5; num_requests := Some 3%Z; target_rps := None;
     distribution := None |}.

(** A state of test [t1] with the given status, subprocess and stored
    estimate of active users. *)
Definition state_with (s : string) (p : option Process) (estimate : Z)
  : RunState :=
  {| test_id := "t1"; status := s; start_time := Some 0%Q;
     end_time := None; config := Some five_users;
     metrics := set_active_users_estimate estimate default_metrics;
     process := p; output_lines := []; _in_flight_requests := estimate |}.

(** A store holding one test. *)
Definition world_with (st : RunState) : World :=
  {| active_tests := {[ test_id st := st ]}; broadcasts := [];
     terminated := []; status_writes := [] |}.

(** A transport that does the same thing at every dispatch. *)
Definition always (d : Client.Dispatch) : nat -> Client.Dispatch :=
  fun _ => d.

(** The dispatches after which [make_api_call] tries again: an error
    response of either class, and every exception but the [ValueError] of
    an unsupported method. *)
Definition retriable (d : Client.Dispatch) : bool :=
  match d with
  | Client.Response code => Client.is_error code
  | Client.UnsupportedMethod => false
  | _ => true
  end.

(** The back-offs slept after the attempts [0 .. n-1]. *)
Definition backoffs (n : nat) : list Z :=
  List.map (fun attempt => Client.backoff (Z.of_nat attempt)) (seq 0 n).

(** A run time for evaluating closed examples: the generator has one
    state and draws 0, [json.loads] and [float] reject every string, and
    the sine is only defined at 0. None of the examples below reaches a
    string or an angle other than 0. *)
Definition stub_runtime : Runtime :=
  {| RngState := unit;
     random_gauss := fun _ _ g => (0%Q, g);
     math_sin := fun _ => 0%Q;
     float_of_str := fun _ => None;
     json_loads := fun _ => None |}.



(** The attributes of an instance. *)
Definition parse_error_of (p : Distributions.Plugin) : bool :=
  match p with
  | Distributions.ConstantDistribution _ e _
  | Distributions.LinearDistribution _ e _
  | Distributions.PoissonDistribution _ e _ _
  | Distributions.StepDistribution _ e _ _
  | Distributions.SineDistribution _ e _ _ _ _
  | Distributions.MixDistribution _ e _ _ _ _ _
  | Distributions.SequenceDistribution _ e _ _ _ _ _ => e
  end.

Definition steps_of (p : Distributions.Plugin) : list (Q * Q) :=
  match p with
  | Distributions.StepDistribution _ _ steps _ => steps
  | _ => []
  end.

Definition default_rps_of (p : Distributions.Plugin) : Q :=
  match p with
  | Distributions.StepDistribution _ _ _ default_rps => default_rps
  | _ => 0
  end.

(** The configuration of the docstring of [StepDistribution], with the
    steps as a structured list. *)
Definition two_steps : Dict :=
  [("steps", PList [PList [PInt 10; PInt 50]; PList [PInt 30; PInt 100]]);
   ("default_rps", PInt 10)].

(** The mix configuration of the specification's validation scenario:
    one component of weight -1 over a constant distribution. *)
Definition negative_weight_mix : Dict :=
  [("components",
    PList [PDict [("weight", PInt (-1));
                  ("distribution",
                   PDict [("name", PStr "constant");
                          ("config", PDict [])])]])].

(** An evaluator is deterministic when no poisson evaluator occurs in
    it. *)
Fixpoint deterministic (p : Distributions.Plugin) : bool :=
  match p with
  | Distributions.PoissonDistribution _ _ _ _ => false
  | Distributions.MixDistribution _ _ _ plugins _ _ _ =>
      forallb deterministic plugins
  | Distributions.SequenceDistribution _ _ _ plugins _ _ _ =>
      forallb deterministic plugins
  | _ => true
  end.

Definition post_behavior_of (p : Distributions.Plugin) : string :=
  match p with
  | Distributions.SequenceDistribution _ _ post_behavior _ _ _ _ =>
      post_behavior
  | _ => EmptyString
  end.

Definition total_duration_of (p : Distributions.Plugin) : Q :=
  match p with
  | Distributions.SequenceDistribution _ _ _ _ _ _ total => total
  | _ => 0
  end.

(** The sequence of the specification's periodicity scenario: ten seconds
    at 10 requests per second, ten seconds at 30, repeated. *)
Definition two_stages : Dict :=
  [("stages",
    PList [PDict [("duration_seconds", PInt 10);
                  ("distribution",
                   PDict [("name", PStr "constant");
                          ("config", PDict [("rps", PInt 10)])])];
           PDict [("duration_seconds", PInt 10);
                  ("distribution",
                   PDict [("name", PStr "constant");
                          ("config", PDict [("rps", PInt 30)])])]]);
   ("post_behavior", PStr "repeat")].

(** A computation that does not touch the generator: it raises or returns
    the same value whatever the generator's state, and leaves the state as
    it is. *)
Definition pure_eval `{Runtime} (m : Distributions.Eval Q) : Prop :=
  exists o : option Q, forall g, m g = option_map (fun v => (v, g)) o.

(** A computation that returns, whatever the generator's state, a value
    satisfying [Post]. *)
Definition eval_post `{Runtime} (Post : Q -> Prop)
    (m : Distributions.Eval Q) : Prop :=
  forall g, exists v g', m g = Some (v, g') /\ Post v.

(** The classes whose [get_rate] cannot go below zero at non-negative
    arguments, whatever the configuration: constant, poisson, step and
    mix clamp their result, and linear interpolates between zero and the
    target rate. Sine does not clamp, and a sequence returns what its
    stage returns. *)
Definition nonneg_class (p : Distributions.Plugin) : bool :=
  match p with
  | Distributions.SineDistribution _ _ _ _ _ _
  | Distributions.SequenceDistribution _ _ _ _ _ _ _ => false
  | _ => true
  end.

(** [math.sin] stays between -1 and 1. *)
Definition sin_in_range `{Runtime} : Prop :=
  forall x, (-1 <= math_sin x <= 1)%Q.

(** What is proved of an initialized instance: [get_rate] returns; and,
    [math.sin] being in range, it returns a non-negative rate at
    non-negative arguments when the class clamps or the instance is
    valid. *)
Definition rates_ok `{Runtime} (p : Distributions.Plugin) : Prop :=
  (forall t r, eval_post (fun _ => True) (Distributions.get_rate p t r))
  /\ (sin_in_range ->
      nonneg_class p = true \/ Distributions.validate p = true ->
      forall t r, (0 <= t)%Q -> (0 <= r)%Q ->
                  eval_post (Qle 0) (Distributions.get_rate p t r)).

(** A sine configuration with a negative base rate ([validate] rejects
    it, [initialize] accepts it). *)
Definition negative_base_sine : Dict := [("base_rps", PInt (-5))].

(** [initialize] as an instance of the stub run time, for closed
    examples; a constant stands in when the budget is too small. *)
Definition stub_initialize (fuel : nat) (cls : Distributions.PluginClass)
    (config : Dict) : Distributions.Plugin :=
  match @Distributions.initialize stub_runtime fuel cls config with
  | Some p => p
  | None => Distributions.ConstantDistribution [] true None
  end.

Definition stub_rate (p : Distributions.Plugin) (t r : Q) : option Q :=
  option_map fst (@Distributions.get_rate stub_runtime p t r tt).

(** A status write that follows an edge of [lifecycle_edge]. *)
Definition edge_write (wr : StatusWrite) : Prop :=
  lifecycle_edge (old_status wr) (new_status wr) = true.

(** What is proved of a status write: the first assignment of
    [execute_test] writes [running]; every other write follows an edge of
    [lifecycle_edge]. *)
Definition lifecycle_write (wr : StatusWrite) : Prop :=
  match written_by wr with
  | execute_test_entry => new_status wr = "running"
  | _ => edge_write wr
  end.

(** The invariant of the interleavings of one run: the test is in the
    store with one of the six statuses; before [execute_test] starts no
    [stop_test] is suspended, there is no subprocess and the status is
    [pending] or [stopped]; while the executor runs the status is
    [running], [stopping] or [stopped]; and while a [stop_test] is
    suspended the status is [stopping] or [stopped]. *)
Definition lifecycle_inv (test_id : string) (s : Sys) : Prop :=
  exists st,
    active_tests (world s) !! test_id = Some st
    /\ (status st = "pending" \/ status st = "running"
        \/ status st = "stopping" \/ status st = "stopped"
        \/ status st = "completed" \/ status st = "failed")
    /\ (exec_pc s = NotStarted ->
        suspended_stops s = [] /\ process st = None
        /\ (status st = "pending" \/ status st = "stopped"))
    /\ (exec_pc s = InRun ->
        status st = "running" \/ status st = "stopping"
        \/ status st = "stopped")
    /\ (suspended_stops s <> [] ->
        status st = "stopping" \/ status st = "stopped").

(** The writes a segment appends to the log follow the edges, and none
    of them is the first assignment of [execute_test]. *)
Definition appends_edges (s s' : Sys) : Prop :=
  exists new,
    status_writes (world s') = (status_writes (world s) ++ new)%list
    /\ Forall edge_write new
    /\ Forall (fun wr => written_by wr <> execute_test_entry) new.

(** The segment is the first one of [execute_test]: it appends the
    assignment of [running] over the status it found. *)
Definition appends_entry (test_id : string) (s s' : Sys) : Prop :=
  exec_pc s = NotStarted
  /\ exists st,
       active_tests (world s) !! test_id = Some st
       /\ status_writes (world s')
          = (status_writes (world s)
             ++ [{| write_test_id := test_id;
                    written_by := execute_test_entry;
                    old_status := status st;
                    new_status := "running" |}])%list.

(** The (old, new) pairs of the status writes of a run. *)
Definition transitions (s : option Sys) : option (list (string * string)) :=
  option_map
    (fun s => List.map (fun wr => (old_status wr, new_status wr))
                (status_writes (world s)))
    s.

(** A test is stopped one second after [execute_test] started, and its
    executor returns a second later. *)
Definition stopped_run : list Event :=
  [ExecuteBegins five_users 0;
   StopCalled 1 "2026-01-01T00:00:01Z";
   ExecuteEnds RunReturns 2 "2026-01-01T00:00:02Z"].

(** ** Vocabulary of the request accounting, the modes and the final state *)

(** The state a request leaves, whether it returned or raised. *)
Definition state_left (r : RequestResult) : RunState :=
  match r with
  | RequestReturns st => st
  | RequestRaises st => st
  end.

(** The number of segments of a run of requests that satisfy [p]. *)
Definition count_events (p : RequestEvent -> bool)
    (events : list RequestEvent) : Z :=
  Z.of_nat (length (List.filter p events)).

Definition is_begin (e : RequestEvent) : bool :=
  match e with RequestBegins => true | _ => false end.

(** The call of the request ended (it was not cancelled). *)
Definition is_done (e : RequestEvent) : bool :=
  match e with RequestEnds (RequestDone _) _ => true | _ => false end.

(** The call returned a response with status 200. *)
Definition is_success (e : RequestEvent) : bool :=
  match e with
  | RequestEnds (RequestDone (Client.Returns 200)) _ => true
  | _ => false
  end.

Definition is_cancelled (e : RequestEvent) : bool :=
  match e with RequestEnds RequestCancelled _ => true | _ => false end.

(** Every segment that ends a request finds a request in flight, [n]
    of them being in flight at the start. *)
Fixpoint well_nested (n : nat) (events : list RequestEvent) : bool :=
  match events with
  | [] => true
  | RequestBegins :: rest => well_nested (S n) rest
  | RequestEnds _ _ :: rest =>
      match n with
      | O => false
      | S n' => well_nested n' rest
      end
  end.

(** Three requests overlap: two of them end with status 200 and with a
    time-out of the client, one is cancelled. *)
Definition three_requests : list RequestEvent :=
  [RequestBegins; RequestBegins;
   RequestEnds (RequestDone (Client.Returns 200)) 12;
   RequestBegins;
   RequestEnds (RequestDone (Client.RaisesApiError None)) 30000;
   RequestEnds RequestCancelled 0].

(** A server that answers every request with status 200 at once, seen
    by a client with three retries. *)
Definition healthy_server : RequestEnv :=
  {| max_retries := 3;
     transport := fun _ _ => Client.Response 200;
     latency_ms := fun _ => 5%Q;
     timestamp_at := fun _ => "2026-01-01T00:00:00Z" |}.

(** The subprocess of a state, as the list of subprocesses to
    terminate. *)
Definition process_list (st : RunState) : list Process :=
  match process st with
  | Some p => [p]
  | None => []
  end.

(** A locust run of thirty seconds with two users. *)
Definition locust_run : RunConfig :=
  {| test_type := "linear"; duration_seconds := Some 30%Z;
     spawn_rate := 2; user_count := 2; num_requests := None;
     target_rps := None; distribution := None |}.

(** Stand-ins for the library functions of the locust mode, for closed
    examples: no line matches a pattern or holds a number, a line is
    one token, and the one float printed is 2. *)
Definition no_group : string -> option string := fun _ => None.
Definition no_int : string -> option Z := fun _ => None.
Definition one_token : string -> list string := fun line => [line].
Definition unstripped : string -> string := fun line => line.
Definition str_of_two : Q -> string := fun _ => "2.0".

(** A run of twenty requests at a target rate, without a shape. *)
Definition target_only_run : RunConfig :=
  {| test_type := "linear"; duration_seconds := None; spawn_rate := 10;
     user_count := 4; num_requests := Some 20%Z; target_rps := Some 25%Q;
     distribution := None |}.

(** A run of twenty requests shaped by a constant distribution of ten
    requests per second. *)
Definition constant_ten : Dict := [("rps", PInt 10)].

Definition shaped_run : RunConfig :=
  {| test_type := "linear"; duration_seconds := None; spawn_rate := 10;
     user_count := 4; num_requests := Some 20%Z; target_rps := None;
     distribution :=
       Some {| plugin_name := "constant"; plugin_config := constant_ten |} |}.

(** ** Vocabulary of the client and of the evaluators *)

(** A string of [n] slashes. *)
Fixpoint slashes (n : nat) : string :=
  match n with
  | O => EmptyString
  | S n' => String Client.slash (slashes n')
  end.

Definition starts_with_slash (s : string) : bool :=
  match s with
  | String a _ => Ascii.eqb a Client.slash
  | EmptyString => false
  end.

Fixpoint ends_with_slash (s : string) : bool :=
  match s with
  | EmptyString => false
  | String a EmptyString => Ascii.eqb a Client.slash
  | String _ s' => ends_with_slash s'
  end.

(** The status code of the error [make_api_call] raises when the last
    dispatch fails: the one an [HTTPStatusError] carries, and none for
    every other failure. *)
Definition last_status (d : Client.Dispatch) : option Z :=
  match d with
  | Client.HTTPStatusError code => Some code
  | _ => None
  end.

(** The stages of a sequence instance. *)
Definition stage_plugins_of (p : Distributions.Plugin)
  : list Distributions.Plugin :=
  match p with
  | Distributions.SequenceDistribution _ _ _ plugins _ _ _ => plugins
  | _ => []
  end.

Definition stage_durations_of (p : Distributions.Plugin) : list Q :=
  match p with
  | Distributions.SequenceDistribution _ _ _ _ durations _ _ => durations
  | _ => []
  end.

Definition stage_starts_of (p : Distributions.Plugin) : list Q :=
  match p with
  | Distributions.SequenceDistribution _ _ _ _ _ starts _ => starts
  | _ => []
  end.

(** Ten seconds at 10 requests per second, then ten seconds at 30; the
    last stage is held afterwards (the default), or the rate drops to
    zero. *)
Definition two_stages_list : PyVal :=
  PList [PDict [("duration_seconds", PInt 10);
                ("distribution",
                 PDict [("name", PStr "constant");
                        ("config", PDict [("rps", PInt 10)])])];
         PDict [("duration_seconds", PInt 10);
                ("distribution",
                 PDict [("name", PStr "constant");
                        ("config", PDict [("rps", PInt 30)])])]].

Definition two_stages_hold : Dict := [("stages", two_stages_list)].

Definition two_stages_zero : Dict :=
  [("stages", two_stages_list); ("post_behavior", PStr "zero")].

(** The order of two steps by strictly increasing time. *)
Definition time_lt (a b : Q * Q) : Prop := (fst a < fst b)%Q.

(** A mix whose components are given as a structured list. *)
Definition listed_mix : Dict :=
  [("target_rps", PInt 20); ("components", PList [])].

(** The field of a composite that holds its list of items. *)
Definition list_field (name : string) : option string :=
  if String.eqb name "mix" then Some "components"
  else if String.eqb name "sequence" then Some "stages"
  else None.

(** A run shaped by a distribution that is not registered. *)
Definition gaussian_run : RunConfig :=
  {| test_type := "linear"; duration_seconds := None; spawn_rate := 10;
     user_count := 4; num_requests := Some 20%Z; target_rps := None;
     distribution :=
       Some {| plugin_name := "gaussian"; plugin_config := [] |} |}.

(** The local variables of the loop of the shape mode at some
    iteration: three tokens in the bucket and two tasks pending. *)
Definition some_iteration : @LoopState stub_runtime :=
  @Build_LoopState stub_runtime 3 39 39 2 tt.

(** A running test that has sent five requests of a run of twenty. *)
Definition midway_state : RunState :=
  set_metrics (set_counts 5 5 0 default_metrics) (state_with "running" None 0).

(** ** The domain of the idealised floats *)

(** The leaf classes whose [get_rate] ends in [max(0.0, ...)] or returns
    a stored rate that was tested to be positive: constant, poisson and
    step. Their result is not negative whatever [initialize] stored,
    also when it stored NaN or an infinity, which the model does not
    represent. *)
Definition clamping_leaf (p : Distributions.Plugin) : bool :=
  match p with
  | Distributions.ConstantDistribution _ _ _
  | Distributions.PoissonDistribution _ _ _ _
  | Distributions.StepDistribution _ _ _ _ => true
  | _ => false
  end.

(** A bound below the largest float (about 1.8e308): a value computed
    in three float operations from exact values within this bound does
    not overflow. *)
Definition float_bound : Q := inject_Z (2 ^ 1023).

(** [abs(x)] *)
Definition magnitude (x : Q) : Q := py_max x (- x).

(** Every sine evaluator in [p] computes, for a time between 0 and [t],
    an angle a float can hold: neither [2 * pi * (time + phase_shift)]
    nor its quotient by the period overflows. On an infinite angle
    [math.sin] raises [ValueError]; the model, which has no overflow,
    does not show it. A composite evaluates its children at times
    between 0 and its own. *)
Fixpoint sines_within (t : Q) (p : Distributions.Plugin) : bool :=
  match p with
  | Distributions.SineDistribution _ _ period _ phase_shift _ =>
      fle period 0
      || (let reach :=
            (2 * math_pi
             * py_max (magnitude phase_shift) (magnitude (t + phase_shift)))%Q in
          fle reach float_bound
          && fle (reach / magnitude period)%Q float_bound)
  | Distributions.MixDistribution _ _ _ plugins _ _ _ =>
      forallb (sines_within t) plugins
  | Distributions.SequenceDistribution _ _ _ plugins _ _ _ =>
      forallb (sines_within t) plugins
  | _ => true
  end.

(** The float just below 10 (it prints as 9.999999999999998), and the
    float 20. *)
Definition just_below_ten : SpecFloat.spec_float :=
  SpecFloat.S754_finite false 5629499534213119 (-49).

Definition float_twenty : SpecFloat.spec_float :=
  SpecFloat.S754_finite false 5629499534213120 (-48).

(** The rate an instance returns at the time a finite float stands
    for, under the stub run time. *)
Definition rate_at_float (p : Distributions.Plugin)
    (time_elapsed : SpecFloat.spec_float) (target_rps : Q) : option Q :=
  match float_value time_elapsed with
  | Some t => stub_rate p t target_rps
  | None => None
  end.

End Examples.

(* ===================================================================== *)
(** * Properties *)
(* ===================================================================== *)

(** ** Comparisons *)

Lemma fle_spec (x y : Q) : reflect (x <= y)%Q (fle x y).
Proof.
  unfold fle. destruct (Qle_bool x y) eqn:E; constructor.
  - now apply Qle_bool_iff.
  - intros Hle. apply Qle_bool_iff in Hle. congruence.
Qed.

Lemma flt_spec (x y : Q) : reflect (x < y)%Q (flt x y).
Proof.
  unfold flt. destruct (Qle_bool y x) eqn:E; constructor; simpl.
  - apply Qle_bool_iff in E. now apply Qle_not_lt.
  - apply Qnot_le_lt. intros Hle. apply Qle_bool_iff in Hle. congruence.
Qed.


Lemma py_max_nonneg (x : Q) : (0 <= py_max 0 x)%Q.
Proof. unfold py_max. apply Q.le_max_l. Qed.

(** ** Mode selection *)

Section ModeSelection.
Import Executor Examples.

(** C1, as stated, fails: a configuration with a shape, a target rate and
    [duration_seconds] but no [num_requests] is not run in shape mode; it
    is handed to the external driver. *)
Lemma mode_selection_counterexample :
  distribution shape_with_duration <> None
  /\ duration_seconds shape_with_duration = Some 60%Z
  /\ num_requests shape_with_duration = None
  /\ _run_test_mode shape_with_duration = execute_locust_test
  /\ _run_test_mode shape_with_duration <> execute_distribution_test.
Proof. repeat split; try reflexivity; discriminate. Qed.

(** C1 (amended): the request count gates mode selection. Shape mode is
    chosen exactly when [num_requests] is set and not zero and a shape or
    [target_rps] is set; paced mode exactly when [num_requests] is set and
    not zero with neither a shape nor [target_rps]; every other
    configuration, whatever its shape, goes to the external driver. *)
Theorem mode_selection (c : RunConfig) :
  (_run_test_mode c = execute_distribution_test
   <-> (exists n, num_requests c = Some n /\ n <> 0%Z)
       /\ (distribution c <> None \/ target_rps c <> None))
  /\ (_run_test_mode c = execute_duration_test
      <-> (exists n, num_requests c = Some n /\ n <> 0%Z)
          /\ distribution c = None /\ target_rps c = None)
  /\ (_run_test_mode c = execute_locust_test
      <-> num_requests c = None \/ num_requests c = Some 0%Z).
Proof.
  unfold _run_test_mode, _should_use_distribution_mode, truthy_opt_int.
  destruct (num_requests c) as [n|] eqn:En.
  - destruct (Z.eqb_spec n 0) as [->|Hn]; simpl.
    + repeat split; try discriminate; auto.
      * intros [[m [[= <-] Hm]] _]; congruence.
      * intros [[m [[= <-] Hm]] _]; congruence.
    + destruct (distribution c) as [d|], (target_rps c) as [t|]; simpl;
        repeat split; try discriminate; eauto;
        try (intros [_ [? ?]]; discriminate);
        try (intros [_ [?|?]]; congruence);
        try (intros [[=]|[= ?]]; congruence).
  - simpl. repeat split; try discriminate; auto;
      intros [[m [[=] _]] _].
Qed.

End ModeSelection.

(** ** Token bucket *)

Section TokenBucket.
Import Executor.

(** C6: with a positive rate and a positive tick the bucket is refilled
    up to the capacity [max(1, 2 * current_rps)]; otherwise it is left as
    it is. *)
Theorem update_tokens_spec (tk current_rps delta : Q) :
  ((0 < current_rps)%Q -> (0 < delta)%Q ->
   (_update_tokens tk current_rps delta
    == Qmin (Qmax 1 (2 * current_rps)) (tk + current_rps * delta))%Q)
  /\ ((current_rps <= 0)%Q \/ (delta <= 0)%Q ->
      _update_tokens tk current_rps delta = tk).
Proof.
  unfold _update_tokens, py_min, py_max. split.
  - intros Hr Hd.
    destruct (fle_spec current_rps 0) as [Hle|_]; [lra|].
    destruct (fle_spec delta 0) as [Hle|_]; [lra|]. simpl.
    assert (E : (current_rps * 2 == 2 * current_rps)%Q) by ring.
    now rewrite E.
  - intros [Hr|Hd].
    + destruct (fle_spec current_rps 0) as [_|Hn]; [reflexivity|tauto].
    + destruct (fle_spec delta 0) as [_|Hn]; [|tauto].
      now rewrite orb_true_r.
Qed.

(** A bucket holding half a token, at 4 requests per second, a quarter of
    a second after the last tick. *)
Lemma update_tokens_spec_witness :
  (_update_tokens (1 # 2) 4 (1 # 4)
   == Qmin (Qmax 1 (2 * 4)) ((1 # 2) + 4 * (1 # 4)))%Q
  /\ _update_tokens (1 # 2) 0 (1 # 4) = (1 # 2)%Q.
Proof.
  split.
  - apply (update_tokens_spec (1 # 2) 4 (1 # 4)); reflexivity.
  - apply (update_tokens_spec (1 # 2) 0 (1 # 4)). left. discriminate.
Defined.

End TokenBucket.

(** ** Metrics payload *)

Section MetricsPayload.
Import Executor Examples.

Lemma terminal_cases (s : string) :
  s ∈ TERMINAL_STATUSES <->
  s = "completed" \/ s = "failed" \/ s = "stopped".
Proof. unfold TERMINAL_STATUSES. set_solver. Qed.

(** C10: the payload reports no active user for a terminal state,
    whatever the stored estimate; for a running state backed by a
    subprocess whose stored estimate is 0 it reports the configured
    number of users. *)
Theorem format_metrics_active_users
    (test_id : string) (st : RunState) (timestamp : string) :
  (status st ∈ TERMINAL_STATUSES ->
   payload_data "active_users_estimate" (format_metrics test_id st timestamp)
   = PInt 0)
  /\ (process st <> None -> status st = "running" ->
      active_users_estimate (metrics st) = 0%Z ->
      payload_data "active_users_estimate"
        (format_metrics test_id st timestamp)
      = PInt (_configured_users st)
      /\ payload_data "configured_users"
           (format_metrics test_id st timestamp)
         = PInt (_configured_users st)).
Proof.
  split.
  - intros Hterm. unfold format_metrics, payload_data. simpl.
    now rewrite (bool_decide_true _ Hterm).
  - intros Hproc Hrun Hzero. unfold format_metrics, payload_data. simpl.
    rewrite Hrun, Hzero. simpl.
    destruct (process st) as [p|]; [simpl|congruence].
    split; reflexivity.
Qed.

(** A stopped state that still stores seven active users, and a running
    locust state that stores none. *)
Lemma format_metrics_active_users_witness :
  payload_data "active_users_estimate"
    (format_metrics "t1" (state_with "stopped" None 7) "2026-01-01T00:00:00Z")
  = PInt 0
  /\ payload_data "active_users_estimate"
       (format_metrics "t1" (state_with "running" (Some 1%nat) 0)
          "2026-01-01T00:00:00Z")
     = PInt 5.
Proof.
  split.
  - apply (format_metrics_active_users "t1" (state_with "stopped" None 7)).
    apply terminal_cases. right. right. reflexivity.
  - apply (format_metrics_active_users "t1"
             (state_with "running" (Some 1%nat) 0));
      [discriminate | reflexivity | reflexivity].
Defined.

End MetricsPayload.

(** ** [stop_test] *)

Section StopTest.
Import Executor Examples.

Lemma lookup_with_state (test_id : string) (f : RunState -> RunState)
    (w : World) :
  active_tests (with_state test_id f w) !! test_id
  = f <$> active_tests w !! test_id.
Proof. unfold with_state. simpl. apply lookup_alter_eq. Qed.

Lemma lookup_write_status (writer : Writer) (test_id s : string) (w : World)
    (st : RunState) :
  active_tests w !! test_id = Some st ->
  active_tests (write_status writer test_id s w) !! test_id
  = Some (set_status s st).
Proof.
  intros Hst. unfold write_status. rewrite Hst. simpl.
  apply lookup_insert_eq.
Qed.

Lemma lookup_broadcast_metrics (test_id timestamp k : string) (w : World) :
  active_tests (broadcast_metrics test_id timestamp w) !! k
  = active_tests w !! k.
Proof.
  unfold broadcast_metrics. now destruct (active_tests w !! test_id).
Qed.

(** After the last segment of [stop_test] the state is [stopped]. *)
Lemma stop_test_finish_status (test_id : string) (now : datetime)
    (timestamp : string) (w : World) (st : RunState) :
  active_tests w !! test_id = Some st ->
  exists st',
    active_tests (stop_test_finish test_id now timestamp w) !! test_id
    = Some st'
    /\ status st' = "stopped".
Proof.
  intros Hst. unfold stop_test_finish.
  rewrite lookup_broadcast_metrics, lookup_with_state.
  rewrite (lookup_write_status _ _ _ _ _ Hst). simpl. eauto.
Qed.

(** C9: [stop_test] answers [False] exactly for an unknown test; on a
    state that is stopping or terminal it answers [True] and changes
    nothing (store, broadcasts, terminated subprocesses and status writes
    are those before the call); and a second call after any call changes
    nothing. *)
Theorem stop_test_idempotent
    (test_id : string) (now : datetime) (timestamp : string) (w : World) :
  (fst (stop_test test_id now timestamp w) = false
   <-> active_tests w !! test_id = None)
  /\ (forall st,
        active_tests w !! test_id = Some st ->
        status st = "stopping" \/ status st ∈ TERMINAL_STATUSES ->
        stop_test test_id now timestamp w = (true, w))
  /\ (forall now' timestamp',
        stop_test test_id now' timestamp'
          (snd (stop_test test_id now timestamp w))
        = stop_test test_id now timestamp w).
Proof.
  assert (Hquiet : forall w0 st n ts,
            active_tests w0 !! test_id = Some st ->
            status st = "stopping" \/ status st ∈ TERMINAL_STATUSES ->
            stop_test test_id n ts w0 = (true, w0)).
  { intros w0 st n ts Hst Hs. unfold stop_test, stop_test_begin.
    rewrite Hst. destruct Hs as [Hs|Hs].
    - rewrite Hs. now rewrite orb_true_r.
    - now rewrite (bool_decide_true _ Hs). }
  split; [|split].
  - unfold stop_test, stop_test_begin.
    destruct (active_tests w !! test_id) as [st|] eqn:Hst; simpl.
    + split; [|discriminate].
      destruct (bool_decide (status st ∈ TERMINAL_STATUSES)
                || String.eqb (status st) "stopping"); simpl;
        [discriminate|].
      destruct (process st); simpl; discriminate.
    + tauto.
  - intros st Hst Hs. now apply (Hquiet w st).
  - intros now' timestamp'.
    destruct (active_tests w !! test_id) as [st|] eqn:Hst.
    + destruct (bool_decide (status st ∈ TERMINAL_STATUSES)
                || String.eqb (status st) "stopping") eqn:Hq.
      * assert (Hs : status st = "stopping"
                     \/ status st ∈ TERMINAL_STATUSES).
        { apply orb_true_iff in Hq as [Hq|Hq].
          - right. now apply bool_decide_eq_true in Hq.
          - left. now apply String.eqb_eq in Hq. }
        rewrite (Hquiet w st now timestamp Hst Hs). simpl.
        now apply (Hquiet w st).
      * unfold stop_test at 2 3, stop_test_begin. rewrite Hst, Hq.
        assert (Hw1 : active_tests
                        (write_status stop_test_call test_id "stopping" w)
                      !! test_id = Some (set_status "stopping" st))
          by now apply lookup_write_status.
        destruct (process st) as [p|]; simpl.
        -- unfold stop_test_resume.
           destruct (stop_test_finish_status test_id now timestamp
                       (with_state test_id (set_process None)
                          (_terminate_process p
                             (write_status stop_test_call test_id
                                "stopping" w)))
                       (set_process None (set_status "stopping" st)))
             as [st' [Hst' Hstopped]].
           { rewrite lookup_with_state. simpl. now rewrite Hw1. }
           apply (Hquiet _ st'); [exact Hst'|].
           right. apply terminal_cases. auto.
        -- destruct (stop_test_finish_status test_id now timestamp
                       (write_status stop_test_call test_id "stopping" w)
                       (set_status "stopping" st) Hw1)
             as [st' [Hst' Hstopped]].
           apply (Hquiet _ st'); [exact Hst'|].
           right. apply terminal_cases. auto.
    + unfold stop_test, stop_test_begin. rewrite Hst. simpl.
      now rewrite Hst.
Qed.

(** A completed test in the store. *)
Lemma stop_test_idempotent_witness :
  stop_test "t1" 5 "2026-01-01T00:00:05Z"
    (world_with (state_with "completed" None 0))
  = (true, world_with (state_with "completed" None 0)).
Proof.
  apply (stop_test_idempotent "t1" 5 "2026-01-01T00:00:05Z"
           (world_with (state_with "completed" None 0))
         ) with (st := state_with "completed" None 0).
  - apply lookup_singleton_eq.
  - right. apply terminal_cases. left. reflexivity.
Defined.

End StopTest.

(** ** Retries of the HTTP client *)

Section Retries.
Import Client Examples.

(** C2, as stated, fails: against a server that answers 404 every time, a
    client with three retries dispatches the request four times and
    sleeps 1, 2 and 4 seconds in between. *)
Lemma no_retry_on_4xx_counterexample :
  dispatches (make_api_call 3 (always (Response 404))) = 4%nat
  /\ sleeps (make_api_call 3 (always (Response 404))) = [1; 2; 4]%Z
  /\ outcome (make_api_call 3 (always (Response 404))) = RaisesApiError None.
Proof. repeat split. Qed.

Lemma attempt_retriable (max_retries : Z) (d : Dispatch) (attempt : Z) :
  retriable d = true ->
  exists e, _attempt_request max_retries d attempt = Attempted None (Some e).
Proof.
  destruct d as [code| | |code| |]; simpl; try discriminate; eauto.
  intros Herr. unfold _handle_error_response. rewrite Herr. simpl.
  destruct (attempt <? max_retries)%Z; eauto.
Qed.

Lemma attempt_success (max_retries : Z) (code attempt : Z) :
  is_error code = false ->
  _attempt_request max_retries (Response code) attempt
  = Attempted (Some code) None.
Proof.
  intros Herr. simpl. unfold _handle_error_response. now rewrite Herr.
Qed.

(** The loop, when the next [k] dispatches fail and the one after them
    is answered without an error. *)
Lemma attempts_then_success (max_retries : Z) (transport : nat -> Dispatch)
    (code : Z) (k : nat) :
  forall (remaining attempt : nat) (last : option ApiError),
    (k < remaining)%nat ->
    (Z.of_nat (attempt + k) <= max_retries)%Z ->
    (forall i, (i < k)%nat -> retriable (transport (attempt + i)%nat) = true) ->
    transport (attempt + k)%nat = Response code ->
    is_error code = false ->
    attempts max_retries transport remaining attempt last
    = {| dispatches := S k;
         sleeps :=
           List.map (fun a => backoff (Z.of_nat a)) (seq attempt k);
         outcome := Returns code |}.
Proof.
  induction k as [|k IH]; intros remaining attempt last Hrem Hmax Hfail Hk Hok.
  - destruct remaining as [|remaining]; [lia|]. simpl.
    rewrite Nat.add_0_r in Hk. rewrite Hk.
    now rewrite (attempt_success _ _ _ Hok).
  - destruct remaining as [|remaining]; [lia|]. simpl.
    destruct (attempt_retriable max_retries (transport attempt)
                (Z.of_nat attempt)) as [e He].
    { specialize (Hfail 0%nat). rewrite Nat.add_0_r in Hfail.
      apply Hfail. lia. }
    rewrite He.
    rewrite (IH remaining (S attempt) (Some e)); try lia.
    + simpl. destruct (Z.ltb_spec (Z.of_nat attempt) max_retries);
        [reflexivity|lia].
    + intros i Hi. replace (S attempt + i)%nat with (attempt + S i)%nat
        by lia. apply Hfail. lia.
    + now replace (S attempt + k)%nat with (attempt + S k)%nat by lia.
    + exact Hok.
Qed.

(** The loop, when every remaining dispatch fails. *)
Lemma attempts_exhausted (max_retries : Z) (transport : nat -> Dispatch) :
  forall (remaining attempt : nat) (last : option ApiError),
    (Z.of_nat (attempt + remaining) = max_retries + 1)%Z ->
    (forall i, (i < remaining)%nat ->
               retriable (transport (attempt + i)%nat) = true) ->
    let call := attempts max_retries transport remaining attempt last in
    dispatches call = remaining
    /\ sleeps call
       = List.map (fun a => backoff (Z.of_nat a))
           (seq attempt (remaining - 1))
    /\ exists status, outcome call = RaisesApiError status.
Proof.
  induction remaining as [|remaining IH]; intros attempt last Hlen Hfail.
  - simpl. eauto.
  - simpl.
    destruct (attempt_retriable max_retries (transport attempt)
                (Z.of_nat attempt)) as [e He].
    { specialize (Hfail 0%nat). rewrite Nat.add_0_r in Hfail.
      apply Hfail. lia. }
    rewrite He. simpl.
    destruct (IH (S attempt) (Some e)) as [Hd [Hs Ho]].
    { lia. }
    { intros i Hi. replace (S attempt + i)%nat with (attempt + S i)%nat
        by lia. apply Hfail. lia. }
    split; [now rewrite Hd|]. split; [|exact Ho].
    rewrite Hs. rewrite Nat.sub_0_r.
    destruct remaining as [|remaining].
    + simpl. destruct (Z.ltb_spec (Z.of_nat attempt) max_retries);
        [lia|reflexivity].
    + simpl. rewrite Nat.sub_0_r.
      destruct (Z.ltb_spec (Z.of_nat attempt) max_retries);
        [reflexivity|lia].
Qed.

(** C2 (amended): an error response of either class (4xx as well as
    5xx), a timeout, a network error or another exception is retried;
    after attempt number [a] the client sleeps [min(2^a, 10)] seconds; at
    most [max_retries] additional attempts are made. If the first [k]
    dispatches fail and the next one is answered without an error, the
    call dispatches [k + 1] times and returns that answer; if all
    [max_retries + 1] dispatches fail, it raises [AsyncApiError]. *)
Theorem retry_policy (max_retries : Z) (transport : nat -> Dispatch)
    (k : nat) :
  (0 <= max_retries)%Z ->
  (forall i, (i < k)%nat -> retriable (transport i) = true) ->
  (forall code,
     (Z.of_nat k <= max_retries)%Z ->
     transport k = Response code -> is_error code = false ->
     make_api_call max_retries transport
     = {| dispatches := S k; sleeps := backoffs k;
          outcome := Returns code |})
  /\ ((Z.of_nat k = max_retries + 1)%Z ->
      dispatches (make_api_call max_retries transport) = k
      /\ sleeps (make_api_call max_retries transport) = backoffs (k - 1)
      /\ exists status,
           outcome (make_api_call max_retries transport)
           = RaisesApiError status).
Proof.
  intros Hmax Hfail. unfold make_api_call, backoffs. split.
  - intros code Hk Hresp Hok.
    apply attempts_then_success; auto; lia.
  - intros Hk.
    replace (Z.to_nat (max_retries + 1)) with k by lia.
    apply (attempts_exhausted max_retries transport k 0%nat None); auto.
Qed.

(** Two retries against a server that answers 404 every time: three
    dispatches, back-offs of 1 and 2 seconds, and an error. *)
Lemma retry_policy_witness :
  dispatches (make_api_call 2 (always (Response 404))) = 3%nat
  /\ sleeps (make_api_call 2 (always (Response 404))) = backoffs 2
  /\ exists status,
       outcome (make_api_call 2 (always (Response 404)))
       = RaisesApiError status.
Proof.
  apply (retry_policy 2 (always (Response 404)) 3).
  - lia.
  - intros i _. reflexivity.
  - reflexivity.
Defined.

End Retries.

(** ** The step distribution *)

Section Step.
Import Distributions Examples.
Context `{Runtime}.







End Step.

Section StepClaim.
Import Distributions Examples.




End StepClaim.

(** ** Instances built by [initialize] *)

Section Initialized.
Import Distributions Examples.
Context `{Runtime}.

Lemma parse_items_Forall {A} (parse : PyVal -> option (Parsed A))
    (Q : A -> Prop) :
  (forall item a, parse item = Some (ParsedOk a) -> Q a) ->
  forall items l err,
    parse_items parse items = Some (l, err) -> Forall Q l.
Proof.
  intros Hparse. induction items as [|item rest IH]; intros l err; simpl.
  - intros [= <- <-]. constructor.
  - destruct (parse item) as [parsed|] eqn:Ep; [|discriminate].
    destruct (parse_items parse rest) as [[l' err']|]; [|discriminate].
    destruct parsed as [|a]; intros [= <- <-].
    + eapply IH; reflexivity.
    + constructor; [eapply Hparse; eassumption|eapply IH; reflexivity].
Qed.

Lemma _parse_single_component_child
    (init_child : PluginClass -> Dict -> option Plugin) (P : Plugin -> Prop) :
  (forall cls config p, init_child cls config = Some p -> P p) ->
  forall component a,
    _parse_single_component init_child component = Some (ParsedOk a) ->
    P (fst (fst a)).
Proof.
  intros Hchild component a. unfold _parse_single_component.
  destruct component; try discriminate.
  destruct (to_float _ None); [|discriminate].
  destruct (parse_distribution_ref _) as [|[cls config]]; [discriminate|].
  destruct (_ && _); [discriminate|].
  destruct (init_child cls config) as [p|] eqn:Ei; [|discriminate].
  intros [= <-]. simpl. eapply Hchild; eassumption.
Qed.

Lemma _parse_stage_child
    (init_child : PluginClass -> Dict -> option Plugin) (P : Plugin -> Prop) :
  (forall cls config p, init_child cls config = Some p -> P p) ->
  forall stage a,
    _parse_stage init_child stage = Some (ParsedOk a) -> P (fst a).
Proof.
  intros Hchild stage a. unfold _parse_stage.
  destruct stage; try discriminate.
  destruct (as_number _); [|discriminate].
  destruct (parse_distribution_ref _) as [|[cls config]]; [discriminate|].
  destruct (init_child cls config) as [p|] eqn:Ei; [|discriminate].
  intros [= <-]. simpl. eapply Hchild; eassumption.
Qed.

(** Induction over the instances [initialize] builds: a property holds of
    every initialized instance when it holds of the initialized leaves and
    of every composite whose children have it and whose attributes are
    built the way [initialize] builds them. *)
Lemma initialize_ind (P : Plugin -> Prop) :
  (forall config, P (constant_initialize config)) ->
  (forall config, P (linear_initialize config)) ->
  (forall config, P (poisson_initialize config)) ->
  (forall config, P (step_initialize config)) ->
  (forall config, P (sine_initialize config)) ->
  (forall config e mix_target_rps plugins weights targets,
     Forall P plugins ->
     length weights = length plugins ->
     length targets = length plugins ->
     P (MixDistribution config e mix_target_rps plugins weights targets
          (_set_normalized_weights weights))) ->
  (forall config e post_behavior plugins durations,
     Forall P plugins ->
     length durations = length plugins ->
     P (SequenceDistribution config e post_behavior plugins durations
          (fst (stage_timeline 0 durations))
          (snd (stage_timeline 0 durations)))) ->
  forall fuel cls config p, initialize fuel cls config = Some p -> P p.
Proof.
  intros HC HL HP HSt HSi HM HSeq.
  induction fuel as [|fuel IH]; intros cls config p;
    destruct cls; simpl; try (intros [= <-]; auto); try discriminate.
  - unfold mix_initialize.
    destruct (_set_mix_target_rps config) as [mix_target_rps err1].
    destruct (_parse_components config) as [[components|] err2].
    + destruct (parse_items _ components) as [[parsed err3]|] eqn:Ep;
        [|discriminate].
      intros [= <-]. apply HM.
      * apply Forall_map.
        eapply parse_items_Forall; [|exact Ep].
        intros item a. now apply _parse_single_component_child.
      * now rewrite !length_map.
      * now rewrite !length_map.
    + intros [= <-]. apply (HM config _ _ [] [] []); auto.
  - unfold sequence_initialize.
    destruct (_set_post_behavior config) as [post_behavior err1].
    destruct (_parse_stages_data config) as [[stages|] err2].
    + destruct (parse_items _ stages) as [[parsed err3]|] eqn:Ep;
        [|discriminate].
      destruct (stage_timeline 0 (List.map snd parsed))
        as [starts total] eqn:Et.
      intros [= <-].
      pose proof (HSeq config (err1 || err2 || err3) post_behavior
                    (List.map fst parsed) (List.map snd parsed)) as Hp.
      rewrite Et in Hp. apply Hp.
      * apply Forall_map.
        eapply parse_items_Forall; [|exact Ep].
        intros item a. now apply _parse_stage_child.
      * now rewrite !length_map.
    + intros [= <-]. apply (HSeq config _ _ [] []); auto.
Qed.

End Initialized.

(** ** The validation helper *)

Section Validation.
Import Distributions Examples.

(** C8: on a mix whose single component has weight -1 over a constant
    distribution, the validation helper returns (it does not raise) the
    one error [components[0].weight must be > 0]. One level of nesting is
    all the recursion this configuration needs. *)
Theorem mix_negative_weight `{Runtime} (fuel : nat) :
  validate_distribution_config (S fuel) "mix" negative_weight_mix "config"
  = Ok ["components[0].weight must be > 0"].
Proof. destruct fuel; vm_compute; reflexivity. Qed.

End Validation.

(** ** Evaluation of initialized instances *)

Section Evaluation.
Import Distributions Examples.
Context `{Runtime}.

Lemma pure_ret (v : Q) : pure_eval (ret v).
Proof. exists (Some v). reflexivity. Qed.

Lemma mix_loop_pure (children : list (Q -> Q -> Eval Q)) :
  Forall (fun child => forall t r, pure_eval (child t r)) children ->
  forall weights targets mix_target_rps t r acc,
    pure_eval (mix_loop children weights targets mix_target_rps t r acc).
Proof.
  induction 1 as [|child cs Hc Hcs IH]; intros weights targets mt t r acc.
  - simpl. apply pure_ret.
  - destruct weights as [|w ws]; [apply pure_ret|].
    destruct targets as [|o os]; [apply pure_ret|].
    simpl. destruct (Hc t (_effective_target mt o r)) as [[v|] Hv].
    + destruct (IH ws os mt t r (acc + w * v)%Q) as [o' Ho'].
      exists o'. intros g. unfold bind. rewrite Hv. simpl. apply Ho'.
    + exists None. intros g. unfold bind. now rewrite Hv.
Qed.

Lemma _rate_for_stage_pure (children : list (Q -> Q -> Eval Q))
    (starts : list Q) (index : Z) (elapsed r : Q) :
  Forall (fun child => forall t r, pure_eval (child t r)) children ->
  pure_eval (_rate_for_stage children starts index elapsed r).
Proof.
  intros Hc. unfold _rate_for_stage.
  destruct (index <? 0)%Z; [apply pure_ret|].
  destruct (starts !! Z.to_nat index) as [stage_start|];
    [|now exists None].
  destruct (children !! Z.to_nat index) as [child|] eqn:E;
    [|now exists None].
  rewrite Forall_forall in Hc. apply Hc.
  eapply list_elem_of_lookup_2. exact E.
Qed.

Lemma forallb_children (P : Plugin -> Prop) (plugins : list Plugin) :
  Forall (fun q => deterministic q = true -> P q) plugins ->
  forallb deterministic plugins = true ->
  Forall P plugins.
Proof.
  induction 1 as [|q qs Hq Hqs IH]; simpl; [constructor|].
  intros Hb. apply andb_true_iff in Hb as [Hd Hds].
  constructor; auto.
Qed.

(** A deterministic initialized evaluator does not touch the
    generator. *)
Lemma deterministic_pure (fuel : nat) (cls : PluginClass) (config : Dict)
    (p : Plugin) :
  initialize fuel cls config = Some p ->
  deterministic p = true ->
  forall t r, pure_eval (get_rate p t r).
Proof.
  revert fuel cls config p.
  apply (initialize_ind
           (fun p => deterministic p = true ->
                     forall t r, pure_eval (get_rate p t r))).
  - intros config. unfold constant_initialize.
    destruct (_ && _); [destruct (parse_float _ _)|];
      intros _ t r; apply pure_ret.
  - intros config. unfold linear_initialize.
    destruct (dict_contains _ _); [destruct (parse_float _ _)|];
      intros _ t r; apply pure_ret.
  - intros config. unfold poisson_initialize.
    destruct (if _ && _ then _ else _).
    destruct (if dict_contains _ _ then _ else _). discriminate.
  - intros config. unfold step_initialize.
    destruct (if dict_contains _ _ then _ else _).
    destruct (_parse_steps _). intros _ t r. apply pure_ret.
  - intros config. unfold sine_initialize.
    repeat destruct (_parse_required_float _ _ _).
    destruct (_parse_optional_float _ _). intros _ t r. apply pure_ret.
  - intros config e mt plugins weights targets Hch _ _ Hdet t r.
    simpl in Hdet. pose proof (forallb_children _ _ Hch Hdet) as Hpure.
    simpl. unfold mix_get_rate.
    destruct (_ || _); [apply pure_ret|].
    destruct (fle _ 0); [apply pure_ret|].
    destruct (mix_loop_pure (List.map get_rate plugins)) with
      (weights := _set_normalized_weights weights) (targets := targets)
      (mix_target_rps := mt) (t := t) (r := r) (acc := 0%Q) as [o Ho].
    { now apply Forall_map. }
    destruct o as [v|].
    + exists (Some (py_max 0 v)). intros g. unfold bind.
      now rewrite Ho.
    + exists None. intros g. unfold bind. now rewrite Ho.
  - intros config e post plugins durations Hch _ Hdet t r.
    simpl in Hdet. pose proof (forallb_children _ _ Hch Hdet) as Hpure.
    assert (Hc : Forall (fun child => forall t r, pure_eval (child t r))
                   (List.map get_rate plugins)) by now apply Forall_map.
    simpl. unfold sequence_get_rate.
    destruct (_ || _); [apply pure_ret|].
    destruct (fle _ 0); [apply pure_ret|].
    destruct (_elapsed_for_behavior _ _ _ _) as [[elapsed fallback]|].
    + destruct (feq fallback 0); [apply pure_ret|].
      now apply _rate_for_stage_pure.
    + now apply _rate_for_stage_pure.
Qed.

Lemma eval_post_ret (Post : Q -> Prop) (v : Q) :
  Post v -> eval_post Post (ret v).
Proof. intros Hv g. exists v, g. now split. Qed.

Lemma eval_post_weaken (Post : Q -> Prop) (m : Eval Q) :
  eval_post Post m -> eval_post (fun _ => True) m.
Proof.
  intros Hm g. destruct (Hm g) as (v & g' & E & _). now exists v, g'.
Qed.

Lemma mix_loop_returns (children : list (Q -> Q -> Eval Q)) :
  Forall (fun child => forall t r, eval_post (fun _ => True) (child t r))
    children ->
  forall weights targets mix_target_rps t r acc,
    eval_post (fun _ => True)
      (mix_loop children weights targets mix_target_rps t r acc).
Proof.
  induction 1 as [|child cs Hc Hcs IH]; intros weights targets mt t r acc.
  - simpl. now apply eval_post_ret.
  - destruct weights as [|w ws]; [now apply eval_post_ret|].
    destruct targets as [|o os]; [now apply eval_post_ret|].
    simpl. intros g.
    destruct (Hc t (_effective_target mt o r) g) as (v & g1 & E & _).
    unfold bind. rewrite E. apply IH.
Qed.

(** The mix clamps: whatever its children return, it returns a
    non-negative rate. *)
Lemma mix_get_rate_nonneg (children : list (Q -> Q -> Eval Q))
    (e : bool) (mt : option Q) (normalized : list Q)
    (targets : list (option Q)) (t r : Q) :
  Forall (fun child => forall t r, eval_post (fun _ => True) (child t r))
    children ->
  eval_post (Qle 0) (mix_get_rate children e mt normalized targets t r).
Proof.
  intros Hc. unfold mix_get_rate.
  destruct (_ || _); [apply eval_post_ret, py_max_nonneg|].
  destruct (fle _ 0); [apply eval_post_ret, py_max_nonneg|].
  intros g.
  destruct (mix_loop_returns children Hc normalized targets mt t r 0%Q g)
    as (v & g1 & E & _).
  unfold bind. rewrite E. exists (py_max 0 v), g1.
  split; [reflexivity|apply py_max_nonneg].
Qed.

(** *** The timeline of a sequence *)

Lemma stage_timeline_length (durations : list Q) :
  forall s0, length (fst (stage_timeline s0 durations)) = length durations.
Proof.
  induction durations as [|d ds IH]; intros s0; simpl; [reflexivity|].
  specialize (IH (s0 + d)%Q).
  destruct (stage_timeline (s0 + d) ds). simpl in *. now rewrite IH.
Qed.

(** Every stage starts before the total, when no duration is
    negative. *)
Lemma stage_timeline_le_total (durations : list Q) :
  Forall (fun d => (0 < d)%Q) durations ->
  forall s0,
    (s0 <= snd (stage_timeline s0 durations))%Q
    /\ Forall (fun st => (st <= snd (stage_timeline s0 durations))%Q)
         (fst (stage_timeline s0 durations)).
Proof.
  induction 1 as [|d ds Hd Hds IH]; intros s0; simpl.
  - split; [lra|constructor].
  - destruct (IH (s0 + d)%Q) as [Hle Hall].
    destruct (stage_timeline (s0 + d) ds) as [starts total]. simpl in *.
    split; [lra|]. constructor; [lra|exact Hall].
Qed.

(** The stage [_find_active_stage] selects exists and, from a time that
    is not before the timeline's origin, has started; when the loop
    selects none, every stage has. *)
Lemma find_stage_from_spec (durations : list Q) (elapsed : Q) :
  forall s0 index,
    match find_stage_from index (fst (stage_timeline s0 durations))
            durations elapsed with
    | Some i =>
        exists k stage_start,
          i = (index + Z.of_nat k)%Z
          /\ fst (stage_timeline s0 durations) !! k = Some stage_start
          /\ ((s0 <= elapsed)%Q -> (stage_start <= elapsed)%Q)
    | None =>
        (s0 <= elapsed)%Q ->
        Forall (fun st => (st <= elapsed)%Q)
          (fst (stage_timeline s0 durations))
    end.
Proof.
  induction durations as [|d ds IH]; intros s0 index; simpl.
  - constructor.
  - specialize (IH (s0 + d)%Q (index + 1)%Z).
    destruct (stage_timeline (s0 + d) ds) as [starts total]. simpl in *.
    destruct (flt_spec elapsed (s0 + d)) as [Hlt|Hge].
    + exists 0%nat, s0. repeat split; [lia|auto].
    + assert (Hs1 : (s0 + d <= elapsed)%Q) by lra.
      destruct (find_stage_from (index + 1) starts ds elapsed) as [i|].
      * destruct IH as (k & st & -> & Hk & Hst).
        exists (S k), st. repeat split; [lia|exact Hk|auto].
      * intros Hs0. constructor; auto.
Qed.

Lemma lookup_map {A B} (f : A -> B) (l : list A) (k : nat) :
  List.map f l !! k = option_map f (l !! k).
Proof.
  revert k. induction l as [|x l IH]; intros [|k]; simpl; auto.
Qed.

Lemma _rate_for_stage_at (Post : Q -> Prop)
    (children : list (Q -> Q -> Eval Q)) (starts : list Q) (k : nat)
    (stage_start : Q) (child : Q -> Q -> Eval Q) (elapsed r : Q) :
  starts !! k = Some stage_start ->
  children !! k = Some child ->
  eval_post Post (child (elapsed - stage_start)%Q r) ->
  eval_post Post (_rate_for_stage children starts (Z.of_nat k) elapsed r).
Proof.
  intros Hs Hc Hpost. unfold _rate_for_stage.
  destruct (Z.ltb_spec (Z.of_nat k) 0); [lia|].
  rewrite Nat2Z.id, Hs, Hc. exact Hpost.
Qed.

Lemma py_fmod_nonneg (x y : Q) :
  (0 < y)%Q -> (0 <= py_fmod x y)%Q.
Proof.
  intros Hy. unfold py_fmod. rewrite Qred_correct.
  pose proof (Qfloor_le (x / y)) as Hf.
  assert (E : (x == y * (x / y))%Q) by (field; lra).
  assert (Hm : (y * inject_Z (Qfloor (x / y)) <= y * (x / y))%Q).
  { apply Qmult_le_l; assumption. }
  lra.
Qed.

Lemma Qfloor_unique (x : Q) (n : Z) :
  (inject_Z n <= x)%Q -> (x < inject_Z (n + 1))%Q -> Qfloor x = n.
Proof.
  intros Hle Hlt. apply Z.le_antisymm.
  - apply Z.lt_succ_r. unfold Z.succ. rewrite Zlt_Qlt.
    pose proof (Qfloor_le x). lra.
  - rewrite <- (Qfloor_Z n). now apply Qfloor_resp_le.
Qed.

(** [t + T] and [t] leave the same remainder modulo [T]. *)
Lemma py_fmod_period (t T : Q) :
  (0 < T)%Q -> py_fmod (t + T) T = py_fmod t T.
Proof.
  intros HT. unfold py_fmod. apply Qred_complete.
  assert (E : ((t + T) / T == t / T + 1)%Q) by (field; lra).
  assert (F : Qfloor ((t + T) / T) = (Qfloor (t / T) + 1)%Z).
  { apply Qfloor_unique.
    - rewrite inject_Z_plus, E. pose proof (Qfloor_le (t / T)).
      change (inject_Z 1) with 1%Q. lra.
    - rewrite !inject_Z_plus, E. pose proof (Qlt_floor (t / T)) as Hlt.
      rewrite inject_Z_plus in Hlt. change (inject_Z 1) with 1%Q in *. lra. }
  rewrite F, inject_Z_plus. change (inject_Z 1) with 1%Q. ring.
Qed.

End Evaluation.

(** ** Non-negative rates *)

Section NonNegative.
Import Distributions Examples.
Context `{Runtime}.

Lemma constant_get_rate_nonneg (rps : option Q) (t r : Q) :
  (0 <= constant_get_rate rps t r)%Q.
Proof.
  unfold constant_get_rate. destruct rps as [v|]; [|apply py_max_nonneg].
  destruct (flt_spec 0 v); [lra|apply py_max_nonneg].
Qed.

Lemma linear_get_rate_nonneg (ramp_duration t r : Q) :
  (0 <= t)%Q -> (0 <= r)%Q -> (0 <= linear_get_rate ramp_duration t r)%Q.
Proof.
  intros Ht Hr. unfold linear_get_rate.
  destruct (fle_spec ramp_duration 0) as [|Hramp]; [exact Hr|].
  destruct (fle_spec ramp_duration t); [exact Hr|].
  apply Qmult_le_0_compat; [|exact Hr].
  apply Qle_shift_div_l; lra.
Qed.

Lemma poisson_get_rate_nonneg (lambda_param : option Q)
    (variance_scale t r : Q) :
  eval_post (Qle 0) (poisson_get_rate lambda_param variance_scale t r).
Proof.
  unfold poisson_get_rate.
  destruct (fle _ 0); [apply eval_post_ret; lra|].
  intros g. unfold bind, gauss.
  destruct (random_gauss 0 ((1 # 10) * variance_scale) g) as [noise g1].
  eexists _, g1. split; [reflexivity|apply py_max_nonneg].
Qed.

Lemma step_get_rate_nonneg (e : bool) (steps : list (Q * Q))
    (default_rps t r : Q) :
  (0 <= step_get_rate e steps default_rps t r)%Q.
Proof.
  unfold step_get_rate. destruct e; [apply py_max_nonneg|].
  destruct steps; apply py_max_nonneg.
Qed.

Lemma validate_numeric_positive (v : Q) (allow_none non_negative : bool) :
  validate_numeric (Some v) allow_none true non_negative = true ->
  (0 < v)%Q.
Proof.
  simpl. destruct (fle_spec v 0); [discriminate|]. intros _. lra.
Qed.

(** A validated sine stays at or above zero: the amplitude is at most 1
    and the base rate is not negative. *)
Lemma sine_get_rate_nonneg (config : Dict) (e : bool)
    (period amplitude phase_shift : Q) (base_rps : option Q) (t r : Q) :
  sin_in_range ->
  sine_validate config e period amplitude phase_shift base_rps = true ->
  (0 <= r)%Q ->
  (0 <= sine_get_rate period amplitude phase_shift base_rps t r)%Q.
Proof.
  unfold sine_validate. intros math_sin_range Hv Hr.
  destruct e; [discriminate Hv|].
  destruct (validate_numeric (Some period) false true false),
    (validate_numeric (Some amplitude) false true false),
    (flt_spec 0 amplitude) as [Ha0|], (fle_spec amplitude 1) as [Ha1|],
    (validate_numeric (Some phase_shift) false false true),
    (validate_numeric base_rps true true false) eqn:Hb;
    simpl in Hv; try discriminate Hv.
  unfold sine_get_rate.
  destruct (fle period 0); [exact Hr|].
  set (angle := (2 * math_pi * (t + phase_shift) / period)%Q).
  destruct (math_sin_range angle) as [Hlo Hhi].
  assert (Hfactor : (0 <= 1 + amplitude * math_sin angle)%Q).
  { assert (Hm : (amplitude * -1 <= amplitude * math_sin angle)%Q).
    { apply Qmult_le_l; assumption. }
    lra. }
  assert (Hbase : (0 <= (if truthy_opt_float base_rps
                         then float_or base_rps 0 else r))%Q).
  { destruct base_rps as [b|]; simpl; [|exact Hr].
    destruct (negb (feq b 0)); [|exact Hr].
    apply validate_numeric_positive in Hb. lra. }
  now apply Qmult_le_0_compat.
Qed.

(** What [validate] of a sequence checks, stage by stage. *)
Lemma sequence_stages_valid_spec (durations : list Q) :
  forall i valids starts,
    length durations = length valids ->
    sequence_stages_valid i durations valids starts = true ->
    Forall (fun d => (0 < d)%Q) durations
    /\ Forall (fun v => v = true) valids.
Proof.
  induction durations as [|d ds IH]; intros i valids starts Hlen;
    destruct valids as [|v vs]; try discriminate Hlen;
    cbn [sequence_stages_valid].
  - split; constructor.
  - destruct (validate_numeric (Some d) false true false) eqn:Hd,
      (match starts !! i with
       | Some start_time =>
           negb (validate_numeric (Some start_time) false false true)
       | None => false
       end), v; simpl; try discriminate.
    intros Hrest. injection Hlen as Hlen.
    destruct (IH _ _ _ Hlen Hrest) as [Hds Hvs].
    split; constructor; auto.
    now apply validate_numeric_positive in Hd.
Qed.

(** *** The stage a sequence evaluates *)

Lemma stage_child (plugins : list Plugin) (durations : list Q) (k : nat)
    (stage_start : Q) :
  length durations = length plugins ->
  fst (stage_timeline 0 durations) !! k = Some stage_start ->
  exists q,
    plugins !! k = Some q
    /\ List.map get_rate plugins !! k = Some (get_rate q).
Proof.
  intros Hlen Hk. apply lookup_lt_Some in Hk.
  rewrite stage_timeline_length, Hlen in Hk.
  destruct (lookup_lt_is_Some_2 plugins k Hk) as [q Hq].
  exists q. split; [exact Hq|]. now rewrite lookup_map, Hq.
Qed.

Lemma last_stage (plugins : list Plugin) (durations : list Q) :
  length durations = length plugins ->
  is_empty (List.map get_rate plugins) = false ->
  exists k stage_start,
    _last_stage_index (List.map get_rate plugins) = Z.of_nat k
    /\ fst (stage_timeline 0 durations) !! k = Some stage_start.
Proof.
  intros Hlen Hne. unfold _last_stage_index. rewrite length_map.
  destruct plugins as [|q qs]; [discriminate Hne|]. simpl length.
  assert (Hk : (length qs < length (fst (stage_timeline 0 durations)))%nat).
  { rewrite stage_timeline_length, Hlen. simpl. lia. }
  destruct (lookup_lt_is_Some_2 _ _ Hk) as [st Hst].
  exists (length qs), st. split; [lia|exact Hst].
Qed.

Lemma last_stage_post (Post : Q -> Prop) (plugins : list Plugin)
    (durations : list Q) (elapsed r : Q) :
  length durations = length plugins ->
  is_empty (List.map get_rate plugins) = false ->
  (forall k stage_start q,
     fst (stage_timeline 0 durations) !! k = Some stage_start ->
     plugins !! k = Some q ->
     eval_post Post (get_rate q (elapsed - stage_start)%Q r)) ->
  eval_post Post
    (_rate_for_stage (List.map get_rate plugins)
       (fst (stage_timeline 0 durations))
       (_last_stage_index (List.map get_rate plugins)) elapsed r).
Proof.
  intros Hlen Hne Hpost.
  destruct (last_stage plugins durations Hlen Hne) as (k & st & -> & Hst).
  destruct (stage_child plugins durations k st Hlen Hst) as (q & Hq & Hc).
  eapply _rate_for_stage_at; eauto.
Qed.

Lemma active_stage_post (Post : Q -> Prop) (plugins : list Plugin)
    (durations : list Q) (elapsed r : Q) :
  length durations = length plugins ->
  is_empty (List.map get_rate plugins) = false ->
  (forall k stage_start q,
     fst (stage_timeline 0 durations) !! k = Some stage_start ->
     plugins !! k = Some q ->
     ((0 <= elapsed)%Q -> (stage_start <= elapsed)%Q) ->
     eval_post Post (get_rate q (elapsed - stage_start)%Q r)) ->
  eval_post Post
    (_rate_for_stage (List.map get_rate plugins)
       (fst (stage_timeline 0 durations))
       (_find_active_stage (List.map get_rate plugins)
          (fst (stage_timeline 0 durations)) durations elapsed)
       elapsed r).
Proof.
  intros Hlen Hne Hpost. unfold _find_active_stage.
  pose proof (find_stage_from_spec durations elapsed 0 0) as Hfind.
  destruct (find_stage_from 0 (fst (stage_timeline 0 durations)) durations
              elapsed) as [i|].
  - destruct Hfind as (k & st & -> & Hst & Hstarted).
    destruct (stage_child plugins durations k st Hlen Hst) as (q & Hq & Hc).
    rewrite Z.add_0_l. eapply _rate_for_stage_at; eauto.
  - apply last_stage_post; auto.
    intros k st q Hst Hq. apply (Hpost k st q Hst Hq).
    intros Helapsed. exact (Forall_lookup_1 _ _ _ _ (Hfind Helapsed) Hst).
Qed.

Lemma _elapsed_for_behavior_nonneg (post_behavior : string)
    (total t r elapsed fallback : Q) :
  (0 < total)%Q -> (0 <= t)%Q ->
  _elapsed_for_behavior post_behavior total t r = Some (elapsed, fallback) ->
  (0 <= elapsed)%Q.
Proof.
  intros Htotal Ht. unfold _elapsed_for_behavior.
  destruct (String.eqb post_behavior "repeat").
  { intros [= <- _]. now apply py_fmod_nonneg. }
  destruct (flt t total); [now intros [= <- _]|].
  destruct (String.eqb post_behavior "zero"); [now intros [= <- _]|].
  destruct (String.eqb post_behavior "hold_last"); [discriminate|].
  now intros [= <- _].
Qed.

Lemma _elapsed_for_behavior_hold (post_behavior : string) (total t r : Q) :
  _elapsed_for_behavior post_behavior total t r = None ->
  (total <= t)%Q.
Proof.
  unfold _elapsed_for_behavior.
  destruct (String.eqb post_behavior "repeat"); [discriminate|].
  destruct (flt_spec t total) as [|Hge]; [discriminate|].
  intros _. lra.
Qed.

(** *** Every initialized instance *)

Lemma rates_ok_pure_leaf (p : Plugin) (rate : Q -> Q -> Q) :
  (forall t r, get_rate p t r = ret (rate t r)) ->
  (sin_in_range -> nonneg_class p = true \/ validate p = true ->
   forall t r, (0 <= t)%Q -> (0 <= r)%Q -> (0 <= rate t r)%Q) ->
  rates_ok p.
Proof.
  intros Hrate Hnonneg. split.
  - intros t r. rewrite Hrate. now apply eval_post_ret.
  - intros Hsin Hok t r Ht Hr. rewrite Hrate. apply eval_post_ret. auto.
Qed.

Lemma rates_ok_sequence (config : Dict) (e : bool) (post_behavior : string)
    (plugins : list Plugin) (durations : list Q) :
  Forall rates_ok plugins ->
  length durations = length plugins ->
  rates_ok
    (SequenceDistribution config e post_behavior plugins durations
       (fst (stage_timeline 0 durations))
       (snd (stage_timeline 0 durations))).
Proof.
  intros Hch Hlen. split.
  - intros t r. simpl. unfold sequence_get_rate.
    destruct (e || is_empty (List.map get_rate plugins)) eqn:Hguard;
      [now apply eval_post_ret|].
    apply orb_false_iff in Hguard as [_ Hne].
    destruct (fle _ 0); [now apply eval_post_ret|].
    destruct (_elapsed_for_behavior _ _ _ _) as [[elapsed fallback]|].
    + destruct (feq fallback 0); [now apply eval_post_ret|].
      apply active_stage_post; auto.
      intros k st q _ Hq _.
      exact (proj1 (Forall_lookup_1 _ _ _ _ Hch Hq) _ _).
    + apply last_stage_post; auto.
      intros k st q _ Hq.
      exact (proj1 (Forall_lookup_1 _ _ _ _ Hch Hq) _ _).
  - intros Hsin [Hcl|Hv]; [discriminate Hcl|]. intros t r Ht Hr.
    simpl in Hv. unfold sequence_validate in Hv.
    destruct e; [discriminate Hv|].
    destruct (is_empty (List.map validate plugins)) eqn:Hne';
      [discriminate Hv|].
    destruct (String.eqb post_behavior "hold_last"
              || String.eqb post_behavior "zero"
              || String.eqb post_behavior "repeat");
      [|discriminate Hv].
    destruct (sequence_stages_valid 0 durations (List.map validate plugins)
                (fst (stage_timeline 0 durations))) eqn:Hstages;
      [|discriminate Hv].
    destruct (validate_numeric (Some (snd (stage_timeline 0 durations)))
                false true false) eqn:Htotal; [|discriminate Hv].
    apply validate_numeric_positive in Htotal.
    apply sequence_stages_valid_spec in Hstages;
      [|now rewrite length_map].
    destruct Hstages as [Hpos Hvalid].
    assert (Hne : is_empty (List.map get_rate plugins) = false).
    { destruct plugins; [discriminate Hne'|reflexivity]. }
    assert (Hchild : forall k q elapsed,
              plugins !! k = Some q -> (0 <= elapsed)%Q ->
              eval_post (Qle 0) (get_rate q elapsed r)).
    { intros k q elapsed Hq Helapsed.
      apply (proj2 (Forall_lookup_1 _ _ _ _ Hch Hq)); auto.
      right. apply (Forall_lookup_1 _ _ k _ Hvalid).
      now rewrite lookup_map, Hq. }
    simpl. unfold sequence_get_rate. simpl. rewrite Hne.
    destruct (fle_spec (snd (stage_timeline 0 durations)) 0); [lra|].
    destruct (_elapsed_for_behavior _ _ _ _) as [[elapsed fallback]|] eqn:Eb.
    + destruct (feq fallback 0); [apply eval_post_ret; lra|].
      pose proof (_elapsed_for_behavior_nonneg _ _ _ _ _ _ Htotal Ht Eb)
        as Helapsed.
      apply active_stage_post; auto.
      intros k st q _ Hq Hstarted. apply (Hchild k); auto.
      specialize (Hstarted Helapsed). lra.
    + apply _elapsed_for_behavior_hold in Eb.
      apply last_stage_post; auto.
      intros k st q Hst Hq. apply (Hchild k); auto.
      pose proof (proj2 (stage_timeline_le_total durations Hpos 0)) as Hle.
      pose proof (Forall_lookup_1 _ _ _ _ Hle Hst). simpl in *. lra.
Qed.

Lemma initialized_rates_ok (fuel : nat) (cls : PluginClass) (config : Dict)
    (p : Plugin) :
  initialize fuel cls config = Some p -> rates_ok p.
Proof.
  revert fuel cls config p. apply (initialize_ind rates_ok).
  - intros config. unfold constant_initialize.
    destruct (_ && _); [destruct (parse_float _ _)|];
      (eapply rates_ok_pure_leaf; [reflexivity|]);
      intros _ _ t r _ _; apply constant_get_rate_nonneg.
  - intros config. unfold linear_initialize.
    destruct (dict_contains _ _); [destruct (parse_float _ _)|];
      (eapply rates_ok_pure_leaf; [reflexivity|]);
      intros _ _ t r; apply linear_get_rate_nonneg.
  - intros config. unfold poisson_initialize.
    destruct (if _ && _ then _ else _).
    destruct (if dict_contains _ _ then _ else _).
    split.
    + intros t r. simpl. eapply eval_post_weaken.
      apply poisson_get_rate_nonneg.
    + intros _ _ t r _ _. apply poisson_get_rate_nonneg.
  - intros config. unfold step_initialize.
    destruct (if dict_contains _ _ then _ else _).
    destruct (_parse_steps _).
    eapply rates_ok_pure_leaf; [reflexivity|].
    intros _ _ t r _ _. apply step_get_rate_nonneg.
  - intros config. unfold sine_initialize.
    repeat destruct (_parse_required_float _ _ _).
    destruct (_parse_optional_float _ _).
    eapply rates_ok_pure_leaf; [reflexivity|].
    intros Hsin [Hcl|Hv] t r _ Hr; [discriminate Hcl|].
    eapply sine_get_rate_nonneg; eauto.
  - intros config e mt plugins weights targets Hch _ _.
    assert (Hc : Forall (fun child => forall t r,
                           eval_post (fun _ => True) (child t r))
                   (List.map get_rate plugins)).
    { apply Forall_map. eapply Forall_impl; [exact Hch|].
      intros q Hq. exact (proj1 Hq). }
    split.
    + intros t r. simpl. eapply eval_post_weaken.
      now apply mix_get_rate_nonneg.
    + intros _ _ t r _ _. simpl. now apply mix_get_rate_nonneg.
  - intros config e post plugins durations Hch Hlen.
    now apply rates_ok_sequence.
Qed.

(** C3 (amended): for every shape evaluator and every configuration
    accepted by [initialize], [get_rate(t, r)] returns a value >= 0 for
    all finite [t >= 0] and [r >= 0] when the configuration passes
    [validate] and the angle of every sine evaluator in it stays within
    the range of a float; and constant, poisson and step return a value
    >= 0 when the configuration does not pass [validate], too. *)
Theorem rate_nonneg (fuel : nat) (cls : PluginClass) (config : Dict)
    (p : Plugin) (t r : Q) (g : RngState) :
  sin_in_range ->
  initialize fuel cls config = Some p ->
  clamping_leaf p = true
  \/ (validate p = true /\ sines_within t p = true) ->
  (0 <= t)%Q -> (0 <= r)%Q ->
  exists v g', get_rate p t r g = Some (v, g') /\ (0 <= v)%Q.
Proof.
  intros Hsin Hinit Hok Ht Hr.
  assert (Hclass : nonneg_class p = true \/ validate p = true).
  { destruct Hok as [Hleaf|[Hvalid _]]; [left|right; exact Hvalid].
    destruct p; try discriminate Hleaf; reflexivity. }
  exact (proj2 (initialized_rates_ok fuel cls config p Hinit)
           Hsin Hclass t r Ht Hr g).
Qed.

End NonNegative.

Section NonNegativeExamples.
Import Distributions Examples.

(** C3, as stated, fails on an unvalidated sine: initialized with
    [{"base_rps": -5}] it returns -5 at time 0 for the target rate 10
    (the sine of the angle 0 is 0, and nothing clamps the product). *)
Lemma rate_nonneg_counterexample :
  @initialize stub_runtime 0 SineClass negative_base_sine
  = Some (SineDistribution negative_base_sine false 3600 (1 # 2) 0
            (Some (inject_Z (-5))))
  /\ (exists v,
        @get_rate stub_runtime
          (SineDistribution negative_base_sine false 3600 (1 # 2) 0
             (Some (inject_Z (-5)))) 0 10 tt
        = Some (v, tt)
        /\ (v == -5)%Q /\ ~ (0 <= v)%Q).
Proof.
  split; [reflexivity|].
  eexists. split; [vm_compute; reflexivity|].
  split; [reflexivity|]. intros Hle. now apply Hle.
Qed.

Lemma stub_sin_in_range : @sin_in_range stub_runtime.
Proof. intros x. simpl. split; discriminate. Qed.

(** A sine with the default period, amplitude and phase, five seconds
    after the start. *)
Lemma rate_nonneg_witness :
  exists v g',
    @get_rate stub_runtime (stub_initialize 0 SineClass []) 5 7 tt
    = Some (v, g')
    /\ (0 <= v)%Q.
Proof.
  apply (@rate_nonneg stub_runtime 0 SineClass []
           (stub_initialize 0 SineClass []) 5 7 tt).
  - exact stub_sin_in_range.
  - reflexivity.
  - right. split; vm_compute; reflexivity.
  - discriminate.
  - discriminate.
Defined.

(** The periodicity scenario of the specification. *)
Example two_stages_rates :
  stub_rate (stub_initialize 1 SequenceClass two_stages) 5 7 = Some 10%Q
  /\ stub_rate (stub_initialize 1 SequenceClass two_stages) 15 7 = Some 30%Q
  /\ stub_rate (stub_initialize 1 SequenceClass two_stages) 25 7 = Some 10%Q
  /\ stub_rate (stub_initialize 1 SequenceClass two_stages) 35 7 = Some 30%Q.
Proof. repeat split. Qed.

End NonNegativeExamples.

(** ** Periodicity of a repeating sequence *)

Section Periodicity.
Import Distributions Examples.

(** With [post_behavior = repeat], shifting the time by the total
    duration does not change the evaluation (from the same state of the
    generator). *)
Lemma sequence_repeat_same_state `{Runtime} (p : Plugin) (t r : Q) :
  post_behavior_of p = "repeat" ->
  get_rate p (t + total_duration_of p) r = get_rate p t r.
Proof.
  destruct p; try discriminate. simpl. intros ->.
  unfold sequence_get_rate.
  destruct (_ || _); [reflexivity|].
  destruct (fle_spec _total_duration 0) as [|Hpos]; [reflexivity|].
  unfold _elapsed_for_behavior. simpl.
  rewrite py_fmod_period by lra. reflexivity.
Qed.

(** The remainder does not depend on the fraction that stands for its
    first argument. *)
Lemma py_fmod_Qeq (x x' y : Q) : (x == x')%Q -> py_fmod x y = py_fmod x' y.
Proof.
  intros Hx. unfold py_fmod. apply Qred_complete.
  assert (Hfloor : Qfloor (x / y) = Qfloor (x' / y)) by now rewrite Hx.
  rewrite Hfloor, Hx. reflexivity.
Qed.

(** A repeating sequence evaluated one period later, the sum being
    exact: the same computation. *)
Lemma sequence_repeat_exact_sum `{Runtime} (p : Plugin) (t s r : Q) :
  post_behavior_of p = "repeat" ->
  (s == t + total_duration_of p)%Q ->
  get_rate p s r = get_rate p t r.
Proof.
  intros Hrepeat Hs.
  rewrite <- (sequence_repeat_same_state p t r Hrepeat).
  destruct p; try discriminate. simpl in *. subst post_behavior.
  unfold sequence_get_rate.
  destruct (_ || _); [reflexivity|].
  destruct (fle _total_duration 0); [reflexivity|].
  unfold _elapsed_for_behavior. simpl.
  now rewrite (py_fmod_Qeq s (t + _total_duration) _total_duration Hs).
Qed.

(** C7 (amended): for every sequence distribution that was initialized
    and validates, with [post_behavior = repeat], deterministic child
    evaluators and total stage duration [T], and every [t >= 0] for
    which the sum [t + T] is exact (the float the caller computes for it
    is [t + T] itself), [get_rate(t + T, r)] and [get_rate(t, r)] return
    the same rate, whatever the states of the generator at the two
    calls, as long as the angle of every sine evaluator stays within the
    range of a float. *)
Theorem sequence_repeat_periodic `{Runtime} (fuel : nat) (config : Dict)
    (p : Plugin) (t s r : Q) (g g' : RngState) :
  initialize fuel SequenceClass config = Some p ->
  validate p = true ->
  post_behavior_of p = "repeat" ->
  deterministic p = true ->
  sines_within s p = true ->
  (0 <= t)%Q ->
  (s == t + total_duration_of p)%Q ->
  exists v,
    get_rate p s r g = Some (v, g)
    /\ get_rate p t r g' = Some (v, g').
Proof.
  intros Hinit _ Hrepeat Hdet _ _ Hs.
  destruct (deterministic_pure fuel _ config p Hinit Hdet t r) as [o Ho].
  destruct (proj1 (initialized_rates_ok fuel _ config p Hinit) t r g')
    as (v & g1 & Hv & _).
  rewrite Ho in Hv. destruct o as [v'|]; [|discriminate Hv].
  injection Hv as -> ->.
  exists v. rewrite (sequence_repeat_exact_sum p t s r Hrepeat Hs), !Ho.
  split; reflexivity.
Qed.

(** C7, as stated, fails on floats. The two-stage sequence of the
    specification (ten seconds at 10 requests per second, ten seconds at
    30, repeated; [T = 20]) validates and has deterministic children.
    At [t = 9.999999999999998], the float just below 10, the sum
    [t + T] lies halfway between two floats and Python rounds it to
    30.0: [get_rate(t + T, 7)] is 30, the rate of the second stage, and
    [get_rate(t, 7)] is 10, the rate of the first. *)
Lemma sequence_repeat_periodic_counterexample :
  validate (stub_initialize 1 SequenceClass two_stages) = true
  /\ post_behavior_of (stub_initialize 1 SequenceClass two_stages) = "repeat"
  /\ deterministic (stub_initialize 1 SequenceClass two_stages) = true
  /\ (exists T,
        float_value float_twenty = Some T
        /\ (T == total_duration_of
                   (stub_initialize 1 SequenceClass two_stages))%Q)
  /\ (exists t, float_value just_below_ten = Some t /\ (0 <= t)%Q)
  /\ rate_at_float (stub_initialize 1 SequenceClass two_stages)
       (float_add just_below_ten float_twenty) 7 = Some 30%Q
  /\ rate_at_float (stub_initialize 1 SequenceClass two_stages)
       just_below_ten 7 = Some 10%Q.
Proof.
  split; [reflexivity|]. split; [reflexivity|]. split; [reflexivity|].
  split; [eexists; split; [reflexivity|reflexivity]|].
  split; [eexists; split; [reflexivity|discriminate]|].
  split; vm_compute; reflexivity.
Qed.

(** The two-stage sequence of the specification (total 20 seconds), at
    [t = 5] and one period later: the sum 25 is exact. *)
Lemma sequence_repeat_periodic_witness :
  exists v,
    @get_rate stub_runtime (stub_initialize 1 SequenceClass two_stages)
      25 7 tt = Some (v, tt)
    /\ @get_rate stub_runtime (stub_initialize 1 SequenceClass two_stages)
         5 7 tt = Some (v, tt).
Proof.
  apply (@sequence_repeat_periodic stub_runtime 1 two_stages
           (stub_initialize 1 SequenceClass two_stages) 5 25 7 tt tt);
    try reflexivity.
  discriminate.
Defined.

End Periodicity.

(** ** Status transitions *)

Section Lifecycle.
Import Executor Examples.
Local Open Scope list_scope.

Lemma terminal_bool (s : string) :
  bool_decide (s ∈ TERMINAL_STATUSES)
  = String.eqb s "completed" || String.eqb s "failed"
    || String.eqb s "stopped".
Proof.
  destruct (String.eqb_spec s "completed") as [->|H1]; [reflexivity|].
  destruct (String.eqb_spec s "failed") as [->|H2]; [reflexivity|].
  destruct (String.eqb_spec s "stopped") as [->|H3]; [reflexivity|].
  apply bool_decide_false. rewrite terminal_cases. tauto.
Qed.

Lemma write_status_view (writer : Writer) (test_id s : string) (w : World)
    (st : RunState) :
  active_tests w !! test_id = Some st ->
  active_tests (write_status writer test_id s w) !! test_id
  = Some (set_status s st)
  /\ status_writes (write_status writer test_id s w)
     = status_writes w
       ++ [{| write_test_id := test_id; written_by := writer;
              old_status := status st; new_status := s |}].
Proof.
  intros Hst. unfold write_status. rewrite Hst. simpl.
  split; [apply lookup_insert_eq|reflexivity].
Qed.

Lemma with_state_writes (test_id : string) (f : RunState -> RunState)
    (w : World) :
  status_writes (with_state test_id f w) = status_writes w.
Proof. reflexivity. Qed.

Lemma broadcast_metrics_writes (test_id timestamp : string) (w : World) :
  status_writes (broadcast_metrics test_id timestamp w) = status_writes w.
Proof.
  unfold broadcast_metrics. now destruct (active_tests w !! test_id).
Qed.

Lemma _finalize_test_run_status (now : datetime) (st : RunState) :
  status (_finalize_test_run now st) = status st
  /\ process (_finalize_test_run now st) = process st.
Proof.
  unfold _finalize_test_run. simpl.
  destruct (start_time st) as [started|]; simpl.
  - destruct (flt 0 (now - started)); simpl;
      destruct (bool_decide _); simpl; auto.
  - destruct (bool_decide _); simpl; auto.
Qed.

Lemma execute_test_begin_view (test_id : string) (c : RunConfig)
    (now : datetime) (w : World) (st : RunState) :
  active_tests w !! test_id = Some st ->
  exists w' st',
    execute_test_begin test_id c now w = Some w'
    /\ active_tests w' !! test_id = Some st'
    /\ status st' = "running"
    /\ process st' = process st
    /\ status_writes w'
       = status_writes w
         ++ [{| write_test_id := test_id; written_by := execute_test_entry;
                old_status := status st; new_status := "running" |}].
Proof.
  intros Hst. unfold execute_test_begin. rewrite Hst.
  destruct (write_status_view execute_test_entry test_id "running" w st Hst)
    as [Hl Hw].
  eexists _, _. split; [reflexivity|].
  rewrite lookup_with_state, Hl, with_state_writes, Hw. simpl.
  repeat split.
Qed.

Lemma stop_test_finish_view (test_id : string) (now : datetime)
    (timestamp : string) (w : World) (st : RunState) :
  active_tests w !! test_id = Some st ->
  exists st',
    active_tests (stop_test_finish test_id now timestamp w) !! test_id
    = Some st'
    /\ status st' = "stopped"
    /\ process st' = process st
    /\ status_writes (stop_test_finish test_id now timestamp w)
       = status_writes w
         ++ [{| write_test_id := test_id; written_by := stop_test_call;
                old_status := status st; new_status := "stopped" |}].
Proof.
  intros Hst. unfold stop_test_finish.
  destruct (write_status_view stop_test_call test_id "stopped" w st Hst)
    as [Hl Hw].
  eexists. rewrite lookup_broadcast_metrics, lookup_with_state, Hl.
  rewrite broadcast_metrics_writes, with_state_writes, Hw. simpl.
  repeat split.
Qed.

Lemma execute_test_end_write (test_id s : string) (now : datetime)
    (timestamp : string) (w : World) (st : RunState) :
  active_tests w !! test_id = Some st ->
  exists st',
    active_tests
      (broadcast_metrics test_id timestamp
         (with_state test_id (_finalize_test_run now)
            (write_status execute_test_exit test_id s w))) !! test_id
    = Some st'
    /\ process st' = process st
    /\ status st' = s
    /\ status_writes
         (broadcast_metrics test_id timestamp
            (with_state test_id (_finalize_test_run now)
               (write_status execute_test_exit test_id s w)))
       = status_writes w
         ++ [{| write_test_id := test_id; written_by := execute_test_exit;
                old_status := status st; new_status := s |}].
Proof.
  intros Hst.
  destruct (write_status_view execute_test_exit test_id s w st Hst)
    as [Hl Hw].
  eexists.
  rewrite lookup_broadcast_metrics, lookup_with_state, Hl,
    broadcast_metrics_writes, with_state_writes, Hw. simpl.
  destruct (_finalize_test_run_status now (set_status s st)) as [Es Ep].
  rewrite Es, Ep. simpl. repeat split.
Qed.

Lemma execute_test_end_view (test_id : string) (o : RunOutcome)
    (now : datetime) (timestamp : string) (w : World) (st : RunState) :
  active_tests w !! test_id = Some st ->
  exists st',
    active_tests (execute_test_end test_id o now timestamp w) !! test_id
    = Some st'
    /\ process st' = process st
    /\ match o with
       | RunCancelled =>
           status st' = status st
           /\ status_writes (execute_test_end test_id o now timestamp w)
              = status_writes w
       | RunReturns =>
           status st'
           = (if _stop_requested st then "stopped" else "completed")
           /\ status_writes (execute_test_end test_id o now timestamp w)
              = status_writes w
                ++ [{| write_test_id := test_id;
                       written_by := execute_test_exit;
                       old_status := status st;
                       new_status := status st' |}]
       | RunRaises =>
           status st'
           = (if _stop_requested st then "stopped" else "failed")
           /\ status_writes (execute_test_end test_id o now timestamp w)
              = status_writes w
                ++ [{| write_test_id := test_id;
                       written_by := execute_test_exit;
                       old_status := status st;
                       new_status := status st' |}]
       end.
Proof.
  intros Hst. unfold execute_test_end. rewrite Hst.
  destruct o.
  - destruct (_stop_requested st);
      (edestruct (execute_test_end_write test_id) as (st' & Hl & Hp & Hs & Hw);
       [exact Hst|];
       exists st'; rewrite Hl, Hw, Hs; repeat split; exact Hp).
  - destruct (_stop_requested st);
      (edestruct (execute_test_end_write test_id) as (st' & Hl & Hp & Hs & Hw);
       [exact Hst|];
       exists st'; rewrite Hl, Hw, Hs; repeat split; exact Hp).
  - eexists.
    rewrite lookup_broadcast_metrics, lookup_with_state, Hst,
      broadcast_metrics_writes, with_state_writes. simpl.
    destruct (_finalize_test_run_status now st) as [Es Ep].
    rewrite Es, Ep. repeat split.
Qed.

Lemma appends_nothing (s s' : Sys) :
  status_writes (world s') = status_writes (world s) -> appends_edges s s'.
Proof.
  intros E. exists []. rewrite app_nil_r. repeat split; auto.
Qed.

Lemma appends_one (s s' : Sys) (test_id : string) (writer : Writer)
    (old new : string) :
  status_writes (world s')
  = status_writes (world s)
    ++ [{| write_test_id := test_id; written_by := writer;
           old_status := old; new_status := new |}] ->
  writer <> execute_test_entry ->
  lifecycle_edge old new = true ->
  appends_edges s s'.
Proof.
  intros E Hw Hedge. eexists. split; [exact E|].
  split; repeat constructor; assumption.
Qed.

(** One atomic segment keeps the invariant and does not take
    [execute_test] back to its start. Its writes follow the edges, except
    that the first segment of [execute_test] writes [running] over
    whatever status it finds. *)
Lemma lifecycle_step (test_id : string) (s s' : Sys) (e : Event) :
  lifecycle_inv test_id s ->
  step test_id s e = Some s' ->
  lifecycle_inv test_id s'
  /\ (exec_pc s <> NotStarted -> exec_pc s' <> NotStarted)
  /\ (appends_edges s s' \/ appends_entry test_id s s').
Proof.
  intros (st & Hst & HA & HB & HC & HD) Hstep.
  destruct e as [c now|p|m in_flight|o now timestamp|now timestamp
                |now timestamp]; simpl in Hstep.
  - (* execute_test begins *)
    destruct (exec_pc s) eqn:Hpc; try discriminate Hstep.
    destruct (HB eq_refl) as (Hsusp & Hproc & Hs).
    destruct (execute_test_begin_view test_id c now (world s) st Hst)
      as (w' & st' & Hbegin & Hl & Hrun & Hp & Hw).
    rewrite Hbegin in Hstep. injection Hstep as <-.
    split; [|split].
    + exists st'. cbn [world exec_pc suspended_stops].
      split; [exact Hl|]. rewrite Hrun.
      split; [auto 10|]. split; [discriminate|]. split; [auto|].
      intros Hne. congruence.
    + intros Hne. congruence.
    + right. split; [exact Hpc|]. exists st. split; [exact Hst|exact Hw].
  - (* the locust executor stores its subprocess *)
    destruct (exec_pc s) eqn:Hpc; try discriminate Hstep.
    injection Hstep as <-. split; [|split].
    + exists (set_process (Some p) st). cbn [world exec_pc suspended_stops].
      rewrite lookup_with_state, Hst.
      split; [reflexivity|]. split; [exact HA|].
      split; [discriminate|]. split; [intros _; now apply HC|exact HD].
    + discriminate.
    + left. now apply appends_nothing.
  - (* the executor updates metrics *)
    destruct (exec_pc s) eqn:Hpc; try discriminate Hstep.
    injection Hstep as <-. split; [|split].
    + exists (set_in_flight in_flight (set_metrics m st)).
      cbn [world exec_pc suspended_stops].
      rewrite lookup_with_state, Hst.
      split; [reflexivity|]. split; [exact HA|].
      split; [discriminate|]. split; [intros _; now apply HC|exact HD].
    + discriminate.
    + left. now apply appends_nothing.
  - (* execute_test ends *)
    destruct (exec_pc s) eqn:Hpc; try discriminate Hstep.
    injection Hstep as <-.
    destruct (execute_test_end_view test_id o now timestamp (world s) st Hst)
      as (st' & Hl & Hp & Ho).
    specialize (HC eq_refl).
    assert (Hnew : forall done,
              lifecycle_edge "running" done = true ->
              status st' = (if _stop_requested st then "stopped" else done) ->
              (status st' = done \/ status st' = "stopped")
              /\ lifecycle_edge (status st) (status st') = true
              /\ (suspended_stops s <> [] -> status st' = "stopped")).
    { intros done Hdone Hs'. unfold _stop_requested in Hs'.
      destruct HC as [Hs|[Hs|Hs]]; rewrite Hs in *; simpl in Hs';
        rewrite Hs'; (split; [auto|split; [auto|]]); intros Hne;
        try reflexivity.
      destruct (HD Hne); discriminate. }
    assert (Hinv : (status st' = "completed" \/ status st' = "failed"
                    \/ status st' = "stopped" \/ status st' = status st) ->
                   (suspended_stops s <> [] ->
                    status st' = "stopping" \/ status st' = "stopped") ->
                   lifecycle_inv test_id
                     {| world :=
                          execute_test_end test_id o now timestamp (world s);
                        exec_pc := Finished;
                        suspended_stops := suspended_stops s |}).
    { intros Hcases Hsusp. exists st'. cbn [world exec_pc suspended_stops].
      split; [exact Hl|]. split.
      - destruct Hcases as [E|[E|[E|E]]]; rewrite E; auto 10.
      - split; [discriminate|]. split; [discriminate|exact Hsusp]. }
    split; [|split; [discriminate|left]].
    + destruct o; destruct Ho as [Hs' Hw].
      * destruct (Hnew "completed" eq_refl Hs') as ([E|E] & _ & Hsusp);
          apply Hinv; auto.
      * destruct (Hnew "failed" eq_refl Hs') as ([E|E] & _ & Hsusp);
          apply Hinv; auto.
      * apply Hinv; [auto|]. rewrite Hs'. exact HD.
    + destruct o; destruct Ho as [Hs' Hw].
      * destruct (Hnew "completed" eq_refl Hs') as (_ & Hedge & _).
        eapply appends_one; [exact Hw|discriminate|exact Hedge].
      * destruct (Hnew "failed" eq_refl Hs') as (_ & Hedge & _).
        eapply appends_one; [exact Hw|discriminate|exact Hedge].
      * now apply appends_nothing.
  - (* stop_test is called *)
    unfold stop_test_begin in Hstep. rewrite Hst, terminal_bool in Hstep.
    destruct (String.eqb (status st) "completed"
              || String.eqb (status st) "failed"
              || String.eqb (status st) "stopped"
              || String.eqb (status st) "stopping") eqn:E.
    + injection Hstep as <-. split; [|split].
      * exists st. cbn [world exec_pc suspended_stops]. tauto.
      * auto.
      * left. now apply appends_nothing.
    + assert (Hs : status st = "pending" \/ status st = "running").
      { destruct HA as [Hs|[Hs|[Hs|[Hs|[Hs|Hs]]]]]; auto;
          rewrite Hs in E; discriminate E. }
      assert (Hnosusp : suspended_stops s = []).
      { destruct (suspended_stops s) eqn:Es; [reflexivity|].
        destruct HD as [Hd|Hd]; [discriminate|..];
          destruct Hs as [Hs|Hs]; rewrite Hs in Hd; discriminate Hd. }
      assert (Hedge1 : lifecycle_edge (status st) "stopping" = true)
        by (destruct Hs as [Hs|Hs]; rewrite Hs; reflexivity).
      destruct (write_status_view stop_test_call test_id "stopping"
                  (world s) st Hst) as [Hl1 Hw1].
      destruct (process st) as [p|] eqn:Hproc.
      * injection Hstep as <-. split; [|split].
        -- exists (set_status "stopping" st).
           cbn [world exec_pc suspended_stops].
           split; [exact Hl1|]. simpl.
           split; [auto 10|]. split; [|split; auto].
           intros Hpc. destruct (HB Hpc) as (_ & Hnone & _). congruence.
        -- auto.
        -- left. eapply appends_one; [exact Hw1|discriminate|exact Hedge1].
      * injection Hstep as <-.
        destruct (stop_test_finish_view test_id now timestamp _ _ Hl1)
          as (st' & Hl2 & Hs2 & Hp2 & Hw2).
        split; [|split].
        -- exists st'. cbn [world exec_pc suspended_stops].
           split; [exact Hl2|]. rewrite Hs2.
           split; [auto 10|]. split; [|split; auto].
           intros Hpc. rewrite Hp2. simpl. auto.
        -- auto.
        -- left. eexists. cbn [world]. split.
           { rewrite Hw2, Hw1, <- app_assoc. reflexivity. }
           split; repeat constructor; simpl; auto; discriminate.
  - (* a suspended stop_test resumes *)
    destruct (suspended_stops s) as [|p rest] eqn:Hsusp;
      [discriminate Hstep|].
    injection Hstep as <-. unfold stop_test_resume.
    assert (Hl0 : active_tests
                    (with_state test_id (set_process None)
                       (_terminate_process p (world s))) !! test_id
                  = Some (set_process None st)).
    { rewrite lookup_with_state. simpl. now rewrite Hst. }
    destruct (stop_test_finish_view test_id now timestamp _ _ Hl0)
      as (st' & Hl & Hs' & Hp & Hw).
    assert (Hold : status st = "stopping" \/ status st = "stopped")
      by (apply HD; discriminate).
    assert (Hstarted : exec_pc s <> NotStarted).
    { intros Hpc. destruct (HB Hpc) as (Hnil & _). congruence. }
    split; [|split].
    + exists st'. cbn [world exec_pc suspended_stops].
      split; [exact Hl|]. rewrite Hs'.
      split; [auto 10|]. split; [|split; auto].
      intros Hpc. contradiction.
    + auto.
    + left. eapply appends_one; [exact Hw|discriminate|]. simpl.
      destruct Hold as [Hs|Hs]; rewrite Hs; reflexivity.
Qed.

Lemma edge_write_lifecycle (wr : StatusWrite) :
  written_by wr <> execute_test_entry ->
  edge_write wr -> lifecycle_write wr.
Proof.
  unfold lifecycle_write. destruct (written_by wr); auto. congruence.
Qed.

Lemma lifecycle_run (test_id : string) (events : list Event) :
  forall s s',
    lifecycle_inv test_id s ->
    run test_id s events = Some s' ->
    exists new,
      status_writes (world s') = status_writes (world s) ++ new
      /\ Forall lifecycle_write new
      /\ (exec_pc s <> NotStarted -> Forall edge_write new).
Proof.
  induction events as [|e rest IH]; intros s s' Hinv Hrun; simpl in Hrun.
  - injection Hrun as <-. exists []. rewrite app_nil_r.
    repeat split; auto.
  - destruct (step test_id s e) as [s1|] eqn:Hstep; [|discriminate Hrun].
    destruct (lifecycle_step test_id s s1 e Hinv Hstep)
      as (Hinv1 & Hpc & Happ).
    destruct (IH s1 s' Hinv1 Hrun) as (new2 & Hw2 & Hl2 & He2).
    destruct Happ as [(new1 & Hw1 & He1 & Hn1)|(Hstart & st & Hst & Hw1)].
    + exists (new1 ++ new2). split; [|split].
      * now rewrite Hw2, Hw1, app_assoc.
      * apply Forall_app. split; [|exact Hl2].
        clear Hw1. induction He1 as [|wr l Hwr Hl IHl]; constructor.
        -- apply edge_write_lifecycle; [|exact Hwr].
           now inversion Hn1.
        -- apply IHl. now inversion Hn1.
      * intros Hne. apply Forall_app. split; [exact He1|]. auto.
    + eexists. split; [|split].
      * rewrite Hw2, Hw1, <- app_assoc. reflexivity.
      * apply Forall_app. split; [|exact Hl2].
        repeat constructor.
      * intros Hne. contradiction.
Qed.

Lemma created_inv (c : RunConfig) (test_id : string) :
  lifecycle_inv test_id (created c test_id).
Proof.
  eexists. split; [apply lookup_insert_eq|]. simpl.
  split; [auto|]. split; [auto|]. split; [discriminate|].
  intros Hne. contradiction.
Qed.

(** C4, as stated, fails: [stop_test] on a test that is still [pending]
    writes [stopping] and then [stopped]; [pending -> stopping] is not an
    edge of the specification's graph. *)
Lemma status_transitions_counterexample :
  transitions
    (run "t1" (created five_users "t1")
       [StopCalled 1 "2026-01-01T00:00:01Z"])
  = Some [("pending", "stopping"); ("stopping", "stopped")]
  /\ spec_edge "pending" "stopping" = false.
Proof. split; vm_compute; reflexivity. Qed.

(** C4 (amended): along every interleaving of [execute_test] and of any
    number of [stop_test] calls on a created test, every status write of
    [stop_test] and of the end of [execute_test] follows one of the edges
    [pending -> stopping], [running -> completed], [running -> failed],
    [running -> stopping], [stopping -> stopped], or rewrites [stopped]
    with [stopped]; the first assignment of [execute_test] writes
    [running]; and when [execute_test] starts before any [stop_test],
    that assignment is [pending -> running], so that every write follows
    one of these edges: none leaves [completed] or [failed], and
    [stopped] is only rewritten. *)
Theorem status_transitions (c : RunConfig) (test_id : string)
    (events : list Event) (s : Sys) :
  run test_id (created c test_id) events = Some s ->
  Forall lifecycle_write (status_writes (world s))
  /\ (forall c0 now rest,
        events = ExecuteBegins c0 now :: rest ->
        Forall edge_write (status_writes (world s))).
Proof.
  intros Hrun. split.
  - destruct (lifecycle_run test_id events _ _ (created_inv c test_id) Hrun)
      as (new & Hw & Hl & _).
    rewrite Hw. simpl. exact Hl.
  - intros c0 now rest ->. simpl in Hrun.
    destruct (execute_test_begin test_id c0 now
                (create_test c test_id empty_world)) as [w1|] eqn:Hbegin.
    + pose proof (lifecycle_step test_id (created c test_id)
                    {| world := w1; exec_pc := InRun; suspended_stops := [] |}
                    (ExecuteBegins c0 now) (created_inv c test_id)) as Hstep.
      simpl in Hstep. rewrite Hbegin in Hstep.
      destruct (Hstep eq_refl) as (Hinv1 & _ & Happ).
      destruct (lifecycle_run test_id rest _ _ Hinv1 Hrun)
        as (new2 & Hw2 & _ & He2).
      rewrite Hw2. apply Forall_app. split; [|apply He2; discriminate].
      destruct Happ as [(new1 & Hw1 & He1 & _)|(_ & st & Hst & Hw1)].
      * simpl in Hw1. simpl. rewrite Hw1. exact He1.
      * simpl in Hw1. simpl. rewrite Hw1.
        simpl in Hst. rewrite lookup_insert_eq in Hst.
        injection Hst as <-. repeat constructor.
    + unfold execute_test_begin in Hbegin. simpl in Hbegin.
      rewrite lookup_insert_eq in Hbegin. discriminate Hbegin.
Qed.

(** A run that is stopped while its executor runs. *)
Lemma status_transitions_witness :
  match run "t1" (created five_users "t1") stopped_run with
  | Some s => Forall lifecycle_write (status_writes (world s))
  | None => False
  end.
Proof.
  destruct (run "t1" (created five_users "t1") stopped_run) as [s|] eqn:E.
  - exact (proj1 (status_transitions five_users "t1" stopped_run s E)).
  - vm_compute in E. discriminate E.
Defined.

Example stopped_run_transitions :
  transitions (run "t1" (created five_users "t1") stopped_run)
  = Some [("pending", "running"); ("running", "stopping");
          ("stopping", "stopped"); ("stopped", "stopped")].
Proof. vm_compute. reflexivity. Qed.

End Lifecycle.

(** ** Per-request accounting *)

Section RequestAccounting.
Import Executor Examples.

Lemma clamp_view (st : RunState) :
  let st' := _clamp_active_users_for_internal_modes st in
  config st' = config st /\ status st' = status st
  /\ _in_flight_requests st' = _in_flight_requests st
  /\ request_count (metrics st') = request_count (metrics st)
  /\ success_count (metrics st') = success_count (metrics st)
  /\ failure_count (metrics st') = failure_count (metrics st)
  /\ active_users_estimate (metrics st')
     = Z.max 0 (if (_configured_users st <=? 0)%Z
                then active_users_estimate (metrics st)
                else Z.min (active_users_estimate (metrics st))
                       (_configured_users st)).
Proof.
  unfold _clamp_active_users_for_internal_modes.
  destruct (_configured_users st <=? 0)%Z; simpl; repeat split; reflexivity.
Qed.

(** The test [response.status_code == 200] on the way a call ends. *)
Lemma status_200_cases (o : Client.Outcome) :
  o = Client.Returns 200
  \/ forall (T : Type) (a b : T),
       match o with Client.Returns 200 => a | _ => b end = b.
Proof.
  destruct o as [code| |]; [|right; reflexivity..].
  destruct (Z.eq_dec code 200%Z) as [->|Hne]; [now left|right].
  intros T a b. destruct code as [|p|p]; try reflexivity.
  repeat (destruct p as [p|p|]; try reflexivity). congruence.
Qed.

(** What the first part of a request does to the fields the accounting
    reads. *)
Lemma _execute_prime_request_begin_view (st : RunState) :
  let st' := _execute_prime_request_begin st in
  config st' = config st /\ status st' = status st
  /\ _in_flight_requests st' = (_in_flight_requests st + 1)%Z
  /\ request_count (metrics st') = (request_count (metrics st) + 1)%Z
  /\ success_count (metrics st') = success_count (metrics st)
  /\ failure_count (metrics st') = failure_count (metrics st)
  /\ active_users_estimate (metrics st')
     = Z.max 0 (if (_configured_users st <=? 0)%Z
                then _in_flight_requests st'
                else Z.min (_in_flight_requests st') (_configured_users st)).
Proof.
  unfold _execute_prime_request_begin, _increment_active_users.
  set (s0 := set_metrics _ (set_in_flight _ st)).
  destruct (clamp_view s0) as (Hc & Hs & Hi & Hr & Hsu & Hf & He).
  cbn zeta in *. cbn [config status _in_flight_requests metrics
    request_count success_count failure_count active_users_estimate
    set_metrics set_counts].
  rewrite He, Hc, Hs, Hr, Hsu, Hf, Hi. repeat split; reflexivity.
Qed.

Lemma _decrement_active_users_view (s : RunState) :
  let s' := _decrement_active_users s in
  config s' = config s /\ status s' = status s
  /\ _in_flight_requests s' = Z.max 0 (_in_flight_requests s - 1)
  /\ request_count (metrics s') = request_count (metrics s)
  /\ success_count (metrics s') = success_count (metrics s)
  /\ failure_count (metrics s') = failure_count (metrics s)
  /\ active_users_estimate (metrics s')
     = Z.max 0 (if (_configured_users s <=? 0)%Z
                then _in_flight_requests s'
                else Z.min (_in_flight_requests s') (_configured_users s)).
Proof.
  unfold _decrement_active_users.
  set (s0 := set_metrics _ (set_in_flight _ s)).
  destruct (clamp_view s0) as (Hc & Hs & Hi & Hr & Hsu & Hf & He).
  cbn zeta in *. rewrite He, Hc, Hs, Hr, Hsu, Hf, Hi.
  repeat split; reflexivity.
Qed.

(** A request that was counted returns: the rolling average divides by
    a count that is not zero. *)
Lemma _execute_prime_request_end_returns (o : Client.Outcome) (latency : Q)
    (st : RunState) :
  request_count (metrics st) <> 0%Z ->
  exists st',
    _execute_prime_request_end (RequestDone o) latency st
    = RequestReturns st'.
Proof.
  intros Hcount. unfold _execute_prime_request_end.
  set (st1 := match o with
              | Client.Returns 200 => _
              | _ => _
              end).
  assert (H1 : request_count (metrics st1) = request_count (metrics st)).
  { subst st1. destruct (status_200_cases o) as [->|Hm]; [|rewrite !Hm];
      reflexivity. }
  destruct (_decrement_active_users_view st1) as (_ & _ & _ & Dr & _).
  cbn zeta in Dr. rewrite Dr, H1.
  destruct (Z.eqb_spec (request_count (metrics st)) 0); [contradiction|].
  eauto.
Qed.

Lemma _execute_prime_request_end_view (e : RequestEnd) (latency : Q)
    (st : RunState) :
  let st' := state_left (_execute_prime_request_end e latency st) in
  let done := match e with RequestDone _ => 1%Z | RequestCancelled => 0%Z end in
  let ok :=
    match e with RequestDone (Client.Returns 200) => 1%Z | _ => 0%Z end in
  config st' = config st /\ status st' = status st
  /\ _in_flight_requests st' = Z.max 0 (_in_flight_requests st - 1)
  /\ request_count (metrics st') = request_count (metrics st)
  /\ success_count (metrics st') = (success_count (metrics st) + ok)%Z
  /\ failure_count (metrics st')
     = (failure_count (metrics st) + (done - ok))%Z
  /\ active_users_estimate (metrics st')
     = Z.max 0 (if (_configured_users st <=? 0)%Z
                then _in_flight_requests st'
                else Z.min (_in_flight_requests st') (_configured_users st)).
Proof.
  pose proof _decrement_active_users_view as Hdec.
  destruct e as [o|]; cbn zeta.
  - unfold _execute_prime_request_end.
    set (st1 := match o with
                | Client.Returns 200 => _
                | _ => _
                end).
    assert (H1 : config st1 = config st /\ status st1 = status st
                 /\ _in_flight_requests st1 = _in_flight_requests st
                 /\ request_count (metrics st1) = request_count (metrics st)
                 /\ success_count (metrics st1)
                    = (success_count (metrics st)
                       + match o with Client.Returns 200 => 1 | _ => 0 end)%Z
                 /\ failure_count (metrics st1)
                    = (failure_count (metrics st)
                       + (1 - match o with Client.Returns 200 => 1 | _ => 0 end))%Z
                 /\ _configured_users st1 = _configured_users st).
    { subst st1. unfold _configured_users.
      destruct (status_200_cases o) as [->|Hm]; [|rewrite !Hm]; simpl;
        repeat split; lia. }
    destruct H1 as (Hc & Hs & Hi & Hr & Hsu & Hf & Hcu).
    destruct (Hdec st1) as (Dc & Ds & Di & Dr & Dsu & Df & De).
    cbn zeta in *.
    destruct (request_count (metrics (_decrement_active_users st1)) =? 0)%Z;
      simpl; rewrite ?De, ?Dc, ?Ds, ?Dr, ?Dsu, ?Df, ?Di, ?Hc, ?Hs, ?Hi, ?Hr,
        ?Hsu, ?Hf, ?Hcu; repeat split; reflexivity.
  - simpl. destruct (Hdec st) as (Dc & Ds & Di & Dr & Dsu & Df & De).
    cbn zeta in *. rewrite De, Dc, Ds, Dr, Dsu, Df, Di.
    repeat split; lia.
Qed.

Lemma run_requests_cons (e : RequestEvent) (rest : list RequestEvent)
    (st : RunState) :
  run_requests (e :: rest) st
  = run_requests rest
      (match e with
       | RequestBegins => _execute_prime_request_begin st
       | RequestEnds e latency =>
           state_left (_execute_prime_request_end e latency st)
       end).
Proof.
  destruct e as [|e latency]; simpl; [reflexivity|].
  now destruct (_execute_prime_request_end e latency st).
Qed.

Lemma count_events_cons (p : RequestEvent -> bool) (e : RequestEvent)
    (rest : list RequestEvent) :
  count_events p (e :: rest)
  = ((if p e then 1 else 0) + count_events p rest)%Z.
Proof.
  unfold count_events. simpl. destruct (p e); simpl; lia.
Qed.

(** X1: the counters of a run account for every request. Whatever the
    order in which the requests of a run begin and end, [request_count]
    grows by the number of requests begun, [success_count] by the number
    answered with status 200, [failure_count] by the number that ended
    otherwise, and [_in_flight_requests] is the number of requests begun
    and not yet ended or cancelled. *)
Theorem request_accounting (events : list RequestEvent) (st : RunState)
    (n : nat) :
  _in_flight_requests st = Z.of_nat n ->
  well_nested n events = true ->
  let st' := run_requests events st in
  request_count (metrics st')
  = (request_count (metrics st) + count_events is_begin events)%Z
  /\ success_count (metrics st')
     = (success_count (metrics st) + count_events is_success events)%Z
  /\ failure_count (metrics st')
     = (failure_count (metrics st)
        + (count_events is_done events - count_events is_success events))%Z
  /\ _in_flight_requests st'
     = (_in_flight_requests st + count_events is_begin events
        - count_events is_done events - count_events is_cancelled events)%Z.
Proof.
  revert st n. induction events as [|e rest IH]; intros st n Hn Hwell.
  - simpl. unfold count_events. simpl. repeat split; lia.
  - cbn zeta. rewrite run_requests_cons, !count_events_cons.
    destruct e as [|e latency].
    + destruct (_execute_prime_request_begin_view st)
        as (_ & _ & Hi & Hr & Hs & Hf & _). cbn zeta in *.
      destruct (IH (_execute_prime_request_begin st) (S n))
        as (Ir & Is & If & Ii); [lia|exact Hwell|].
      cbn zeta in *. rewrite Ir, Is, If, Ii, Hi, Hr, Hs, Hf. simpl.
      repeat split; lia.
    + destruct n as [|n]; [discriminate Hwell|]. simpl in Hwell.
      destruct (_execute_prime_request_end_view e latency st)
        as (_ & _ & Hi & Hr & Hs & Hf & _). cbn zeta in *.
      destruct (IH (state_left (_execute_prime_request_end e latency st)) n)
        as (Ir & Is & If & Ii); [lia|exact Hwell|].
      cbn zeta in *. rewrite Ir, Is, If, Ii, Hi, Hr, Hs, Hf.
      destruct e as [o|]; simpl.
      * destruct (status_200_cases o) as [->|Hm]; [|rewrite !Hm]; simpl;
          repeat split; lia.
      * repeat split; lia.
Qed.

(** Three overlapping requests on a fresh state: three requests sent,
    one success, one failure, none in flight. *)
Lemma request_accounting_witness :
  let st' := run_requests three_requests (state_with "running" None 0) in
  request_count (metrics st') = 3%Z
  /\ success_count (metrics st') = 1%Z
  /\ failure_count (metrics st') = 1%Z
  /\ _in_flight_requests st' = 0%Z.
Proof.
  apply (request_accounting three_requests (state_with "running" None 0) 0);
    reflexivity.
Defined.

(** X2: the estimate of active users the internal modes store. After
    any segment of any request the stored estimate is never negative,
    never above the number of requests in flight, never above the
    configured number of users when that number is positive, and equal
    to the number of requests in flight when that number does not exceed
    the configured users. *)
Theorem active_users_estimate_bounds (events : list RequestEvent)
    (st : RunState) :
  events <> [] ->
  let st' := run_requests events st in
  (0 <= active_users_estimate (metrics st'))%Z
  /\ (0 <= _in_flight_requests st' ->
      active_users_estimate (metrics st') <= _in_flight_requests st')%Z
  /\ (0 < _configured_users st ->
      active_users_estimate (metrics st') <= _configured_users st)%Z
  /\ (0 <= _in_flight_requests st' <= _configured_users st ->
      active_users_estimate (metrics st') = _in_flight_requests st')%Z.
Proof.
  assert (Hinv : forall events st,
            events <> [] ->
            let st' := run_requests events st in
            config st' = config st
            /\ active_users_estimate (metrics st')
               = Z.max 0 (if (_configured_users st <=? 0)%Z
                          then _in_flight_requests st'
                          else Z.min (_in_flight_requests st')
                                 (_configured_users st))).
  { clear. induction events as [|e rest IH]; intros st Hne; [congruence|].
    cbn zeta. rewrite run_requests_cons.
    set (st1 := match e with
                | RequestBegins => _
                | RequestEnds _ _ => _
                end).
    assert (H1 : config st1 = config st
                 /\ active_users_estimate (metrics st1)
                    = Z.max 0 (if (_configured_users st <=? 0)%Z
                               then _in_flight_requests st1
                               else Z.min (_in_flight_requests st1)
                                      (_configured_users st))).
    { subst st1. destruct e as [|e latency].
      - destruct (_execute_prime_request_begin_view st)
          as (Hc & _ & _ & _ & _ & _ & He). auto.
      - destruct (_execute_prime_request_end_view e latency st)
          as (Hc & _ & _ & _ & _ & _ & He). auto. }
    destruct rest as [|e' rest]; [exact H1|].
    destruct (IH st1) as [Hc He]; [discriminate|]. cbn zeta in *.
    destruct H1 as [Hc1 _].
    assert (Hcu : _configured_users st1 = _configured_users st)
      by (unfold _configured_users; now rewrite Hc1).
    rewrite Hcu in He. split; [congruence|exact He]. }
  intros Hne. destruct (Hinv events st Hne) as [_ He]. cbn zeta in *.
  rewrite He. destruct (Z.leb_spec (_configured_users st) 0);
    repeat split; lia.
Qed.

(** With five configured users, the estimate stays between 0 and 5
    over three overlapping requests. *)
Lemma active_users_estimate_bounds_witness :
  let st' := run_requests three_requests (state_with "running" None 0) in
  (0 <= active_users_estimate (metrics st'))%Z
  /\ (active_users_estimate (metrics st') <= 5)%Z.
Proof.
  destruct (active_users_estimate_bounds three_requests
              (state_with "running" None 0)) as (H0 & _ & H5 & _).
  - discriminate.
  - split; [exact H0|]. apply H5. reflexivity.
Defined.

End RequestAccounting.

(** ** Paced mode *)

Section PacedMode.
Import Executor Examples.

(** One request of the paced loop on a running test whose count is not
    negative. *)
Lemma paced_request (o : Client.Outcome) (latency : Q) (st : RunState) :
  (0 <= request_count (metrics st))%Z ->
  exists st',
    _execute_prime_request_end (RequestDone o) latency
      (_execute_prime_request_begin st)
    = RequestReturns st'
    /\ status st' = status st
    /\ request_count (metrics st') = (request_count (metrics st) + 1)%Z
    /\ (success_count (metrics st') + failure_count (metrics st')
        = success_count (metrics st) + failure_count (metrics st) + 1)%Z.
Proof.
  intros Hcount.
  destruct (_execute_prime_request_begin_view st)
    as (_ & Bs & _ & Br & Bsu & Bf & _). cbn zeta in *.
  destruct (_execute_prime_request_end_returns o latency
              (_execute_prime_request_begin st)) as [st' Hst']; [lia|].
  destruct (_execute_prime_request_end_view (RequestDone o) latency
              (_execute_prime_request_begin st))
    as (_ & Es & _ & Er & Esu & Ef & _). cbn zeta in *.
  rewrite Hst' in *. simpl in *.
  exists st'. split; [reflexivity|]. split; [congruence|].
  split; [congruence|]. rewrite Esu, Ef, Bsu, Bf. lia.
Qed.

Lemma lookup_broadcast_now (env : RequestEnv) (test_id k : string)
    (w : World) :
  active_tests (broadcast_now env test_id w) !! k = active_tests w !! k.
Proof. apply lookup_broadcast_metrics. Qed.

(** The paced loop on a running test. *)
Lemma duration_loop_running (env : RequestEnv) (test_id : string)
    (interval : Q) (broadcast_every : Z) (remaining : nat) :
  forall (i : nat) (w : World) (st : RunState),
    active_tests w !! test_id = Some st ->
    status st = "running" ->
    (0 <= request_count (metrics st))%Z ->
    let run :=
      duration_loop env test_id interval broadcast_every remaining i w in
    paced_raised run = false
    /\ paced_sleeps run = repeat interval remaining
    /\ exists st',
         active_tests (paced_world run) !! test_id = Some st'
         /\ status st' = "running"
         /\ request_count (metrics st')
            = (request_count (metrics st) + Z.of_nat remaining)%Z
         /\ (success_count (metrics st') + failure_count (metrics st')
             = success_count (metrics st) + failure_count (metrics st)
               + Z.of_nat remaining)%Z.
Proof.
  induction remaining as [|remaining IH]; intros i w st Hst Hrun Hcount.
  - simpl. repeat split. exists st. repeat split; auto; lia.
  - cbn zeta. cbn [duration_loop]. rewrite Hst, Hrun. simpl negb.
    cbn iota.
    destruct (paced_request
                (Client.outcome
                   (Client.make_api_call (max_retries env) (transport env i)))
                (latency_ms env i) st Hcount)
      as (st1 & Hend & Hs1 & Hr1 & Hsf1).
    rewrite Hend.
    set (w1 := with_state test_id (fun _ => st1) w).
    set (w2 := if (request_count (metrics st1) mod broadcast_every =? 0)%Z
               then broadcast_now env test_id w1 else w1).
    assert (Hw2 : active_tests w2 !! test_id = Some st1).
    { subst w2. destruct (_ =? 0)%Z; rewrite ?lookup_broadcast_now;
        subst w1; rewrite lookup_with_state, Hst; reflexivity. }
    destruct (IH (S i) w2 st1 Hw2) as (Hraised & Hsleeps & st' & H');
      [congruence|lia|].
    cbn zeta in *. cbn [paced_world paced_sleeps paced_raised].
    split; [exact Hraised|]. split; [simpl; now rewrite Hsleeps|].
    exists st'. destruct H' as (Hl & Hs & Hr & Hsf).
    repeat split; auto; lia.
Qed.

(** X3: paced mode issues exactly [num_requests] requests. On a running
    test, and without another task in between, [execute_duration_test]
    sends [num_requests] requests, each counted once as a success or a
    failure, sleeps [1 / spawn_rate] seconds after each of them, leaves
    the status as it is, and ends with a broadcast of the final
    counters. *)
Theorem paced_mode_sends_all (env : RequestEnv) (test_id : string)
    (c : RunConfig) (w : World) (st : RunState) (n : Z) :
  active_tests w !! test_id = Some st ->
  status st = "running" ->
  (0 <= request_count (metrics st))%Z ->
  num_requests c = Some n ->
  (0 < n)%Z ->
  (0 < spawn_rate c)%Q ->
  let run := run_duration_test env test_id c w in
  paced_raised run = false
  /\ paced_sleeps run = repeat (1 / spawn_rate c)%Q (Z.to_nat n)
  /\ exists st' timestamp,
       active_tests (paced_world run) !! test_id = Some st'
       /\ status st' = "running"
       /\ request_count (metrics st') = (request_count (metrics st) + n)%Z
       /\ (success_count (metrics st') + failure_count (metrics st')
           = success_count (metrics st) + failure_count (metrics st) + n)%Z
       /\ last (broadcasts (paced_world run))
          = Some (test_id, format_metrics test_id st' timestamp).
Proof.
  intros Hst Hrun Hcount Hn Hpos Hrate. cbn zeta.
  unfold run_duration_test. rewrite Hst, Hn.
  assert (Htruthy : truthy_opt_int (Some n) = true).
  { simpl. destruct (Z.eqb_spec n 0); [lia|reflexivity]. }
  rewrite Htruthy.
  destruct (flt_spec 0 (spawn_rate c)) as [_|Hno]; [|contradiction].
  set (every := if fle 1 (spawn_rate c) then _ else _).
  destruct (duration_loop_running env test_id (1 / spawn_rate c)%Q every
              (Z.to_nat n) 0 w st Hst Hrun Hcount)
    as (Hraised & Hsleeps & st' & Hl & Hs & Hr & Hsf).
  cbn zeta in *. rewrite Hraised. cbn [paced_world paced_sleeps paced_raised].
  split; [reflexivity|]. split; [exact Hsleeps|].
  exists st'. eexists. rewrite lookup_broadcast_now.
  split; [exact Hl|]. split; [exact Hs|]. split; [lia|]. split; [lia|].
  unfold broadcast_now, broadcast_metrics. rewrite Hl. simpl.
  rewrite last_snoc. reflexivity.
Qed.

(** Three requests at ten per second against a healthy server: three
    pauses of a tenth of a second, and three successes. *)
Lemma paced_mode_sends_all_witness :
  let run :=
    run_duration_test healthy_server "t1" five_users
      (world_with (state_with "running" None 0)) in
  paced_raised run = false
  /\ paced_sleeps run = repeat (1 / 10)%Q 3.
Proof.
  destruct (paced_mode_sends_all healthy_server "t1" five_users
              (world_with (state_with "running" None 0))
              (state_with "running" None 0) 3) as (Hraised & Hsleeps & _).
  - apply lookup_singleton_eq.
  - reflexivity.
  - simpl. lia.
  - reflexivity.
  - lia.
  - reflexivity.
  - split; [exact Hraised|exact Hsleeps].
Defined.

End PacedMode.

(** ** The scheduling loop of the shape mode *)

Section Scheduling.
Import Executor Examples.

Lemma Qfloor_pred (x : Q) : Qfloor (x - 1) = (Qfloor x - 1)%Z.
Proof.
  pose proof (Qfloor_le x) as Hle. pose proof (Qlt_floor x) as Hlt.
  rewrite inject_Z_plus in Hlt. change (inject_Z 1) with 1%Q in Hlt.
  apply Qfloor_unique.
  - unfold Z.sub. rewrite inject_Z_plus, inject_Z_opp.
    change (inject_Z 1) with 1%Q. lra.
  - replace (Qfloor x - 1 + 1)%Z with (Qfloor x) by lia. lra.
Qed.

Lemma Qfloor_nonneg (x : Q) : (0 <= x)%Q -> (0 <= Qfloor x)%Z.
Proof.
  intros Hx. change 0%Z with (Qfloor 0). now apply Qfloor_resp_le.
Qed.

Lemma Qfloor_ge_1 (x : Q) : (1 <= x)%Q -> (1 <= Qfloor x)%Z.
Proof.
  intros Hx. change 1%Z with (Qfloor 1). now apply Qfloor_resp_le.
Qed.

Lemma Qfloor_lt_1 (x : Q) : (x < 1)%Q -> (Qfloor x < 1)%Z.
Proof.
  intros Hx. pose proof (Qfloor_le x) as Hle.
  destruct (Z_lt_le_dec (Qfloor x) 1) as [Hlt|Hge]; [exact Hlt|].
  exfalso. apply (Qlt_irrefl x). eapply Qlt_le_trans; [exact Hx|].
  eapply Qle_trans; [|exact Hle].
  change 1%Q with (inject_Z 1). now rewrite <- Zle_Qle.
Qed.

(** The loop, with enough iterations allowed. *)
Lemma schedule_loop_spec (fuel : nat) :
  forall (tokens : Q) (locked : bool) (st : RunState) (pending : nat)
         (max_requests : option Z),
    (0 <= tokens)%Q ->
    (Z.to_nat (Qfloor tokens) < fuel)%nat ->
    exists tokens' pending',
      _schedule_distribution_tasks fuel tokens locked st pending max_requests
      = Some (tokens', pending')
      /\ (pending <= pending')%nat
      /\ (Z.of_nat pending' - Z.of_nat pending <= Qfloor tokens)%Z
      /\ (0 <= tokens' <= tokens)%Q
      /\ (locked = true -> tokens' = tokens /\ pending' = pending)
      /\ (locked = false -> (tokens' < 1)%Q)
      /\ (forall m,
            max_requests = Some m ->
            (request_count (metrics st) + Z.of_nat pending <= m)%Z ->
            (request_count (metrics st) + Z.of_nat pending' <= m)%Z)
      /\ (max_requests = None -> locked = false ->
          (Z.of_nat pending' - Z.of_nat pending = Qfloor tokens)%Z).
Proof.
  induction fuel as [|fuel IH];
    intros tokens locked st pending max_requests Htok Hfuel; [lia|].
  cbn [_schedule_distribution_tasks].
  destruct (fle_spec 1 tokens) as [Hge|Hlt].
  - destruct locked; simpl.
    + exists tokens, pending. pose proof (Qfloor_nonneg tokens Htok).
      repeat split; try lra; try lia; try discriminate; auto.
    + destruct (_request_cap_reached st pending max_requests) eqn:Hcap.
      * exists 0%Q, pending. pose proof (Qfloor_nonneg tokens Htok).
        repeat split; try lra; try lia; try discriminate; auto.
        intros ->. discriminate Hcap.
      * pose proof (Qfloor_ge_1 tokens Hge) as H1.
        destruct (IH (tokens - 1)%Q false st (S pending) max_requests)
          as (tokens' & pending' & Hrun & Hle & Hcreated & Htok' & _
              & Hlt1 & Hcapped & Hall).
        { lra. }
        { rewrite Qfloor_pred. lia. }
        rewrite Qfloor_pred in Hcreated, Hall.
        exists tokens', pending'. split; [exact Hrun|].
        split; [lia|]. split; [lia|]. split; [lra|].
        split; [discriminate|]. split; [auto|]. split.
        -- intros m Hm Hroom. apply (Hcapped m Hm).
           unfold _request_cap_reached in Hcap. rewrite Hm in Hcap.
           apply Z.leb_gt in Hcap. lia.
        -- intros Hnone _. specialize (Hall Hnone eq_refl). lia.
  - simpl. exists tokens, pending.
    pose proof (Qfloor_nonneg tokens Htok).
    assert (Hfl : (Qfloor tokens < 1)%Z) by (apply Qfloor_lt_1; lra).
    repeat split; try lra; try lia; auto.
Qed.

(** X4: the scheduling loop never goes beyond the request cap. Called
    with tokens that are not negative, [_schedule_distribution_tasks]
    returns; it creates at most [floor(tokens)] tasks; it creates none
    while the semaphore is locked; otherwise it leaves less than one
    token; and the requests already counted plus the pending tasks stay
    within [max_requests] when they were within it before. *)
Theorem schedule_within_cap (fuel : nat) (tokens : Q) (locked : bool)
    (st : RunState) (pending : nat) (max_requests : option Z) :
  (0 <= tokens)%Q ->
  (Z.to_nat (Qfloor tokens) < fuel)%nat ->
  exists tokens' pending',
    _schedule_distribution_tasks fuel tokens locked st pending max_requests
    = Some (tokens', pending')
    /\ (pending <= pending')%nat
    /\ (Z.of_nat pending' - Z.of_nat pending <= Qfloor tokens)%Z
    /\ (0 <= tokens' <= tokens)%Q
    /\ (locked = true -> tokens' = tokens /\ pending' = pending)
    /\ (locked = false -> (tokens' < 1)%Q)
    /\ (forall m,
          max_requests = Some m ->
          (request_count (metrics st) + Z.of_nat pending <= m)%Z ->
          (request_count (metrics st) + Z.of_nat pending' <= m)%Z).
Proof.
  intros Htok Hfuel.
  destruct (schedule_loop_spec fuel tokens locked st pending max_requests
              Htok Hfuel)
    as (tokens' & pending' & H1 & H2 & H3 & H4 & H5 & H6 & H7 & _).
  exists tokens', pending'. auto 10.
Qed.

(** Five tokens and a half, two requests counted, one task pending and
    a cap of five requests: the tasks created stay within the cap. *)
Lemma schedule_within_cap_witness :
  exists tokens' pending',
    _schedule_distribution_tasks 6 (11 # 2) false
      (set_metrics (set_counts 2 2 0 default_metrics)
         (state_with "running" None 0))
      1 (Some 5%Z)
    = Some (tokens', pending')
    /\ (2 + Z.of_nat pending' <= 5)%Z.
Proof.
  destruct (schedule_within_cap 6 (11 # 2) false
              (set_metrics (set_counts 2 2 0 default_metrics)
                 (state_with "running" None 0))
              1 (Some 5%Z))
    as (tokens' & pending' & Hrun & _ & _ & _ & _ & _ & Hcap).
  - discriminate.
  - vm_compute. lia.
  - exists tokens', pending'. split; [exact Hrun|].
    apply (Hcap 5%Z); [reflexivity|simpl; lia].
Defined.

(** X5: the burst of one tick. After the bucket was refilled for a
    positive rate and a positive tick, the scheduling loop creates at
    most [max(1, 2 * current_rps)] tasks, however long the tick was;
    without a cap and with a free semaphore it creates exactly
    [floor(tokens)] of them. *)
Theorem tick_burst_bound (fuel : nat) (token_count current_rps tick_delta : Q)
    (locked : bool) (st : RunState) (pending : nat)
    (max_requests : option Z) :
  (0 <= token_count)%Q ->
  (0 < current_rps)%Q ->
  (0 < tick_delta)%Q ->
  let tokens := _update_tokens token_count current_rps tick_delta in
  (Z.to_nat (Qfloor tokens) < fuel)%nat ->
  exists tokens' pending',
    _schedule_distribution_tasks fuel tokens locked st pending max_requests
    = Some (tokens', pending')
    /\ (inject_Z (Z.of_nat pending' - Z.of_nat pending)
        <= py_max 1 (current_rps * 2))%Q
    /\ (max_requests = None -> locked = false ->
        (Z.of_nat pending' - Z.of_nat pending)%Z = Qfloor tokens).
Proof.
  intros Htk Hrps Hdelta tokens Hfuel.
  assert (Htokens : (0 <= tokens <= py_max 1 (current_rps * 2))%Q).
  { subst tokens. unfold _update_tokens.
    destruct (fle_spec current_rps 0) as [Hle|_]; [lra|].
    destruct (fle_spec tick_delta 0) as [Hle|_]; [lra|]. simpl.
    unfold py_min, py_max. split.
    - apply Q.min_glb.
      + eapply Qle_trans; [|apply Q.le_max_l]. lra.
      + assert (0 <= current_rps * tick_delta)%Q by nra. lra.
    - apply Q.le_min_l. }
  destruct (schedule_loop_spec fuel tokens locked st pending max_requests)
    as (tokens' & pending' & H1 & _ & H3 & _ & _ & _ & _ & H8);
    [tauto|exact Hfuel|].
  exists tokens', pending'. split; [exact H1|]. split; [|exact H8].
  eapply Qle_trans; [|apply Htokens].
  eapply Qle_trans; [|apply Qfloor_le].
  now rewrite <- Zle_Qle.
Qed.

(** An empty bucket, 100 requests per second and a tick of ten seconds:
    the bucket holds 200 tokens and 200 tasks are created. *)
Lemma tick_burst_bound_witness :
  exists tokens' pending',
    _schedule_distribution_tasks 201 (_update_tokens 0 100 10) false
      (state_with "running" None 0) 0 None
    = Some (tokens', pending')
    /\ (inject_Z (Z.of_nat pending' - Z.of_nat 0) <= py_max 1 (100 * 2))%Q.
Proof.
  destruct (tick_burst_bound 201 0 100 10 false
              (state_with "running" None 0) 0 None)
    as (tokens' & pending' & Hrun & Hbound & _).
  - discriminate.
  - reflexivity.
  - reflexivity.
  - vm_compute. lia.
  - exists tokens', pending'. split; [exact Hrun|exact Hbound].
Defined.

End Scheduling.

(** ** The state a run is left in *)

Section FinalState.
Import Executor Examples.

Lemma _finalize_test_run_terminal (now : datetime) (st : RunState) :
  status st ∈ TERMINAL_STATUSES ->
  let st' := _finalize_test_run now st in
  status st' = status st
  /\ _in_flight_requests st' = 0%Z
  /\ active_users_estimate (metrics st') = 0%Z
  /\ end_time st' = Some now
  /\ request_count (metrics st') = request_count (metrics st)
  /\ success_count (metrics st') = success_count (metrics st)
  /\ failure_count (metrics st') = failure_count (metrics st)
  /\ (forall started,
        start_time st = Some started -> (started < now)%Q ->
        rps (metrics st')
        = (inject_Z (request_count (metrics st)) / (now - started))%Q).
Proof.
  intros Hterm. unfold _finalize_test_run. simpl.
  destruct (start_time st) as [started|]; simpl.
  - destruct (flt_spec 0 (now - started)) as [Hpos|Hneg]; simpl;
      rewrite (bool_decide_true _ Hterm); simpl; repeat split;
      intros started' [= <-] Hlt; [reflexivity|lra].
  - rewrite (bool_decide_true _ Hterm). simpl. repeat split.
    intros started' [=].
Qed.

(** X6: [execute_test] leaves a settled state. When the executor
    returns or raises, the test is left in a terminal status ([stopped]
    exactly when a stop was requested), with no request in flight, no
    active user, its end time set and its counters untouched; the rate
    stored is the number of requests divided by the duration of the run;
    and that state is what the last broadcast reports. *)
Theorem execute_test_end_settles (test_id : string) (o : RunOutcome)
    (now : datetime) (timestamp : string) (w : World) (st : RunState) :
  active_tests w !! test_id = Some st ->
  o <> RunCancelled ->
  exists st',
    active_tests (execute_test_end test_id o now timestamp w) !! test_id
    = Some st'
    /\ status st' ∈ TERMINAL_STATUSES
    /\ (status st' = "stopped" <-> _stop_requested st = true)
    /\ _in_flight_requests st' = 0%Z
    /\ active_users_estimate (metrics st') = 0%Z
    /\ end_time st' = Some now
    /\ request_count (metrics st') = request_count (metrics st)
    /\ success_count (metrics st') = success_count (metrics st)
    /\ failure_count (metrics st') = failure_count (metrics st)
    /\ (forall started,
          start_time st = Some started -> (started < now)%Q ->
          rps (metrics st')
          = (inject_Z (request_count (metrics st)) / (now - started))%Q)
    /\ broadcasts (execute_test_end test_id o now timestamp w)
       = (broadcasts w ++ [(test_id, format_metrics test_id st' timestamp)])%list.
Proof.
  intros Hst Ho.
  assert (Hwrite : forall s,
            s ∈ TERMINAL_STATUSES ->
            let w' :=
              broadcast_metrics test_id timestamp
                (with_state test_id (_finalize_test_run now)
                   (write_status execute_test_exit test_id s w)) in
            exists st',
              active_tests w' !! test_id = Some st'
              /\ status st' = s
              /\ _in_flight_requests st' = 0%Z
              /\ active_users_estimate (metrics st') = 0%Z
              /\ end_time st' = Some now
              /\ request_count (metrics st') = request_count (metrics st)
              /\ success_count (metrics st') = success_count (metrics st)
              /\ failure_count (metrics st') = failure_count (metrics st)
              /\ (forall started,
                    start_time st = Some started -> (started < now)%Q ->
                    rps (metrics st')
                    = (inject_Z (request_count (metrics st))
                       / (now - started))%Q)
              /\ broadcasts w'
                 = (broadcasts w
                    ++ [(test_id, format_metrics test_id st' timestamp)])%list).
  { intros s Hs. cbn zeta.
    pose proof (lookup_write_status execute_test_exit test_id s w st Hst)
      as Hl.
    destruct (_finalize_test_run_terminal now (set_status s st) Hs)
      as (Fs & Fi & Fe & Ft & Fr & Fsu & Ff & Frps). cbn zeta in *.
    exists (_finalize_test_run now (set_status s st)).
    rewrite lookup_broadcast_metrics, lookup_with_state, Hl.
    split; [reflexivity|]. split; [exact Fs|].
    split; [exact Fi|]. split; [exact Fe|]. split; [exact Ft|].
    split; [exact Fr|]. split; [exact Fsu|]. split; [exact Ff|].
    split; [exact Frps|].
    unfold broadcast_metrics. rewrite lookup_with_state, Hl. simpl.
    unfold write_status. rewrite Hst. reflexivity. }
  assert (Hstopped : "stopped" ∈ TERMINAL_STATUSES)
    by (apply terminal_cases; auto).
  assert (Hcompleted : "completed" ∈ TERMINAL_STATUSES)
    by (apply terminal_cases; auto).
  assert (Hfailed : "failed" ∈ TERMINAL_STATUSES)
    by (apply terminal_cases; auto).
  unfold execute_test_end. rewrite Hst.
  destruct o; [| |congruence];
    destruct (_stop_requested st) eqn:Hreq;
    match goal with
    | |- context [write_status _ _ ?s _] =>
        destruct (Hwrite s) as (st' & Hl & Hs & Hrest);
          [assumption|]; cbn zeta in *;
          exists st'; split; [exact Hl|]; rewrite Hs;
          split; [assumption|]; split; [|exact Hrest];
          split; try reflexivity; try discriminate; auto
    end.
Qed.

(** The executor of a running test returns two seconds after the start:
    the test is completed. *)
Lemma execute_test_end_settles_witness :
  exists st',
    active_tests
      (execute_test_end "t1" RunReturns 2 "2026-01-01T00:00:02Z"
         (world_with (state_with "running" None 3))) !! "t1"
    = Some st'
    /\ status st' ∈ TERMINAL_STATUSES
    /\ _in_flight_requests st' = 0%Z.
Proof.
  destruct (execute_test_end_settles "t1" RunReturns 2 "2026-01-01T00:00:02Z"
              (world_with (state_with "running" None 3))
              (state_with "running" None 3))
    as (st' & Hl & Hterm & _ & Hflight & _).
  - apply lookup_singleton_eq.
  - discriminate.
  - exists st'. auto.
Defined.

Lemma write_status_effects (writer : Writer) (test_id s : string)
    (w : World) :
  terminated (write_status writer test_id s w) = terminated w
  /\ broadcasts (write_status writer test_id s w) = broadcasts w.
Proof.
  unfold write_status. now destruct (active_tests w !! test_id).
Qed.

(** X7: what [stop_test] does to a test that is neither stopping nor
    terminal. It answers [True]; the test is left [stopped], without a
    subprocess, with no request in flight, no active user, its end time
    set and its counters untouched; the subprocess it had, if any, was
    terminated once; and one broadcast was added, which reports the
    stopped state. *)
Theorem stop_test_active (test_id : string) (now : datetime)
    (timestamp : string) (w : World) (st : RunState) :
  active_tests w !! test_id = Some st ->
  status st ∉ TERMINAL_STATUSES ->
  status st <> "stopping" ->
  let w' := snd (stop_test test_id now timestamp w) in
  fst (stop_test test_id now timestamp w) = true
  /\ exists st',
       active_tests w' !! test_id = Some st'
       /\ status st' = "stopped"
       /\ process st' = None
       /\ _in_flight_requests st' = 0%Z
       /\ active_users_estimate (metrics st') = 0%Z
       /\ end_time st' = Some now
       /\ request_count (metrics st') = request_count (metrics st)
       /\ success_count (metrics st') = success_count (metrics st)
       /\ failure_count (metrics st') = failure_count (metrics st)
       /\ terminated w' = (terminated w ++ process_list st)%list
       /\ broadcasts w'
          = (broadcasts w
             ++ [(test_id, format_metrics test_id st' timestamp)])%list.
Proof.
  intros Hst Hterm Hstopping. cbn zeta.
  unfold stop_test, stop_test_begin. rewrite Hst.
  rewrite (bool_decide_false _ Hterm).
  destruct (String.eqb_spec (status st) "stopping") as [|_];
    [contradiction|]. simpl orb. cbn iota.
  pose proof (lookup_write_status stop_test_call test_id "stopping" w st Hst)
    as Hl1.
  unfold process_list.
  destruct (process st) as [p|] eqn:Hp; simpl fst; simpl snd.
  - split; [reflexivity|].
    unfold stop_test_resume, stop_test_finish.
    set (w1 := with_state test_id (set_process None)
                 (_terminate_process p
                    (write_status stop_test_call test_id "stopping" w))).
    assert (Hw1 : active_tests w1 !! test_id
                  = Some (set_process None (set_status "stopping" st))).
    { subst w1. rewrite lookup_with_state. simpl. now rewrite Hl1. }
    pose proof (lookup_write_status stop_test_call test_id "stopped" w1 _ Hw1)
      as Hl2.
    eexists. rewrite lookup_broadcast_metrics, lookup_with_state, Hl2.
    split; [reflexivity|]. simpl.
    repeat (split; [reflexivity|]).
    unfold broadcast_metrics. rewrite lookup_with_state, Hl2. simpl.
    destruct (write_status_effects stop_test_call test_id "stopped" w1)
      as [-> ->].
    subst w1. simpl.
    destruct (write_status_effects stop_test_call test_id "stopping" w)
      as [-> ->].
    split; reflexivity.
  - split; [reflexivity|].
    unfold stop_test_finish.
    set (w1 := write_status stop_test_call test_id "stopping" w).
    pose proof (lookup_write_status stop_test_call test_id "stopped" w1 _ Hl1)
      as Hl2.
    eexists. rewrite lookup_broadcast_metrics, lookup_with_state, Hl2.
    split; [reflexivity|]. simpl. rewrite Hp.
    repeat (split; [reflexivity|]).
    unfold broadcast_metrics. rewrite lookup_with_state, Hl2. simpl.
    destruct (write_status_effects stop_test_call test_id "stopped" w1)
      as [-> ->].
    subst w1.
    destruct (write_status_effects stop_test_call test_id "stopping" w)
      as [-> ->].
    rewrite app_nil_r. split; reflexivity.
Qed.

(** A running locust test with subprocess 7 is stopped: the subprocess
    is terminated and the test has none afterwards. *)
Lemma stop_test_active_witness :
  fst (stop_test "t1" 5 "2026-01-01T00:00:05Z"
         (world_with (state_with "running" (Some 7%nat) 0)))
  = true.
Proof.
  apply (stop_test_active "t1" 5 "2026-01-01T00:00:05Z"
           (world_with (state_with "running" (Some 7%nat) 0))
           (state_with "running" (Some 7%nat) 0)).
  - apply lookup_singleton_eq.
  - rewrite terminal_cases. simpl. intros [H|[H|H]]; discriminate H.
  - discriminate.
Defined.

End FinalState.

(** ** Locust mode *)

Section LocustMode.
Import Executor Examples.
Context `{Runtime}.
Variable float_str : Q -> string.
Variable json_dumps : PyVal -> string.
Variable environ : gmap string string.
Variable str_strip : string -> string.
Variable str_split : string -> list string.
Variable int_of_str : string -> option Z.
Variable rps_search : string -> option string.
Variable _LOCUST_USER_PATTERNS : list (string -> option string).

Local Open Scope list_scope.

(** Parsing a line leaves the output buffer alone. *)
Lemma stream_line_output_lines (st : RunState) (decoded : string) :
  output_lines
    (stream_line str_strip str_split int_of_str rps_search
       _LOCUST_USER_PATTERNS st decoded)
  = output_lines (_append_output_line st decoded).
Proof.
  unfold stream_line, _set_locust_active_users_from_line,
    _parse_metrics_from_output.
  destruct (parsed_users _ _ _); destruct (_parse_rps_from_line _ _);
    destruct (_parse_aggregated_metrics _ _ _ _)
      as [[[[total_requests total_failures] total_successes] [r|]]|];
    reflexivity.
Qed.

Lemma _append_output_line_spec (st : RunState) (decoded : string) :
  output_lines (_append_output_line st decoded)
  = drop (length (output_lines st ++ [decoded]) - MAX_OUTPUT_LINES)
      (output_lines st ++ [decoded]).
Proof.
  unfold _append_output_line, last_items.
  assert (Hmax : (MAX_OUTPUT_LINES <> 0)%nat)
    by (unfold MAX_OUTPUT_LINES; lia).
  destruct (Nat.ltb_spec MAX_OUTPUT_LINES
              (length (output_lines st ++ [decoded]))) as [Hlt|Hge]; simpl.
  - destruct (Nat.eqb_spec MAX_OUTPUT_LINES 0); [contradiction|reflexivity].
  - replace (length (output_lines st ++ [decoded]) - MAX_OUTPUT_LINES)%nat
      with 0%nat by lia.
    reflexivity.
Qed.

(** X8: the output buffer holds the last 10000 lines. Whatever lines
    the subprocess prints, the buffer of a state that was within the
    limit holds, after them, the last [MAX_OUTPUT_LINES] lines of what
    it held followed by what was printed, and never more than that
    many. *)
Theorem output_lines_keep_last (lines : list string) (st : RunState) :
  (length (output_lines st) <= MAX_OUTPUT_LINES)%nat ->
  let st' :=
    fold_left
      (stream_line str_strip str_split int_of_str rps_search
         _LOCUST_USER_PATTERNS) lines st in
  output_lines st'
  = drop (length (output_lines st ++ lines) - MAX_OUTPUT_LINES)
      (output_lines st ++ lines)
  /\ (length (output_lines st') <= MAX_OUTPUT_LINES)%nat.
Proof.
  revert st. induction lines as [|decoded rest IH]; intros st Hlen.
  - simpl. rewrite app_nil_r.
    replace (length (output_lines st) - MAX_OUTPUT_LINES)%nat with 0%nat
      by lia.
    split; [reflexivity|exact Hlen].
  - cbn zeta. cbn [fold_left].
    set (st1 := stream_line _ _ _ _ _ st decoded).
    assert (H1 : output_lines st1
                 = drop (length (output_lines st ++ [decoded])
                         - MAX_OUTPUT_LINES)
                     (output_lines st ++ [decoded])).
    { subst st1. rewrite stream_line_output_lines.
      apply _append_output_line_spec. }
    assert (Hlen1 : (length (output_lines st1) <= MAX_OUTPUT_LINES)%nat).
    { rewrite H1, length_drop. lia. }
    destruct (IH st1 Hlen1) as [Hout Hbound]. cbn zeta in *.
    split; [|exact Hbound].
    rewrite Hout, H1.
    set (k := (length (output_lines st ++ [decoded]) - MAX_OUTPUT_LINES)%nat).
    assert (Hk : (k <= length (output_lines st ++ [decoded]))%nat)
      by (subst k; lia).
    replace (output_lines st ++ decoded :: rest)
      with ((output_lines st ++ [decoded]) ++ rest)
      by now rewrite <- app_assoc.
    rewrite <- (drop_app_le _ rest k Hk), drop_drop.
    f_equal. rewrite length_drop, !length_app. subst k.
    rewrite !length_app in *. simpl in *. lia.
Qed.

Lemma _parse_metrics_from_output_counters (st : RunState) (line : string) :
  let st' :=
    _parse_metrics_from_output str_strip str_split int_of_str rps_search
      st line in
  (request_count (metrics st) <= request_count (metrics st'))%Z
  /\ (success_count (metrics st) <= success_count (metrics st'))%Z
  /\ (failure_count (metrics st) <= failure_count (metrics st'))%Z
  /\ active_users_estimate (metrics st') = active_users_estimate (metrics st).
Proof.
  unfold _parse_metrics_from_output.
  destruct (_parse_rps_from_line _ _);
    destruct (_parse_aggregated_metrics _ _ _ _)
      as [[[[total_requests total_failures] total_successes] [r|]]|];
    simpl; repeat split; try lia;
    repeat match goal with
           | |- context [(?a <=? ?b)%Z] => destruct (Z.leb_spec a b)
           end; lia.
Qed.

(** X9: the counters read from the output of locust never go back.
    Whatever lines the subprocess prints, and whatever they parse to,
    [request_count], [success_count] and [failure_count] after them are
    at least what they were. *)
Theorem locust_counters_monotone (lines : list string) (st : RunState) :
  let st' :=
    fold_left
      (stream_line str_strip str_split int_of_str rps_search
         _LOCUST_USER_PATTERNS) lines st in
  (request_count (metrics st) <= request_count (metrics st'))%Z
  /\ (success_count (metrics st) <= success_count (metrics st'))%Z
  /\ (failure_count (metrics st) <= failure_count (metrics st'))%Z.
Proof.
  revert st. induction lines as [|decoded rest IH]; intros st.
  - simpl. lia.
  - cbn zeta. cbn [fold_left].
    set (st1 := stream_line _ _ _ _ _ st decoded).
    assert (H1 : (request_count (metrics st) <= request_count (metrics st1))%Z
                 /\ (success_count (metrics st)
                     <= success_count (metrics st1))%Z
                 /\ (failure_count (metrics st)
                     <= failure_count (metrics st1))%Z).
    { subst st1. unfold stream_line.
      destruct (_parse_metrics_from_output_counters
                  (_append_output_line st decoded) decoded)
        as (Hr & Hs & Hf & _). cbn zeta in *.
      assert (Happ : metrics (_append_output_line st decoded) = metrics st).
      { unfold _append_output_line. now destruct (_ <? _)%nat. }
      rewrite Happ in *.
      unfold _set_locust_active_users_from_line.
      destruct (parsed_users _ _ _); simpl; auto. }
    specialize (IH st1). cbn zeta in IH. lia.
Qed.

(** X10: the environment of the subprocess. A run with a distribution
    or a target rate hands both to locust: [PRIMES_DISTRIBUTION] holds
    the serialized payload and [PRIMES_TARGET_RPS] the rate
    [_get_target_rps] gives the in-process driver; every other variable
    is inherited. A run with neither inherits the environment as it
    is. *)
Theorem locust_env_spec (c : RunConfig) :
  let env := _build_locust_env float_str json_dumps environ c in
  if _should_use_distribution_mode c
  then (exists payload,
          _distribution_payload c = Some payload
          /\ env !! "PRIMES_DISTRIBUTION" = Some (json_dumps payload))
       /\ env !! "PRIMES_TARGET_RPS" = Some (float_str (_get_target_rps c))
       /\ (forall k,
             k <> "PRIMES_DISTRIBUTION" -> k <> "PRIMES_TARGET_RPS" ->
             env !! k = environ !! k)
  else env = environ.
Proof.
  unfold _should_use_distribution_mode, _build_locust_env,
    _distribution_payload, _get_target_rps.
  destruct (distribution c) as [d|]; destruct (target_rps c) as [t|]; simpl;
    try reflexivity;
    (split; [eexists; split; [reflexivity|];
             rewrite lookup_insert_ne by discriminate;
             apply lookup_insert_eq|];
     split; [apply lookup_insert_eq|];
     intros k Hd Ht; now rewrite !lookup_insert_ne by congruence).
Qed.

(** X11: the command line of a run the dispatcher hands to locust. Such
    a run has no request count, so the command never carries
    [--num-requests]: it is the eight fixed items, followed by
    [--run-time] when a duration other than zero is set. *)
Theorem locust_command_of_dispatched_run (c : RunConfig) :
  _run_test_mode c = execute_locust_test ->
  _build_locust_command float_str c
  = ["locust"; "-f"; "src/primes/tasks.py"; "--headless";
     "--users"; pretty (user_count c);
     "--spawn-rate"; float_str (spawn_rate c)]
    ++ match duration_seconds c with
       | Some d => if (d =? 0)%Z then [] else ["--run-time"; (pretty d ++ "s")%string]
       | None => []
       end.
Proof.
  unfold _run_test_mode, _build_locust_command. intros Hmode.
  destruct (truthy_opt_int (num_requests c)) eqn:Hn.
  - destruct (_should_use_distribution_mode c); discriminate Hmode.
  - destruct (num_requests c) as [n|]; simpl;
      destruct (duration_seconds c) as [d|]; simpl;
      try destruct (d =? 0)%Z; simpl; reflexivity.
Qed.

End LocustMode.

Section LocustModeExamples.
Import Executor Examples.

(** Two lines printed into an empty buffer. *)
Lemma output_lines_keep_last_witness :
  (length
     (output_lines
        (fold_left
           (@stream_line stub_runtime unstripped one_token no_int no_group [])
           ["Starting Locust"; "All users spawned"]
           (state_with "running" (Some 1%nat) 0)))
   <= MAX_OUTPUT_LINES)%nat.
Proof.
  apply (@output_lines_keep_last stub_runtime unstripped one_token no_int
           no_group [] ["Starting Locust"; "All users spawned"]
           (state_with "running" (Some 1%nat) 0)).
  simpl. lia.
Defined.

(** A locust run of thirty seconds. *)
Lemma locust_command_of_dispatched_run_witness :
  _build_locust_command str_of_two locust_run
  = ["locust"; "-f"; "src/primes/tasks.py"; "--headless";
     "--users"; "2"; "--spawn-rate"; "2.0"; "--run-time"; "30s"].
Proof.
  apply (locust_command_of_dispatched_run str_of_two locust_run).
  reflexivity.
Defined.

End LocustModeExamples.

(** ** The checks of the shape mode before its first request *)

Section ShapePreflight.
Import Executor Examples Distributions.

Lemma dispatched_shape_run_is_bounded (c : RunConfig) :
  _run_test_mode c = execute_distribution_test ->
  is_some (num_requests c) = true
  /\ _should_use_distribution_mode c = true.
Proof.
  unfold _run_test_mode.
  destruct (num_requests c) as [n|]; simpl; [|discriminate].
  destruct (negb (n =? 0)%Z); [|discriminate].
  destruct (_should_use_distribution_mode c); [auto|discriminate].
Qed.

(** What the validation helper checked when it returns no error. *)
Lemma validate_distribution_config_accepts `{Runtime} (fuel : nat)
    (name : string) (config : Dict) (path : string) :
  validate_distribution_config fuel name config path = Ok [] ->
  exists plugin,
    instantiate_plugin fuel name config = Some (Some plugin)
    /\ validate plugin = true.
Proof.
  intros Hv. unfold instantiate_plugin.
  assert (Hcases :
            exists plugin_class errors,
              get_plugin_class name = Some plugin_class
              /\ (if negb (is_empty errors) then Ok errors
                  else match initialize fuel plugin_class config with
                       | None => OutOfFuel
                       | Some instance =>
                           if negb (validate instance)
                           then Ok [(path ++ " validation failed")%string]
                           else Ok []
                       end) = Ok []).
  { destruct fuel as [|fuel]; simpl in Hv;
      destruct (get_plugin_class name) as [plugin_class|];
      try discriminate Hv;
      match type of Hv with
      | res_bind ?m _ = _ =>
          destruct m as [errors| |] eqn:Hm; simpl in Hv;
            try discriminate Hv
      end; eauto. }
  destruct Hcases as (plugin_class & errors & Hclass & Hrest).
  rewrite Hclass.
  destruct errors as [|e errors]; simpl in Hrest; [|discriminate Hrest].
  destruct (initialize fuel plugin_class config) as [instance|];
    [|discriminate Hrest].
  exists instance. split; [reflexivity|].
  destruct (validate instance); [reflexivity|discriminate Hrest].
Qed.

(** X12: a distribution the validation helper accepts passes the checks
    of the shape mode. For a run the dispatcher hands to the shape mode,
    whose distribution [validate_distribution_config] accepts without an
    error, [execute_distribution_test] reaches its loop: the plugin is
    found, it validates, and the run is bounded; the loop starts with
    the rate of [_get_target_rps] and at least one concurrent
    request. *)
Theorem validated_run_passes_preflight `{Runtime} (fuel : nat)
    (name : string) (config : Dict) (path : string) (test_id : string)
    (c : RunConfig) (w : World) (st : RunState) :
  validate_distribution_config fuel name config path = Ok [] ->
  distribution c
  = Some {| plugin_name := name; plugin_config := config |} ->
  _run_test_mode c = execute_distribution_test ->
  active_tests w !! test_id = Some st ->
  exists plugin,
    execute_distribution_test_preflight fuel test_id c w
    = PreflightPasses plugin (_get_target_rps c) (Z.max 1 (user_count c))
    /\ instantiate_plugin fuel name config = Some (Some plugin)
    /\ validate plugin = true.
Proof.
  intros Hv Hd Hmode Hst.
  destruct (validate_distribution_config_accepts fuel name config path Hv)
    as (plugin & Hinst & Hvalid).
  destruct (dispatched_shape_run_is_bounded c Hmode) as [Hn _].
  exists plugin. split; [|auto].
  unfold execute_distribution_test_preflight, _create_distribution_instance.
  rewrite Hst, Hd. simpl. rewrite Hinst, Hvalid, Hn. reflexivity.
Qed.

(** X13: a run with a target rate and no shape is driven by a constant
    distribution. For such a run, handed to the shape mode by the
    dispatcher, the checks pass with a plugin that returns
    [max(0, target_rps)] at every time, and the loop evaluates it at
    the configured target rate. *)
Theorem target_only_run_is_constant `{Runtime} (fuel : nat)
    (test_id : string) (c : RunConfig) (w : World) (st : RunState) :
  distribution c = None ->
  _run_test_mode c = execute_distribution_test ->
  active_tests w !! test_id = Some st ->
  exists plugin target,
    target_rps c = Some target
    /\ execute_distribution_test_preflight fuel test_id c w
       = PreflightPasses plugin target (Z.max 1 (user_count c))
    /\ forall t r g, get_rate plugin t r g = Some (py_max 0 r, g).
Proof.
  intros Hd Hmode Hst.
  destruct (dispatched_shape_run_is_bounded c Hmode) as [Hn Hshape].
  unfold _should_use_distribution_mode in Hshape. rewrite Hd in Hshape.
  destruct (target_rps c) as [target|] eqn:Ht; [|discriminate Hshape].
  exists (constant_initialize []), target. split; [reflexivity|].
  split; [|reflexivity].
  unfold execute_distribution_test_preflight, _create_distribution_instance,
    _get_target_rps, instantiate_plugin.
  rewrite Hst, Hd, Ht, Hn. cbn [plugin_name plugin_config].
  change (get_plugin_class "constant") with (Some ConstantClass).
  destruct fuel; reflexivity.
Qed.

End ShapePreflight.

Section ShapePreflightExamples.
Import Executor Examples Distributions.

(** The shaped run passes the checks on a store that holds the test. *)
Lemma validated_run_passes_preflight_witness :
  exists plugin,
    @execute_distribution_test_preflight stub_runtime 0 "t1" shaped_run
      (world_with (state_with "running" None 0))
    = PreflightPasses plugin 10 4.
Proof.
  destruct (@validated_run_passes_preflight stub_runtime 0 "constant"
              constant_ten "distribution" "t1" shaped_run
              (world_with (state_with "running" None 0))
              (state_with "running" None 0))
    as (plugin & Hpass & _).
  - reflexivity.
  - reflexivity.
  - reflexivity.
  - apply lookup_singleton_eq.
  - exists plugin. exact Hpass.
Defined.

(** The run with a target of 25 requests per second and no shape. *)
Lemma target_only_run_is_constant_witness :
  exists plugin,
    @execute_distribution_test_preflight stub_runtime 0 "t1" target_only_run
      (world_with (state_with "running" None 0))
    = PreflightPasses plugin 25 4.
Proof.
  destruct (@target_only_run_is_constant stub_runtime 0 "t1" target_only_run
              (world_with (state_with "running" None 0))
              (state_with "running" None 0))
    as (plugin & target & Ht & Hpass & _).
  - reflexivity.
  - reflexivity.
  - apply lookup_singleton_eq.
  - exists plugin. injection Ht as <-. exact Hpass.
Defined.

End ShapePreflightExamples.

(** ** Bounds and outcomes of the retry loop *)

Section RetryBounds.
Import Client Examples.

Lemma backoff_range (attempt : nat) :
  (1 <= backoff (Z.of_nat attempt) <= 10)%Z.
Proof.
  unfold backoff.
  assert (0 < 2 ^ Z.of_nat attempt)%Z by (apply Z.pow_pos_nonneg; lia).
  lia.
Qed.

Lemma attempts_bounds (max_retries : Z) (transport : nat -> Dispatch)
    (remaining : nat) :
  forall (attempt : nat) (last : option ApiError),
    let call := attempts max_retries transport remaining attempt last in
    (dispatches call <= remaining)%nat
    /\ (length (sleeps call) <= dispatches call)%nat
    /\ (Z.of_nat (length (sleeps call))
        <= Z.max 0 (max_retries - Z.of_nat attempt))%Z
    /\ Forall (fun s => 1 <= s <= 10)%Z (sleeps call).
Proof.
  induction remaining as [|remaining IH]; intros attempt last; cbn zeta.
  - simpl. repeat split; try lia. constructor.
  - cbn [attempts].
    destruct (_attempt_request max_retries (transport attempt)
                (Z.of_nat attempt)) as [[response|] error|]; simpl;
      try (repeat split; try lia; constructor).
    destruct (IH (S attempt) error) as (Hd & Hl & Hm & Hs). cbn zeta in *.
    destruct (Z.ltb_spec (Z.of_nat attempt) max_retries); simpl.
    + repeat split; try lia. constructor; [apply backoff_range|exact Hs].
    + repeat split; try lia. exact Hs.
Qed.

(** X14: the work of one call is bounded. Whatever the server does,
    [make_api_call] dispatches the request at most [max_retries + 1]
    times, sleeps at most [max_retries] times and never more often than
    it dispatched, and each sleep lasts between one and ten seconds. *)
Theorem make_api_call_bounded (max_retries : Z)
    (transport : nat -> Dispatch) :
  let call := make_api_call max_retries transport in
  (Z.of_nat (dispatches call) <= Z.max 0 (max_retries + 1))%Z
  /\ (Z.of_nat (length (sleeps call)) <= Z.max 0 max_retries)%Z
  /\ (length (sleeps call) <= dispatches call)%nat
  /\ Forall (fun s => 1 <= s <= 10)%Z (sleeps call).
Proof.
  cbn zeta. unfold make_api_call.
  destruct (attempts_bounds max_retries transport
              (Z.to_nat (max_retries + 1)) 0 None) as (Hd & Hl & Hm & Hs).
  cbn zeta in *. repeat split; try lia. exact Hs.
Qed.

Lemma attempt_returns (max_retries : Z) (d : Dispatch) (attempt code : Z)
    (error : option ApiError) :
  _attempt_request max_retries d attempt = Attempted (Some code) error ->
  d = Response code /\ is_error code = false.
Proof.
  destruct d as [c| | |c| |]; simpl; try discriminate.
  unfold _handle_error_response.
  destruct (is_error c) eqn:Herr; simpl.
  - destruct (attempt <? max_retries)%Z; discriminate.
  - intros [= <- _]. auto.
Qed.

Lemma attempt_value_error (max_retries : Z) (d : Dispatch) (attempt : Z) :
  _attempt_request max_retries d attempt = AttemptRaisesValueError ->
  d = UnsupportedMethod.
Proof.
  destruct d as [c| | |c| |]; simpl; try discriminate; [|reflexivity].
  unfold _handle_error_response.
  destruct (is_error c); simpl; [|discriminate].
  destruct (attempt <? max_retries)%Z; discriminate.
Qed.

Lemma attempts_last_dispatch (max_retries : Z) (transport : nat -> Dispatch)
    (remaining : nat) :
  forall (attempt : nat) (last : option ApiError),
    let call := attempts max_retries transport remaining attempt last in
    (forall code,
       outcome call = Returns code ->
       is_error code = false
       /\ (0 < dispatches call)%nat
       /\ transport (attempt + dispatches call - 1)%nat = Response code)
    /\ (outcome call = RaisesValueError ->
        (0 < dispatches call)%nat
        /\ transport (attempt + dispatches call - 1)%nat = UnsupportedMethod).
Proof.
  induction remaining as [|remaining IH]; intros attempt last; cbn zeta.
  - simpl. split; [intros code|]; discriminate.
  - cbn [attempts].
    destruct (_attempt_request max_retries (transport attempt)
                (Z.of_nat attempt)) as [[response|] error|] eqn:Ha;
      cbn [dispatches outcome].
    + destruct (attempt_returns _ _ _ _ _ Ha) as [Hd Herr].
      split; [intros code [= <-]|discriminate].
      replace (attempt + 1 - 1)%nat with attempt by lia.
      repeat split; auto.
    + set (rest := attempts max_retries transport remaining (S attempt) error).
      destruct (IH (S attempt) error) as [Hr Hv]. cbn zeta in *.
      fold rest in Hr, Hv.
      split.
      * intros code Ho. destruct (Hr code Ho) as (He & Hpos & Ht).
        replace (attempt + S (dispatches rest) - 1)%nat
          with (S attempt + dispatches rest - 1)%nat by lia.
        repeat split; auto; lia.
      * intros Ho. destruct (Hv Ho) as (Hpos & Ht).
        replace (attempt + S (dispatches rest) - 1)%nat
          with (S attempt + dispatches rest - 1)%nat by lia.
        split; [lia|exact Ht].
    + split; [discriminate|intros _].
      replace (attempt + 1 - 1)%nat with attempt by lia.
      split; [lia|]. exact (attempt_value_error _ _ _ Ha).
Qed.

(** X15: what [make_api_call] hands back. A response it returns is
    never an error response (its status is outside 400..599) and is the
    answer to the last dispatch; and when the call lets a [ValueError]
    through, the last dispatch was the one with the unsupported method:
    nothing is dispatched after either. *)
Theorem make_api_call_last_dispatch (max_retries : Z)
    (transport : nat -> Dispatch) :
  let call := make_api_call max_retries transport in
  (forall code,
     outcome call = Returns code ->
     is_error code = false
     /\ transport (dispatches call - 1)%nat = Response code)
  /\ (outcome call = RaisesValueError ->
      transport (dispatches call - 1)%nat = UnsupportedMethod).
Proof.
  cbn zeta. unfold make_api_call.
  destruct (attempts_last_dispatch max_retries transport
              (Z.to_nat (max_retries + 1)) 0 None) as [Hr Hv].
  cbn zeta in *. split.
  - intros code Ho. destruct (Hr code Ho) as (He & _ & Ht). auto.
  - intros Ho. destruct (Hv Ho) as (_ & Ht). exact Ht.
Qed.

Lemma attempts_retry_outcome (max_retries : Z) (transport : nat -> Dispatch)
    (remaining attempt : nat) (last error : option ApiError) :
  _attempt_request max_retries (transport attempt) (Z.of_nat attempt)
  = Attempted None error ->
  outcome (attempts max_retries transport (S remaining) attempt last)
  = outcome (attempts max_retries transport remaining (S attempt) error).
Proof.
  intros Ha. change (attempts max_retries transport (S remaining) attempt last)
    with (match _attempt_request max_retries (transport attempt)
                  (Z.of_nat attempt) with
          | AttemptRaisesValueError =>
              {| dispatches := 1; sleeps := []; outcome := RaisesValueError |}
          | Attempted (Some response) _ =>
              {| dispatches := 1; sleeps := []; outcome := Returns response |}
          | Attempted None error =>
              let rest :=
                attempts max_retries transport remaining (S attempt) error in
              {| dispatches := S (dispatches rest);
                 sleeps :=
                   (if (Z.of_nat attempt <? max_retries)%Z
                    then [backoff (Z.of_nat attempt)] else [])
                   ++ sleeps rest;
                 outcome := outcome rest |}
          end).
  rewrite Ha. reflexivity.
Qed.

Lemma attempts_exhausted_status (max_retries : Z)
    (transport : nat -> Dispatch) (remaining : nat) :
  forall (attempt : nat) (last : option ApiError),
    (Z.of_nat (attempt + remaining) = max_retries)%Z ->
    (forall i, (i <= remaining)%nat ->
               retriable (transport (attempt + i)%nat) = true) ->
    outcome (attempts max_retries transport (S remaining) attempt last)
    = RaisesApiError (last_status (transport (attempt + remaining)%nat)).
Proof.
  induction remaining as [|remaining IH]; intros attempt last Hlen Hfail.
  - rewrite Nat.add_0_r in *. cbn [attempts].
    specialize (Hfail 0%nat). rewrite Nat.add_0_r in Hfail.
    specialize (Hfail (Nat.le_refl _)).
    destruct (transport attempt) as [code| | |code| |]; simpl in *;
      try reflexivity; try discriminate Hfail.
    unfold _handle_error_response. rewrite Hfail. simpl.
    destruct (Z.ltb_spec (Z.of_nat attempt) max_retries); [lia|].
    reflexivity.
  - destruct (attempt_retriable max_retries (transport attempt)
                (Z.of_nat attempt)) as [e He].
    { specialize (Hfail 0%nat). rewrite Nat.add_0_r in Hfail.
      apply Hfail. lia. }
    rewrite (attempts_retry_outcome _ _ _ _ _ _ He).
    rewrite (IH (S attempt) (Some e)).
    + now replace (S attempt + remaining)%nat
        with (attempt + S remaining)%nat by lia.
    + lia.
    + intros i Hi. replace (S attempt + i)%nat with (attempt + S i)%nat
        by lia. apply Hfail. lia.
Qed.

(** X16: the status code of the error raised after the last retry.
    When all [max_retries + 1] dispatches fail, the [AsyncApiError]
    raised carries a status code only if the last dispatch raised an
    [HTTPStatusError]; when the last dispatch was answered with an error
    response, the status of that response is not passed on. *)
Theorem exhausted_call_status (max_retries : Z)
    (transport : nat -> Dispatch) :
  (0 <= max_retries)%Z ->
  (forall i, (Z.of_nat i <= max_retries)%Z -> retriable (transport i) = true) ->
  outcome (make_api_call max_retries transport)
  = RaisesApiError (last_status (transport (Z.to_nat max_retries)))
  /\ (forall code,
        transport (Z.to_nat max_retries) = Response code ->
        outcome (make_api_call max_retries transport) = RaisesApiError None).
Proof.
  intros Hmax Hfail.
  assert (Hout : outcome (make_api_call max_retries transport)
                 = RaisesApiError
                     (last_status (transport (Z.to_nat max_retries)))).
  { unfold make_api_call.
    replace (Z.to_nat (max_retries + 1)) with (S (Z.to_nat max_retries))
      by lia.
    rewrite (attempts_exhausted_status max_retries transport
               (Z.to_nat max_retries) 0 None).
    - reflexivity.
    - lia.
    - intros i Hi. apply Hfail. lia. }
  split; [exact Hout|].
  intros code Hlast. rewrite Hout, Hlast. reflexivity.
Qed.

(** Three retries against a server that answers 503 every time: the
    error raised has no status code. *)
Lemma exhausted_call_status_witness :
  outcome (make_api_call 3 (always (Response 503))) = RaisesApiError None.
Proof.
  apply (exhausted_call_status 3 (always (Response 503))) with (code := 503%Z).
  - lia.
  - intros i _. reflexivity.
  - reflexivity.
Defined.

End RetryBounds.

(** ** URLs *)

Section Urls.
Import Client Examples.

Lemma lstrip_spec (s : string) :
  exists m,
    s = slashes m ++ lstrip slash s
    /\ starts_with_slash (lstrip slash s) = false.
Proof.
  induction s as [|a s [m [Hs Hstart]]].
  - exists 0%nat. auto.
  - simpl. destruct (Ascii.eqb_spec a slash) as [->|Hne].
    + exists (S m). split; [exact (f_equal (String slash) Hs)|exact Hstart].
    + exists 0%nat. split; [reflexivity|].
      simpl. now apply Ascii.eqb_neq.
Qed.

Lemma rstrip_spec (s : string) :
  exists n,
    s = rstrip slash s ++ slashes n
    /\ ends_with_slash (rstrip slash s) = false.
Proof.
  induction s as [|a s [n [Hs Hend]]].
  - exists 0%nat. auto.
  - simpl. destruct (rstrip slash s) as [|b r].
    + simpl in Hs. destruct (Ascii.eqb_spec a slash) as [->|Hne].
      * exists (S n). split; [exact (f_equal (String slash) Hs)|reflexivity].
      * exists n. split; [exact (f_equal (String a) Hs)|].
        simpl. now apply Ascii.eqb_neq.
    + exists n. split; [exact (f_equal (String a) Hs)|exact Hend].
Qed.

Lemma rstrip_app_slash (s : string) :
  rstrip slash (s ++ "/") = rstrip slash s.
Proof.
  induction s as [|a s IH]; [reflexivity|].
  change (String a s ++ "/") with (String a (s ++ "/")).
  simpl. now rewrite IH.
Qed.

(** X17: [_build_url] joins the base and the path with one slash. The
    trailing slashes of the base and the leading slashes of the path are
    dropped, however many there are, and what is left of each is joined
    by a single slash (or the rest of the path is returned alone when
    nothing is left of the base); so one more slash at the end of the
    base or at the start of the path changes nothing. *)
Theorem build_url_single_slash (BASE_URL path : string) :
  (exists b p n m,
     BASE_URL = b ++ slashes n
     /\ path = slashes m ++ p
     /\ ends_with_slash b = false
     /\ starts_with_slash p = false
     /\ _build_url BASE_URL path
        = if String.eqb b EmptyString then p else b ++ "/" ++ p)
  /\ _build_url (BASE_URL ++ "/") path = _build_url BASE_URL path
  /\ _build_url BASE_URL ("/" ++ path) = _build_url BASE_URL path.
Proof.
  split; [|split].
  - destruct (rstrip_spec BASE_URL) as (n & Hb & Hend).
    destruct (lstrip_spec path) as (m & Hp & Hstart).
    exists (rstrip slash BASE_URL), (lstrip slash path), n, m.
    repeat split; auto.
    unfold _build_url.
    now destruct (String.eqb (rstrip slash BASE_URL) EmptyString).
  - unfold _build_url. now rewrite rstrip_app_slash.
  - reflexivity.
Qed.

End Urls.

(** ** The shapes of the leaf evaluators *)

Section LeafShapes.
Import Distributions Examples.

Lemma Qdiv_bounds (t ramp : Q) :
  (0 < ramp)%Q -> (0 <= t)%Q -> (t < ramp)%Q ->
  (0 <= t / ramp)%Q /\ (t / ramp <= 1)%Q.
Proof.
  intros Hramp Ht Hlt. split.
  - apply Qle_shift_div_l; [exact Hramp|lra].
  - apply Qle_shift_div_r; [exact Hramp|lra].
Qed.

Lemma Qdiv_mono (t1 t2 ramp : Q) :
  (0 < ramp)%Q -> (t1 <= t2)%Q -> (t1 / ramp <= t2 / ramp)%Q.
Proof.
  intros Hramp Hle. unfold Qdiv. apply Qmult_le_compat_r; [exact Hle|].
  apply Qlt_le_weak. now apply Qinv_lt_0_compat.
Qed.

(** X18: the ramp of the linear evaluator. With a positive ramp
    duration and a target rate that is not negative, the rate starts at
    zero, never decreases as time passes, never exceeds the target, and
    is the target from the end of the ramp on. *)
Theorem linear_ramp `{Runtime} (config : Dict) (e : bool)
    (ramp_duration r t1 t2 : Q) (g : RngState) :
  (0 < ramp_duration)%Q ->
  (0 <= r)%Q ->
  (0 <= t1)%Q ->
  (t1 <= t2)%Q ->
  exists v1 v2,
    get_rate (LinearDistribution config e ramp_duration) t1 r g = Some (v1, g)
    /\ get_rate (LinearDistribution config e ramp_duration) t2 r g
       = Some (v2, g)
    /\ (0 <= v1)%Q /\ (v1 <= v2)%Q /\ (v2 <= r)%Q
    /\ (t1 == 0 -> v1 == 0)%Q
    /\ ((ramp_duration <= t2)%Q -> v2 = r).
Proof.
  intros Hramp Hr Ht1 Hle.
  exists (linear_get_rate ramp_duration t1 r),
    (linear_get_rate ramp_duration t2 r).
  split; [reflexivity|]. split; [reflexivity|].
  unfold linear_get_rate.
  destruct (fle_spec ramp_duration 0) as [Hneg|_]; [lra|].
  destruct (fle_spec ramp_duration t1) as [Hend1|Hin1];
    destruct (fle_spec ramp_duration t2) as [Hend2|Hin2].
  - repeat split; try lra.
  - lra.
  - assert (Ht : (t1 < ramp_duration)%Q) by lra.
    destruct (Qdiv_bounds t1 ramp_duration Hramp Ht1 Ht) as [H0 H1].
    repeat split; try nra.
    intros Hz. rewrite Hz. unfold Qdiv. lra.
  - assert (Ht : (t1 < ramp_duration)%Q) by lra.
    assert (Ht' : (t2 < ramp_duration)%Q) by lra.
    destruct (Qdiv_bounds t1 ramp_duration Hramp Ht1 Ht) as [H0 H1].
    destruct (Qdiv_bounds t2 ramp_duration Hramp) as [H0' H1']; [lra|lra|].
    pose proof (Qdiv_mono t1 t2 ramp_duration Hramp Hle) as Hm.
    repeat split; try nra; try lra.
    intros Hz. rewrite Hz. unfold Qdiv. lra.
Qed.

(** X19: the band of the sine evaluator. With a positive period, an
    amplitude and a base rate that are not negative, and a sine between
    -1 and 1, the rate stays between [base * (1 - amplitude)] and
    [base * (1 + amplitude)], where the base is [base_rps] when it is
    set and not zero, and the target rate otherwise. *)
Theorem sine_band `{Runtime} (config : Dict) (e : bool)
    (period amplitude phase_shift : Q) (base_rps : option Q) (t r : Q)
    (g : RngState) :
  sin_in_range ->
  (0 < period)%Q ->
  (0 <= amplitude)%Q ->
  let base :=
    if truthy_opt_float base_rps then float_or base_rps 0 else r in
  (0 <= base)%Q ->
  exists v,
    get_rate (SineDistribution config e period amplitude phase_shift base_rps)
      t r g = Some (v, g)
    /\ (base * (1 - amplitude) <= v)%Q
    /\ (v <= base * (1 + amplitude))%Q.
Proof.
  intros Hsin Hperiod Hamp base Hbase.
  exists (sine_get_rate period amplitude phase_shift base_rps t r).
  split; [reflexivity|].
  unfold sine_get_rate.
  destruct (fle_spec period 0) as [Hneg|_]; [lra|].
  fold base.
  set (angle := (2 * math_pi * (t + phase_shift) / period)%Q).
  destruct (Hsin angle) as [Hlo Hhi].
  assert (Hk : (0 <= base * amplitude)%Q)
    by (apply Qmult_le_0_compat; assumption).
  assert (Hup : (0 <= (base * amplitude) * (1 - math_sin angle))%Q)
    by (apply Qmult_le_0_compat; [exact Hk|lra]).
  assert (Hdown : (0 <= (base * amplitude) * (math_sin angle + 1))%Q)
    by (apply Qmult_le_0_compat; [exact Hk|lra]).
  split; lra.
Qed.

End LeafShapes.

Section LeafShapesExamples.
Import Distributions Examples.

(** A ramp of sixty seconds towards ten requests per second, at the
    start and after thirty seconds. *)
Lemma linear_ramp_witness :
  exists v1 v2,
    @get_rate stub_runtime (LinearDistribution [] false 60) 0 10 tt
    = Some (v1, tt)
    /\ @get_rate stub_runtime (LinearDistribution [] false 60) 30 10 tt
       = Some (v2, tt)
    /\ (0 <= v1)%Q /\ (v1 <= v2)%Q /\ (v2 <= 10)%Q.
Proof.
  destruct (@linear_ramp stub_runtime [] false 60 10 0 30 tt)
    as (v1 & v2 & H1 & H2 & H3 & H4 & H5 & _).
  - reflexivity.
  - discriminate.
  - discriminate.
  - discriminate.
  - exists v1, v2. auto.
Defined.

(** A sine of amplitude one half around ten requests per second. *)
Lemma sine_band_witness :
  exists v,
    @get_rate stub_runtime
      (SineDistribution [] false 3600 (1 # 2) 0 None) 900 10 tt
    = Some (v, tt)
    /\ (10 * (1 - (1 # 2)) <= v)%Q
    /\ (v <= 10 * (1 + (1 # 2)))%Q.
Proof.
  apply (@sine_band stub_runtime [] false 3600 (1 # 2) 0 None 900 10 tt).
  - exact stub_sin_in_range.
  - reflexivity.
  - discriminate.
  - discriminate.
Defined.

End LeafShapesExamples.

(** ** The stages of a sequence *)

Section SequenceStages.
Import Distributions Examples.
Context `{Runtime}.

(** The instance [initialize] builds for a sequence: its timeline is
    that of its durations, and it has one duration per stage. *)
Lemma sequence_initialize_shape (fuel : nat) (config : Dict) (p : Plugin) :
  initialize fuel SequenceClass config = Some p ->
  exists e post_behavior plugins durations,
    p = SequenceDistribution config e post_behavior plugins durations
          (fst (stage_timeline 0 durations))
          (snd (stage_timeline 0 durations))
    /\ length durations = length plugins.
Proof.
  destruct fuel as [|fuel]; [discriminate|]. simpl.
  unfold sequence_initialize.
  destruct (_set_post_behavior config) as [post_behavior err1].
  destruct (_parse_stages_data config) as [[stages_data|] err2].
  - destruct (parse_items _ stages_data) as [[parsed err3]|]; [|discriminate].
    destruct (stage_timeline 0 (List.map snd parsed)) as [starts total] eqn:Et.
    intros [= <-].
    exists (err1 || err2 || err3), post_behavior, (List.map fst parsed),
      (List.map snd parsed).
    rewrite Et. simpl. split; [reflexivity|].
    now rewrite !length_map.
  - intros [= <-]. exists (err1 || err2), post_behavior, [], [].
    split; reflexivity.
Qed.

(** What [validate] checked on such an instance. *)
Lemma sequence_validate_shape (config : Dict) (e : bool)
    (post_behavior : string) (plugins : list Plugin) (durations : list Q) :
  length durations = length plugins ->
  validate
    (SequenceDistribution config e post_behavior plugins durations
       (fst (stage_timeline 0 durations))
       (snd (stage_timeline 0 durations))) = true ->
  e = false
  /\ is_empty (List.map get_rate plugins) = false
  /\ Forall (fun d => (0 < d)%Q) durations
  /\ (0 < snd (stage_timeline 0 durations))%Q.
Proof.
  intros Hlen Hv. simpl in Hv. unfold sequence_validate in Hv.
  destruct e; [discriminate Hv|].
  destruct (is_empty (List.map validate plugins)) eqn:Hne;
    [discriminate Hv|].
  destruct (String.eqb post_behavior "hold_last"
            || String.eqb post_behavior "zero"
            || String.eqb post_behavior "repeat");
    [|discriminate Hv].
  destruct (sequence_stages_valid 0 durations (List.map validate plugins)
              (fst (stage_timeline 0 durations))) eqn:Hstages;
    [|discriminate Hv].
  destruct (validate_numeric (Some (snd (stage_timeline 0 durations)))
              false true false) eqn:Htotal; [|discriminate Hv].
  apply validate_numeric_positive in Htotal.
  apply sequence_stages_valid_spec in Hstages; [|now rewrite length_map].
  split; [reflexivity|]. split; [|tauto].
  destruct plugins; [discriminate Hne|reflexivity].
Qed.

(** Every stage of a timeline starts at or after its origin and ends at
    or before its total; the next stage starts where it ends, and the
    total is where the last stage ends. *)
Lemma stage_timeline_stage (durations : list Q) :
  Forall (fun d => (0 < d)%Q) durations ->
  forall s0 k s d,
    fst (stage_timeline s0 durations) !! k = Some s ->
    durations !! k = Some d ->
    (s0 <= s)%Q
    /\ (s + d <= snd (stage_timeline s0 durations))%Q
    /\ match fst (stage_timeline s0 durations) !! S k with
       | Some next => next = (s + d)%Q
       | None => snd (stage_timeline s0 durations) = (s + d)%Q
       end.
Proof.
  induction 1 as [|d0 ds Hd0 Hpos IH]; intros s0 k s d Hs Hd;
    [discriminate Hd|].
  simpl in *.
  destruct (stage_timeline (s0 + d0) ds) as [starts total] eqn:Et.
  simpl in *. destruct k as [|k].
  - injection Hs as <-. injection Hd as <-.
    pose proof (proj1 (stage_timeline_le_total ds Hpos (s0 + d0)%Q)) as Hle.
    rewrite Et in Hle. simpl in Hle.
    split; [lra|]. split; [exact Hle|].
    destruct ds as [|d1 ds]; simpl in Et.
    + injection Et as <- <-. reflexivity.
    + destruct (stage_timeline (s0 + d0 + d1) ds). injection Et as <- <-.
      reflexivity.
  - specialize (IH (s0 + d0)%Q k s d). rewrite Et in IH. simpl in IH.
    destruct (IH Hs Hd) as (Hge & Hle & Hnext).
    split; [lra|]. split; [exact Hle|exact Hnext].
Qed.

Lemma find_stage_from_exact (durations : list Q) :
  Forall (fun d => (0 < d)%Q) durations ->
  forall s0 index k s d elapsed,
    fst (stage_timeline s0 durations) !! k = Some s ->
    durations !! k = Some d ->
    (s <= elapsed)%Q -> (elapsed < s + d)%Q ->
    find_stage_from index (fst (stage_timeline s0 durations)) durations
      elapsed
    = Some (index + Z.of_nat k)%Z.
Proof.
  induction 1 as [|d0 ds Hd0 Hpos IH];
    intros s0 index k s d elapsed Hs Hd Hge Hlt; [discriminate Hd|].
  simpl in *.
  destruct (stage_timeline (s0 + d0) ds) as [starts total] eqn:Et.
  simpl in *. destruct k as [|k].
  - injection Hs as <-. injection Hd as <-.
    destruct (flt_spec elapsed (s0 + d0)); [|lra].
    f_equal. lia.
  - pose proof (stage_timeline_stage ds Hpos (s0 + d0)%Q k s d) as Hk.
    rewrite Et in Hk. simpl in Hk.
    destruct (Hk Hs Hd) as (Hfrom & _).
    destruct (flt_spec elapsed (s0 + d0)); [lra|].
    specialize (IH (s0 + d0)%Q (index + 1)%Z k s d elapsed).
    rewrite Et in IH. simpl in IH.
    rewrite (IH Hs Hd Hge Hlt). f_equal. lia.
Qed.

(** X20: the rate of a sequence during a stage. For a sequence that was
    initialized and validates, and whose behaviour after the end is not
    [repeat]: while a stage is active, the sequence returns what the
    distribution of that stage returns for the time elapsed since the
    stage started, at the same target rate (a target rate of zero
    aside, for which the sequence returns zero). *)
Theorem sequence_stage_rate (fuel : nat) (config : Dict) (p : Plugin)
    (k : nat) (s d : Q) (child : Plugin) (t r : Q) :
  initialize fuel SequenceClass config = Some p ->
  validate p = true ->
  post_behavior_of p <> "repeat" ->
  stage_starts_of p !! k = Some s ->
  stage_durations_of p !! k = Some d ->
  stage_plugins_of p !! k = Some child ->
  (s <= t)%Q -> (t < s + d)%Q ->
  (if feq r 0
   then get_rate p t r = ret 0%Q
   else get_rate p t r = get_rate child (t - s)%Q r).
Proof.
  intros Hinit Hvalid Hpost Hs Hd Hchild Hge Hlt.
  destruct (sequence_initialize_shape fuel config p Hinit)
    as (e & post_behavior & plugins & durations & -> & Hlen).
  destruct (sequence_validate_shape _ _ _ _ _ Hlen Hvalid)
    as (-> & Hne & Hpos & Htotal).
  simpl in Hpost, Hs, Hd, Hchild.
  destruct (stage_timeline_stage durations Hpos 0 k s d Hs Hd)
    as (_ & Hend & _).
  cbn [get_rate]. unfold sequence_get_rate.
  rewrite Hne. simpl orb. cbn iota.
  destruct (fle_spec (snd (stage_timeline 0 durations)) 0); [lra|].
  unfold _elapsed_for_behavior.
  destruct (String.eqb_spec post_behavior "repeat"); [contradiction|].
  destruct (flt_spec t (snd (stage_timeline 0 durations))); [|lra].
  destruct (feq r 0); [reflexivity|].
  unfold _find_active_stage.
  rewrite (find_stage_from_exact durations Hpos 0 0 k s d t Hs Hd Hge Hlt).
  rewrite Z.add_0_l. unfold _rate_for_stage.
  destruct (Z.ltb_spec (Z.of_nat k) 0); [lia|].
  rewrite Nat2Z.id, Hs, lookup_map, Hchild. reflexivity.
Qed.

(** X21: the rate of a sequence after its last stage. For a sequence
    that was initialized and validates, from the total duration on: with
    [zero] the rate is zero; with [hold_last] the sequence returns what
    the distribution of the last stage returns for the time elapsed
    since that stage started. *)
Theorem sequence_after_end (fuel : nat) (config : Dict) (p : Plugin)
    (t r : Q) :
  initialize fuel SequenceClass config = Some p ->
  validate p = true ->
  (total_duration_of p <= t)%Q ->
  (post_behavior_of p = "zero" -> get_rate p t r = ret 0%Q)
  /\ (post_behavior_of p = "hold_last" ->
      exists s child,
        last (stage_starts_of p) = Some s
        /\ last (stage_plugins_of p) = Some child
        /\ get_rate p t r = get_rate child (t - s)%Q r).
Proof.
  intros Hinit Hvalid Hafter.
  destruct (sequence_initialize_shape fuel config p Hinit)
    as (e & post_behavior & plugins & durations & -> & Hlen).
  destruct (sequence_validate_shape _ _ _ _ _ Hlen Hvalid)
    as (-> & Hne & Hpos & Htotal).
  simpl in Hafter. simpl post_behavior_of. simpl stage_starts_of.
  simpl stage_plugins_of.
  cbn [get_rate]. unfold sequence_get_rate.
  rewrite Hne. simpl orb. cbn iota.
  destruct (fle_spec (snd (stage_timeline 0 durations)) 0); [lra|].
  unfold _elapsed_for_behavior.
  destruct (flt_spec t (snd (stage_timeline 0 durations))); [lra|].
  split.
  - intros ->. reflexivity.
  - intros ->. simpl.
    assert (Hlast : exists s child,
              last (fst (stage_timeline 0 durations)) = Some s
              /\ last plugins = Some child
              /\ fst (stage_timeline 0 durations) !! (length plugins - 1)%nat
                 = Some s
              /\ plugins !! (length plugins - 1)%nat = Some child).
    { pose proof (stage_timeline_length durations 0) as Hl.
      rewrite Hlen in Hl.
      destruct plugins as [|q qs]; [discriminate Hne|].
      rewrite !last_lookup. rewrite Hl. simpl length.
      replace (Init.Nat.pred (S (length qs))) with (length qs) by reflexivity.
      replace (S (length qs) - 1)%nat with (length qs) by lia.
      destruct (lookup_lt_is_Some_2 (fst (stage_timeline 0 durations))
                  (length qs)) as [s Hs]; [rewrite Hl; simpl; lia|].
      destruct (lookup_lt_is_Some_2 (q :: qs) (length qs)) as [child Hc];
        [simpl; lia|].
      exists s, child. auto. }
    destruct Hlast as (s & child & Hls & Hlc & Hs & Hc).
    exists s, child. split; [exact Hls|]. split; [exact Hlc|].
    unfold _rate_for_stage, _last_stage_index. rewrite length_map.
    destruct (Z.ltb_spec (Z.of_nat (length plugins) - 1) 0) as [Hneg|_].
    { destruct plugins; [discriminate Hne|]. simpl length in Hneg. lia. }
    replace (Z.to_nat (Z.of_nat (length plugins) - 1))
      with (length plugins - 1)%nat by lia.
    rewrite Hs, lookup_map, Hc. reflexivity.
Qed.

(** X22: the timeline of a sequence. In a sequence that was initialized
    and validates, the first stage starts at zero, every stage starts
    where the one before it ends, and the total duration is the end of
    the last stage. *)
Theorem sequence_timeline (fuel : nat) (config : Dict) (p : Plugin) :
  initialize fuel SequenceClass config = Some p ->
  validate p = true ->
  length (stage_starts_of p) = length (stage_plugins_of p)
  /\ length (stage_durations_of p) = length (stage_plugins_of p)
  /\ stage_starts_of p !! 0%nat = Some 0%Q
  /\ forall k s d,
       stage_starts_of p !! k = Some s ->
       stage_durations_of p !! k = Some d ->
       (0 < d)%Q
       /\ match stage_starts_of p !! S k with
          | Some next => next = (s + d)%Q
          | None => total_duration_of p = (s + d)%Q
          end.
Proof.
  intros Hinit Hvalid.
  destruct (sequence_initialize_shape fuel config p Hinit)
    as (e & post_behavior & plugins & durations & -> & Hlen).
  destruct (sequence_validate_shape _ _ _ _ _ Hlen Hvalid)
    as (-> & Hne & Hpos & Htotal).
  simpl. split; [now rewrite stage_timeline_length|].
  split; [exact Hlen|]. split.
  - destruct durations as [|d0 ds].
    + destruct plugins; [discriminate Hne|discriminate Hlen].
    + simpl. now destruct (stage_timeline (0 + d0) ds).
  - intros k s d Hs Hd. split.
    + exact (Forall_lookup_1 _ _ _ _ Hpos Hd).
    + exact (proj2 (proj2 (stage_timeline_stage durations Hpos 0 k s d
                             Hs Hd))).
Qed.

End SequenceStages.

Section SequenceStagesExamples.
Import Distributions Examples.

(** Fifteen seconds into the two-stage sequence, the second stage has
    been active for five seconds. *)
Lemma sequence_stage_rate_witness :
  @get_rate stub_runtime (stub_initialize 1 SequenceClass two_stages_hold)
    15 7
  = @get_rate stub_runtime
      (ConstantDistribution [("rps", PInt 30)] false (Some 30%Q)) (15 - 10) 7.
Proof.
  apply (@sequence_stage_rate stub_runtime 1 two_stages_hold
           (stub_initialize 1 SequenceClass two_stages_hold) 1 10 10
           (ConstantDistribution [("rps", PInt 30)] false (Some 30%Q)) 15 7);
    try reflexivity; discriminate.
Defined.

(** Forty seconds into the two-stage sequence that drops to zero. *)
Lemma sequence_after_end_witness :
  @get_rate stub_runtime (stub_initialize 1 SequenceClass two_stages_zero)
    40 7
  = @ret stub_runtime Q 0%Q.
Proof.
  apply (@sequence_after_end stub_runtime 1 two_stages_zero
           (stub_initialize 1 SequenceClass two_stages_zero) 40 7);
    try reflexivity; discriminate.
Defined.

(** The timeline of the two-stage sequence. *)
Lemma sequence_timeline_witness :
  stage_starts_of (stub_initialize 1 SequenceClass two_stages_hold) !! 0%nat
  = Some 0%Q.
Proof.
  apply (@sequence_timeline stub_runtime 1 two_stages_hold
           (stub_initialize 1 SequenceClass two_stages_hold));
    reflexivity.
Defined.

End SequenceStagesExamples.

(** ** The weights of a mix *)

Section MixWeights.
Import Distributions Examples.
Context `{Runtime}.

Lemma fold_left_Qplus_shift (l : list Q) :
  forall a, (fold_left Qplus l a == a + fold_left Qplus l 0)%Q.
Proof.
  induction l as [|x l IH]; intros a; simpl; [lra|].
  rewrite (IH (a + x)%Q), (IH (0 + x)%Q). lra.
Qed.

Lemma py_sum_cons (x : Q) (l : list Q) :
  (py_sum (x :: l) == x + py_sum l)%Q.
Proof.
  unfold py_sum. simpl. rewrite fold_left_Qplus_shift. lra.
Qed.

Lemma py_sum_bounds (l : list Q) :
  Forall (fun w => (0 <= w)%Q) l ->
  (0 <= py_sum l)%Q /\ Forall (fun w => (w <= py_sum l)%Q) l.
Proof.
  induction 1 as [|x l Hx Hl [IH0 IH]].
  - split; [unfold py_sum; simpl; lra|constructor].
  - pose proof (py_sum_cons x l) as Hs. split; [lra|].
    constructor; [lra|].
    eapply Forall_impl; [exact IH|]. intros w Hw. simpl in Hw. lra.
Qed.

(** X23: the normalized weights of a mix. When the weights sum to more
    than zero, [_set_normalized_weights] gives every component its share
    of the total: one normalized weight per weight, each the weight
    divided by the total, and each between zero and one when no weight
    is negative. When the weights sum to zero or less, no normalized
    weight is set. *)
Theorem normalized_weights_are_shares (weights : list Q) :
  (if fle (py_sum weights) 0
   then _set_normalized_weights weights = []
   else
     length (_set_normalized_weights weights) = length weights
     /\ (forall k w,
           weights !! k = Some w ->
           _set_normalized_weights weights !! k
           = Some (w / py_sum weights)%Q)
     /\ (Forall (fun w => (0 <= w)%Q) weights ->
         Forall (fun w => (0 <= w)%Q /\ (w <= 1)%Q)
           (_set_normalized_weights weights))).
Proof.
  unfold _set_normalized_weights.
  destruct (fle_spec (py_sum weights) 0) as [|Hpos]; [reflexivity|].
  assert (Htotal : (0 < py_sum weights)%Q) by lra.
  split; [now rewrite length_map|]. split.
  - intros k w Hk. now rewrite lookup_map, Hk.
  - intros Hnonneg. destruct (py_sum_bounds weights Hnonneg) as [_ Hle].
    apply Forall_forall. intros v Hv.
    apply list_elem_of_fmap in Hv as (w & -> & Hw).
    pose proof (proj1 (Forall_forall _ _) Hnonneg w Hw) as H0.
    pose proof (proj1 (Forall_forall _ _) Hle w Hw) as H1.
    simpl in H0, H1. split.
    + apply Qle_shift_div_l; [exact Htotal|lra].
    + apply Qle_shift_div_r; [exact Htotal|lra].
Qed.

End MixWeights.

(** ** The steps of a step distribution *)

Section Steps.
Import Distributions Examples.




Lemma validate_numeric_nonneg (v : Q) (allow_none positive : bool) :
  validate_numeric (Some v) allow_none false true = true -> (0 <= v)%Q.
Proof.
  unfold validate_numeric. simpl.
  destruct (flt_spec v 0); [discriminate|]. intros _. lra.
Qed.

Lemma steps_valid_spec (steps : list (Q * Q)) :
  forall prev_time,
    steps_valid steps prev_time = true ->
    Forall (fun step => (prev_time < fst step)%Q
                        /\ (0 <= fst step)%Q /\ (0 <= snd step)%Q) steps
    /\ StronglySorted time_lt steps.
Proof.
  induction steps as [|[step_time step_rate] rest IH]; intros prev_time.
  - intros _. split; constructor.
  - cbn [steps_valid _is_valid_step].
    destruct (validate_numeric (Some step_time) false false true) eqn:Et,
      (validate_numeric (Some step_rate) false false true) eqn:Er,
      (fle_spec step_time prev_time) as [|Hgt];
      cbn [negb]; cbn iota; try discriminate.
    intros Hrest. destruct (IH step_time Hrest) as [Hall Hsorted].
    apply (validate_numeric_nonneg _ false false) in Et.
    apply (validate_numeric_nonneg _ false false) in Er.
    split.
    + constructor; [simpl; split; [lra|auto]|].
      eapply Forall_impl; [exact Hall|]. intros step Hs. simpl in *. lra.
    + constructor; [exact Hsorted|].
      eapply Forall_impl; [exact Hall|]. intros step Hs.
      unfold time_lt. simpl in *. tauto.
Qed.

(** X26: what [validate] guarantees of a step distribution. An
    initialized step distribution that validates has no parse error, a
    default rate that is not negative, steps whose times and rates are
    not negative, and step times that increase strictly (no two steps
    share a time). *)
Theorem validated_steps_increase `{Runtime} (fuel : nat) (config : Dict)
    (p : Plugin) :
  initialize fuel StepClass config = Some p ->
  validate p = true ->
  parse_error_of p = false
  /\ (0 <= default_rps_of p)%Q
  /\ Forall (fun step => (0 <= fst step)%Q /\ (0 <= snd step)%Q) (steps_of p)
  /\ StronglySorted time_lt (steps_of p).
Proof.
  intros Hinit Hvalid.
  assert (Hshape : exists e steps default_rps,
            p = StepDistribution config e steps default_rps).
  { destruct fuel; simpl in Hinit; injection Hinit as <-;
      unfold step_initialize;
      destruct (if dict_contains "default_rps" config then _ else _)
        as [default_rps err1];
      destruct (_parse_steps _) as [steps err2]; eauto. }
  destruct Hshape as (e & steps & default_rps & ->).
  simpl in *. unfold step_validate in Hvalid.
  destruct e; [discriminate Hvalid|].
  destruct (validate_numeric (Some default_rps) false false true) eqn:Ed;
    [|discriminate Hvalid].
  destruct (steps_valid steps (-1)) eqn:Es; [|discriminate Hvalid].
  apply (validate_numeric_nonneg _ false false) in Ed.
  destruct (steps_valid_spec steps _ Es) as [Hall Hsorted].
  split; [reflexivity|]. split; [exact Ed|]. split; [|exact Hsorted].
  eapply Forall_impl; [exact Hall|]. intros step Hs. simpl in *. tauto.
Qed.

End Steps.

Section StepsExamples.
Import Distributions Examples.

(** The two steps of the docstring of [StepDistribution]. *)
Lemma validated_steps_increase_witness :
  StronglySorted time_lt (steps_of (stub_initialize 0 StepClass two_steps)).
Proof.
  apply (@validated_steps_increase stub_runtime 0 two_steps
           (stub_initialize 0 StepClass two_steps));
    reflexivity.
Defined.

End StepsExamples.

(** ** Normalization and unknown names *)

Section Normalization.
Import Distributions Examples.
Context `{Runtime}.

Lemma dict_lookup_dict_set (key k : string) (value : PyVal) (d : Dict) :
  dict_lookup k (dict_set key value d)
  = if String.eqb key k then Some value else dict_lookup k d.
Proof.
  induction d as [|[k0 v0] d IH]; simpl.
  - now destruct (String.eqb key k).
  - destruct (String.eqb_spec k0 key) as [->|Hne]; simpl.
    + now destruct (String.eqb key k).
    + destruct (String.eqb_spec k0 k) as [->|Hne'].
      * destruct (String.eqb_spec key k) as [->|_]; [congruence|reflexivity].
      * exact IH.
Qed.

Lemma dict_set_dict_set (key : string) (value : PyVal) (d : Dict) :
  dict_set key value (dict_set key value d) = dict_set key value d.
Proof.
  induction d as [|[k0 v0] d IH]; simpl.
  - now rewrite String.eqb_refl.
  - destruct (String.eqb_spec k0 key) as [->|Hne]; simpl.
    + now rewrite String.eqb_refl.
    + destruct (String.eqb_spec k0 key); [contradiction|]. now rewrite IH.
Qed.

Lemma _normalize_list_field_spec (config config' : Dict)
    (field_name : string) :
  _normalize_list_field config field_name = Ok config' ->
  _normalize_list_field config' field_name = Ok config'
  /\ (dict_lookup field_name config = None
      /\ dict_lookup field_name config' = None
      \/ exists items, dict_lookup field_name config' = Some (PList items))
  /\ (forall k, k <> field_name ->
                dict_lookup k config' = dict_lookup k config).
Proof.
  unfold _normalize_list_field at 1.
  destruct (dict_lookup field_name config) as [value0|] eqn:Hl.
  - intros Hn.
    assert (Hv : exists items,
               config' = dict_set field_name (PList items) config).
    { destruct value0 as [| | | |s|items|]; simpl in Hn;
        try discriminate Hn.
      - destruct (json_loads s) as [[| | | | |items|]|]; simpl in Hn;
          try discriminate Hn.
        injection Hn as <-. eauto.
      - injection Hn as <-. eauto. }
    destruct Hv as [items ->].
    assert (Hl' : dict_lookup field_name
                    (dict_set field_name (PList items) config)
                  = Some (PList items)).
    { rewrite dict_lookup_dict_set. now rewrite String.eqb_refl. }
    split; [|split].
    + unfold _normalize_list_field. rewrite Hl'. simpl.
      now rewrite dict_set_dict_set.
    + right. eauto.
    + intros k Hk. rewrite dict_lookup_dict_set.
      destruct (String.eqb_spec field_name k); [congruence|reflexivity].
  - intros [= <-]. split; [|split].
    + unfold _normalize_list_field. now rewrite Hl.
    + left. auto.
    + reflexivity.
Qed.

(** X27: normalizing a configuration twice is normalizing it once. When
    [normalize_distribution_config] returns, normalizing its result
    returns that result again; the field that lists the items of a
    composite ([components] of a mix, [stages] of a sequence), when
    present, holds a list; and every other key holds what it held. *)
Theorem normalize_idempotent (name : string) (config config' : Dict) :
  normalize_distribution_config name config = Ok config' ->
  normalize_distribution_config name config' = Ok config'
  /\ (forall field_name items_value,
        list_field name = Some field_name ->
        dict_lookup field_name config' = Some items_value ->
        is_list items_value = true)
  /\ (forall k, list_field name <> Some k ->
                dict_lookup k config' = dict_lookup k config).
Proof.
  unfold normalize_distribution_config, list_field.
  destruct (String.eqb name "mix");
    [|destruct (String.eqb name "sequence")].
  - intros Hn.
    destruct (_normalize_list_field_spec _ _ _ Hn) as (Hi & Hf & Hk).
    split; [exact Hi|]. split.
    + intros field_name v [= <-] Hv.
      destruct Hf as [[_ Hnone]|[items Hitems]]; [congruence|].
      rewrite Hitems in Hv. now injection Hv as <-.
    + intros k Hne. apply Hk. congruence.
  - intros Hn.
    destruct (_normalize_list_field_spec _ _ _ Hn) as (Hi & Hf & Hk).
    split; [exact Hi|]. split.
    + intros field_name v [= <-] Hv.
      destruct Hf as [[_ Hnone]|[items Hitems]]; [congruence|].
      rewrite Hitems in Hv. now injection Hv as <-.
    + intros k Hne. apply Hk. congruence.
  - intros [= <-]. split; [reflexivity|]. split; [discriminate|reflexivity].
Qed.

(** X28: a name that is not registered is rejected everywhere. For such
    a name, whatever the configuration, the validation helper reports
    the one error that the name was not found, [instantiate_plugin]
    raises [ValueError], and so does [execute_distribution_test] for a
    run with that distribution, before any request is sent. *)
Theorem unknown_name_rejected (fuel : nat) (name : string) (config : Dict)
    (path : string) (test_id : string) (c : Executor.RunConfig)
    (w : Executor.World) (st : Executor.RunState) :
  get_plugin_class name = None ->
  validate_distribution_config fuel name config path
  = Ok [(path ++ ".name '" ++ name ++ "' not found")%string]
  /\ instantiate_plugin fuel name config = Some None
  /\ (Executor.distribution c
      = Some {| Executor.plugin_name := name;
                Executor.plugin_config := config |} ->
      Executor.active_tests w !! test_id = Some st ->
      Executor.execute_distribution_test_preflight fuel test_id c w
      = Executor.PreflightRaises "ValueError").
Proof.
  intros Hname. split; [|split].
  - destruct fuel; simpl; now rewrite Hname.
  - unfold instantiate_plugin. now rewrite Hname.
  - intros Hd Hst.
    unfold Executor.execute_distribution_test_preflight,
      Executor._create_distribution_instance, instantiate_plugin.
    rewrite Hst, Hd. simpl. now rewrite Hname.
Qed.

End Normalization.

Section NormalizationExamples.
Import Distributions Examples.

(** A mix whose components are already a list. *)
Lemma normalize_idempotent_witness :
  @normalize_distribution_config stub_runtime "mix" listed_mix
  = Ok listed_mix.
Proof.
  apply (@normalize_idempotent stub_runtime "mix" listed_mix listed_mix).
  reflexivity.
Defined.

(** A distribution called [gaussian]. *)
Lemma unknown_name_rejected_witness :
  @validate_distribution_config stub_runtime 0 "gaussian" [] "distribution"
  = Ok ["distribution.name 'gaussian' not found"].
Proof.
  apply (@unknown_name_rejected stub_runtime 0 "gaussian" [] "distribution"
           "t1" gaussian_run (world_with (state_with "running" None 0))
           (state_with "running" None 0)).
  reflexivity.
Defined.

End NormalizationExamples.

(** ** An iteration of the shape mode at rate zero, and the edges of the
       paced mode *)

Section ZeroRate.
Import Executor Examples Distributions.
Context `{Runtime}.

(** X29: at a rate of zero the shape mode pauses. When the plugin
    returns a rate of zero or less for a running test that is not to
    stop, the iteration schedules no task and broadcasts nothing: it
    stores the rate, keeps the tokens of the bucket, and sleeps a
    quarter of a second. This is what happens at every iteration after
    the end of a validated sequence whose behaviour after the end is
    [zero]. *)
Theorem zero_rate_tick_pauses (fuel : nat) (test_id : string)
    (plugin : Plugin) (target_rps start_time : Q)
    (duration_seconds max_requests : option Z) (locked : bool) (now : Q)
    (timestamp : string) (l : LoopState) (w : World) (st : RunState) :
  active_tests w !! test_id = Some st ->
  _distribution_should_stop st (now - start_time) duration_seconds
    (pending l) max_requests = false ->
  (forall rate g,
     get_rate plugin (now - start_time) target_rps (rng l) = Some (rate, g) ->
     (rate <= 0)%Q ->
     distribution_tick fuel test_id plugin target_rps start_time
       duration_seconds max_requests locked now timestamp l w
     = TickSleeps (1 # 4)
         {| tokens := tokens l; last_tick := now;
            last_broadcast := last_broadcast l; pending := pending l;
            rng := g |}
         (with_state test_id
            (fun _ => set_metrics (set_rps rate (metrics st)) st) w))
  /\ (forall fuel' config,
        initialize fuel' SequenceClass config = Some plugin ->
        validate plugin = true ->
        post_behavior_of plugin = "zero" ->
        (total_duration_of plugin <= now - start_time)%Q ->
        distribution_tick fuel test_id plugin target_rps start_time
          duration_seconds max_requests locked now timestamp l w
        = TickSleeps (1 # 4)
            {| tokens := tokens l; last_tick := now;
               last_broadcast := last_broadcast l; pending := pending l;
               rng := rng l |}
            (with_state test_id
               (fun _ => set_metrics (set_rps 0 (metrics st)) st) w)).
Proof.
  intros Hst Hgo.
  assert (Hzero : forall rate g,
            get_rate plugin (now - start_time) target_rps (rng l)
            = Some (rate, g) ->
            (rate <= 0)%Q ->
            distribution_tick fuel test_id plugin target_rps start_time
              duration_seconds max_requests locked now timestamp l w
            = TickSleeps (1 # 4)
                {| tokens := tokens l; last_tick := now;
                   last_broadcast := last_broadcast l; pending := pending l;
                   rng := g |}
                (with_state test_id
                   (fun _ => set_metrics (set_rps rate (metrics st)) st) w)).
  { intros rate g Hrate Hle. unfold distribution_tick.
    rewrite Hst, Hgo, Hrate. cbn zeta.
    destruct (fle_spec rate 0) as [_|Hgt]; [|contradiction].
    unfold _update_tokens.
    destruct (fle_spec rate 0) as [_|Hgt]; [|contradiction].
    reflexivity. }
  split; [exact Hzero|].
  intros fuel' config Hinit Hvalid Hpost Hafter.
  apply Hzero; [|lra].
  destruct (sequence_initialize_shape fuel' config plugin Hinit)
    as (e & post_behavior & plugins & durations & -> & Hlen).
  destruct (sequence_validate_shape _ _ _ _ _ Hlen Hvalid)
    as (-> & Hne & Hpos & Htotal).
  simpl in Hpost, Hafter. subst post_behavior.
  cbn [get_rate]. unfold sequence_get_rate.
  rewrite Hne. simpl orb. cbn iota.
  destruct (fle_spec (snd (stage_timeline 0 durations)) 0); [lra|].
  unfold _elapsed_for_behavior. simpl.
  destruct (flt_spec (now - start_time) (snd (stage_timeline 0 durations)));
    [lra|].
  reflexivity.
Qed.

End ZeroRate.

Section PacedEdges.
Import Executor Examples.

(** X30: the edges of the paced mode. For a test that is not in the
    store, [execute_duration_test] raises and does nothing; for a test
    whose status is not [running] when the loop is entered, whatever the
    configuration, it sends no request and does not sleep, and its one
    broadcast reports the state as it found it. *)
Theorem paced_mode_edges (env : RequestEnv) (test_id : string)
    (c : RunConfig) (w : World) :
  match active_tests w !! test_id with
  | None =>
      run_duration_test env test_id c w
      = {| paced_world := w; paced_sleeps := []; paced_raised := true |}
  | Some st =>
      status st <> "running" ->
      run_duration_test env test_id c w
      = {| paced_world :=
             {| active_tests := active_tests w;
                broadcasts :=
                  (broadcasts w
                   ++ [(test_id,
                        format_metrics test_id st
                          (timestamp_at env (length (broadcasts w))))])%list;
                terminated := terminated w;
                status_writes := status_writes w |};
           paced_sleeps := []; paced_raised := false |}
  end.
Proof.
  unfold run_duration_test.
  destruct (active_tests w !! test_id) as [st|] eqn:Hst; [|reflexivity].
  intros Hstatus.
  assert (Hloop : forall interval every remaining,
            duration_loop env test_id interval every remaining 0 w
            = {| paced_world := w; paced_sleeps := [];
                 paced_raised := false |}).
  { intros interval every [|remaining]; simpl; [reflexivity|].
    rewrite Hst.
    destruct (String.eqb_spec (status st) "running"); [contradiction|].
    reflexivity. }
  rewrite Hloop. simpl.
  unfold broadcast_now, broadcast_metrics. now rewrite Hst.
Qed.

End PacedEdges.

Section ZeroRateExamples.
Import Executor Examples Distributions.

(** Forty seconds into a run shaped by the two-stage sequence that drops
    to zero after twenty seconds. *)
Lemma zero_rate_tick_pauses_witness :
  exists w',
    @distribution_tick stub_runtime 10 "t1"
      (stub_initialize 1 SequenceClass two_stages_zero) 25 0 None
      (Some 20%Z) false 40 "2026-01-01T00:00:40Z" some_iteration
      (world_with midway_state)
    = TickSleeps (1 # 4) (@Build_LoopState stub_runtime 3 40 39 2 tt) w'.
Proof.
  eexists.
  apply (@zero_rate_tick_pauses stub_runtime 10 "t1"
           (stub_initialize 1 SequenceClass two_stages_zero) 25 0 None
           (Some 20%Z) false 40 "2026-01-01T00:00:40Z" some_iteration
           (world_with midway_state) midway_state)
    with (fuel' := 1%nat) (config := two_stages_zero).
  - apply lookup_singleton_eq.
  - reflexivity.
  - reflexivity.
  - reflexivity.
  - reflexivity.
  - discriminate.
Defined.

(** A test that was stopped before its executor started. *)
Lemma paced_mode_edges_witness :
  paced_sleeps
    (run_duration_test healthy_server "t1" five_users
       (world_with (state_with "stopped" None 0)))
  = [].
Proof.
  pose proof (paced_mode_edges healthy_server "t1" five_users
                (world_with (state_with "stopped" None 0))) as Hedge.
  change (active_tests (world_with (state_with "stopped" None 0)) !! "t1")
    with (({["t1" := state_with "stopped" None 0]} : gmap string RunState)
          !! "t1") in Hedge.
  rewrite lookup_singleton_eq in Hedge.
  rewrite Hedge; [reflexivity|discriminate].
Defined.

End ZeroRateExamples.
